(** * Pharma Insights API: [backend/server.py] embedded and verified

    The handlers of the FastAPI application are translated one by one.
    What Python reads from its surroundings is made explicit:
    - the wall clock is an argument [now] (microseconds since the epoch, UTC,
      the resolution of [datetime]);
    - the random sources ([random], [uuid4], the salt generator) are tapes of
      integers consumed through a cursor ([Entropy]);
    - the Mongo collection [db.users] is a list of documents;
    - the cryptographic primitives behind PyJWT and passlib (HMAC-SHA256 and
      the bcrypt digest) are section variables: every result holds whatever
      these functions compute.
    Python floats are idealised as exact rationals ([Qc]). *)

From Stdlib Require Import ZArith QArith Qcanon Qround Ascii String Sorted Lia Lqa.
From stdpp Require Import gmap strings list fin_maps.

Open Scope Z_scope.

(** ** Python values and exceptions *)

(** [datetime] instants and [timedelta] spans, both in microseconds. *)
Definition datetime := Z.
Definition timedelta := Z.

Definition timedelta_minutes (minutes : Z) : timedelta := minutes * 60000000.
Definition timedelta_days (days : Z) : timedelta := days * 86400000000.

(** [calendar.timegm(t.utctimetuple())]: whole seconds since the epoch; the
    microsecond field of [t] is dropped. *)
Definition timegm (t : datetime) : Z := t / 1000000.

Inductive jwt_error :=
| DecodeError
| InvalidAlgorithmError
| InvalidSignatureError
| ExpiredSignatureError.

Inductive passlib_error :=
| UnknownHashError
| MalformedHashError
| PasswordSizeError
| NullPasswordError.

(** The exception classes the handlers can meet. All of them derive from
    [Exception]; [PyJWTError] is the base class of PyJWT's errors and the
    passlib errors derive from [ValueError]. *)
Inductive exception :=
| HTTPException (status_code : Z) (detail : string)
| PyJWTError (kind : jwt_error)
| PasslibError (kind : passlib_error)
| RequestException (reason : string)
| JSONDecodeError
| KeyError (key : string)
| TypeError
| OverflowError.

(** A computation that returns a value or raises. *)
Definition raises (A : Type) : Type := exception + A.

Definition returns {A} (x : A) : raises A := inr x.
Definition raise {A} (e : exception) : raises A := inl e.

Definition bind_raises {A B} (c : raises A) (k : A -> raises B) : raises B :=
  match c with
  | inl e => inl e
  | inr x => k x
  end.

Notation "'try!' x := c 'in' k" := (bind_raises c (fun x => k))
  (at level 10, x name, c at level 100, k at level 200).

(** What the ASGI layer answers: the status of a raised [HTTPException], 500
    for any other exception, 200 for a returned body. *)
Definition response_status {A} (r : raises A) : Z :=
  match r with
  | inr _ => 200
  | inl (HTTPException status_code _) => status_code
  | inl _ => 500
  end.

(** [datetime.min] and [datetime.max]: 0001-01-01 00:00:00 and
    9999-12-31 23:59:59.999999, which are 719162 days before and
    2932896 days after 1970-01-01. *)
Definition datetime_min : datetime := Eval cbv in -719162 * 86400000000.
Definition datetime_max : datetime := Eval cbv in 2932897 * 86400000000 - 1.

(** [timedelta(days=n)]: more than 999999999 days either way is an
    [OverflowError]. *)
Definition timedelta_of_days (days : Z) : raises timedelta :=
  if 999999999 <? Z.abs days then raise OverflowError
  else returns (timedelta_days days).

(** [t + delta] on a [datetime]: a result outside
    [datetime.min .. datetime.max] is an [OverflowError]. *)
Definition datetime_add (t : datetime) (delta : timedelta) : raises datetime :=
  if (t + delta <? datetime_min) || (datetime_max <? t + delta)
  then raise OverflowError
  else returns (t + delta).

#[global] Instance jwt_error_eq_dec : EqDecision jwt_error.
Proof. solve_decision. Defined.
#[global] Instance passlib_error_eq_dec : EqDecision passlib_error.
Proof. solve_decision. Defined.
#[global] Instance exception_eq_dec : EqDecision exception.
Proof. solve_decision. Defined.

(** ** Strings

    A Python [str] is carried as the bytes of its UTF-8 encoding. *)

Definition is_continuation_byte (c : ascii) : bool :=
  let n := N_of_ascii c in ((128 <=? n) && (n <? 192))%N.

(** [len(s)]: the number of code points, i.e. of bytes that do not continue a
    UTF-8 sequence. *)
Fixpoint py_len (s : string) : Z :=
  match s with
  | EmptyString => 0
  | String c rest => (if is_continuation_byte c then 0 else 1) + py_len rest
  end.

Definition lower_ascii (c : ascii) : ascii :=
  let n := N_of_ascii c in
  if ((65 <=? n) && (n <=? 90))%N then ascii_of_N (n + 32) else c.

(** [s.lower()] on a UTF-8 string, exact wherever the result is compared
    with an ASCII string, which is all the source does with it: the ASCII
    capitals are lowered and KELVIN SIGN (U+212A, the bytes E2 84 AA)
    becomes [k]; it is the one code point outside ASCII whose lower case
    lies inside. The other bytes are kept. *)
Fixpoint lower (s : string) : string :=
  match s with
  | EmptyString => EmptyString
  | String c rest =>
      match c, rest with
      | "226"%char, String "132"%char (String "170"%char after) =>
          String "k"%char (lower after)
      | _, _ => String (lower_ascii c) (lower rest)
      end
  end.

Fixpoint contains_byte (b : ascii) (s : string) : bool :=
  match s with
  | EmptyString => false
  | String c rest => Ascii.eqb b c || contains_byte b rest
  end.

(** [s[:n]] on bytes. *)
Fixpoint take_bytes (n : nat) (s : string) : string :=
  match n, s with
  | O, _ => EmptyString
  | S _, EmptyString => EmptyString
  | S n', String c rest => String c (take_bytes n' rest)
  end.

(** Truthiness of an [Optional[str]]: [None] and the empty string are falsy. *)
Definition truthy (s : option string) : bool :=
  match s with
  | Some (String _ _) => true
  | _ => false
  end.

(** ** Entropy

    [random] (the Mersenne twister) and [os.urandom] (behind [uuid4] and the
    salt generator) are read from two tapes. *)
Record Entropy := mkEntropy {
  mt_tape : nat -> Z;
  mt_pos : nat;
  os_tape : nat -> Z;
  os_pos : nat
}.

Definition State (A : Type) : Type := Entropy -> A * Entropy.

Definition ret {A} (x : A) : State A := fun e => (x, e).
Definition bind {A B} (c : State A) (k : A -> State B) : State B :=
  fun e => let p := c e in k (fst p) (snd p).

Notation "'let!' x := c 'in' k" := (bind c (fun x => k))
  (at level 10, x name, c at level 100, k at level 200).

Definition next_mt : State Z :=
  fun e => (mt_tape e (mt_pos e),
            mkEntropy (mt_tape e) (S (mt_pos e)) (os_tape e) (os_pos e)).

Definition next_os : State Z :=
  fun e => (os_tape e (os_pos e),
            mkEntropy (mt_tape e) (mt_pos e) (os_tape e) (S (os_pos e))).

(** [for x in xs: ys.append(body(x))]. *)
Fixpoint for_each {A B} (body : A -> State B) (xs : list A) : State (list B) :=
  match xs with
  | [] => ret []
  | x :: rest =>
      let! y := body x in
      let! ys := for_each body rest in
      ret (y :: ys)
  end.

(** The same loop with a body that may raise: it ends at the first
    exception, with what was drawn until then consumed. *)
Fixpoint for_each_raising {A B} (body : A -> State (raises B)) (xs : list A)
    : State (raises (list B)) :=
  match xs with
  | [] => ret (returns [])
  | x :: rest =>
      let! r := body x in
      match r with
      | inl e => ret (raise e)
      | inr y =>
          let! rs := for_each_raising body rest in
          ret (try! ys := rs in returns (y :: ys))
      end
  end.

(** [str(uuid.uuid4())], carried as the number the string spells. *)
Definition uuid4 : State Z :=
  let! r := next_os in ret (r mod 2 ^ 128).

(** ** PyJWT

    A JWS in compact serialisation is carried parsed: the header's [alg], the
    claim set and the signature. A bearer string that is not the compact
    serialisation of any JWS is [Opaque]. The claim set is typed: [sub] is a
    string and [exp] a time, both optional. *)

Record claims (T : Type) := Claims {
  sub : option string;
  exp : option T
}.
Arguments Claims {T} _ _.
Arguments sub {T} _.
Arguments exp {T} _.

Record jws := JWS {
  jws_alg : string;
  jws_payload : claims Z;
  jws_signature : string
}.

Inductive token :=
| Compact (j : jws)
| Opaque (raw : string).

(** The string is empty. *)
Definition token_empty (t : token) : bool :=
  match t with
  | Opaque EmptyString => true
  | _ => false
  end.

Section PyJWT.

(** HMAC-SHA256 of the signing input (header and payload) under a key. *)
Variable hmac_sha256 : string -> string * claims Z -> string.

(** [jwt.encode(payload, key, algorithm)]: a [datetime] under [exp] is
    replaced by [timegm] of it, then the token is signed. *)
Definition jwt_encode (payload : claims datetime) (key algorithm : string) : token :=
  let body := Claims (sub payload) (timegm <$> exp payload) in
  Compact (JWS algorithm body (hmac_sha256 key (algorithm, body))).

(** [jwt.decode(token, key, algorithms)] at wall-clock time [now]: parse,
    check the algorithm and the signature, then the expiry
    ([exp <= now] raises, [now] in seconds). *)
Definition jwt_decode (now : datetime) (tok : token) (key : string)
    (algorithms : list string) : raises (claims Z) :=
  match tok with
  | Opaque _ => raise (PyJWTError DecodeError)
  | Compact j =>
      if negb (bool_decide (jws_alg j ∈ algorithms))
      then raise (PyJWTError InvalidAlgorithmError)
      else if negb (String.eqb (jws_signature j)
                      (hmac_sha256 key (jws_alg j, jws_payload j)))
      then raise (PyJWTError InvalidSignatureError)
      else match exp (jws_payload j) with
           | Some e =>
               if e * 1000000 <=? now
               then raise (PyJWTError ExpiredSignatureError)
               else returns (jws_payload j)
           | None => returns (jws_payload j)
           end
  end.

End PyJWT.

(** The expiry a token carries: the issue time plus the lifetime, cut to
    whole seconds. *)
Definition expiry_of (issued : datetime) (ttl : timedelta) : datetime :=
  timegm (issued + ttl) * 1000000.

(** ** FastAPI's [HTTPBearer]

    The [Authorization] header is carried split at its first space, as
    [get_authorization_scheme_param] splits it. *)

Record HTTPAuthorizationCredentials := mkCredentials {
  scheme : string;
  credentials : token
}.

Record Request := mkRequest {
  authorization : option (string * token)
}.

(** [HTTPBearer.__call__] with [auto_error=True], as in the FastAPI releases
    before 0.122: a missing header, an empty scheme or empty credentials, and
    a scheme other than bearer are answered 403. *)
Definition HTTPBearer (request : Request) : raises HTTPAuthorizationCredentials :=
  match authorization request with
  | None => raise (HTTPException 403 "Not authenticated")
  | Some (sch, cred) =>
      if negb (truthy (Some sch)) || token_empty cred
      then raise (HTTPException 403 "Not authenticated")
      else if negb (String.eqb (lower sch) "bearer")
      then raise (HTTPException 403 "Invalid authentication credentials")
      else returns (mkCredentials sch cred)
  end.

(** ** The Mongo collection *)

(** A stored password hash is carried parsed
    ([$2b$<rounds>$<salt><checksum>]); any other string is [NotBcrypt]. *)
Inductive hash_string :=
| Bcrypt (rounds : Z) (salt : Z) (checksum : string)
| NotBcrypt (raw : string).

(** Field values of a user document: strings, the string of a UUID, the
    ISO-8601 string of an instant, a password hash string, an [ObjectId]. *)
Inductive value :=
| VStr (s : string)
| VUuid (n : Z)
| VIso (t : datetime)
| VHash (h : hash_string)
| VObjectId (n : Z).

#[global] Instance hash_string_eq_dec : EqDecision hash_string.
Proof. solve_decision. Defined.
#[global] Instance value_eq_dec : EqDecision value.
Proof. solve_decision. Defined.

(** [doc[key]]. *)
Definition getitem (doc : gmap string value) (key : string) : raises value :=
  match doc !! key with
  | Some v => returns v
  | None => raise (KeyError key)
  end.

Record database := mkDatabase {
  users : list (gmap string value)
}.

(** [collection.find_one({field: v}, {k: 0 for k in excluded})]: the first
    document whose [field] is [v], without the excluded keys. *)
Definition find_one (collection : list (gmap string value)) (field : string)
    (v : value) (excluded : list string) : option (gmap string value) :=
  (fun doc => foldr delete doc excluded)
    <$> List.find (fun doc => bool_decide (doc !! field = Some v)) collection.

(** [collection.insert_one(doc)]: the driver adds a fresh [_id]. *)
Definition insert_one (collection : list (gmap string value))
    (doc : gmap string value) : State (list (gmap string value)) :=
  let! oid := next_os in
  ret (collection ++ [<["_id" := VObjectId oid]> doc]).

(** ** passlib's [CryptContext(schemes=["bcrypt"])] *)

Definition MAX_PASSWORD_SIZE : Z := 4096.

Definition bcrypt_ident_values : list string :=
  ["$2$"; "$2a$"; "$2x$"; "$2y$"; "$2b$"]%string.

Section Passlib.

(** The bcrypt digest for a cost, a salt and a key; the key schedule reads
    at most 72 bytes of the key. *)
Variable bcrypt : Z -> Z -> string -> string.

Definition bcrypt_hashpw (rounds salt : Z) (secret : string) : string :=
  bcrypt rounds salt (take_bytes 72 secret).

(** [passlib.utils.handlers.validate_secret]. *)
Definition validate_secret (secret : string) : raises unit :=
  if MAX_PASSWORD_SIZE <? py_len secret
  then raise (PasslibError PasswordSizeError)
  else returns tt.

(** The bcrypt handler computes a checksum only for a secret without NUL. *)
Definition calc_checksum (rounds salt : Z) (secret : string) : raises string :=
  if contains_byte zero secret
  then raise (PasslibError NullPasswordError)
  else returns (bcrypt_hashpw rounds salt secret).

(** [pwd_context.hash(secret)] with the salt the generator draws. *)
Definition pwd_context_hash (secret : string) (salt : Z) : raises hash_string :=
  try! _ := validate_secret secret in
  try! checksum := calc_checksum 12 salt secret in
  returns (Bcrypt 12 salt checksum).

(** [pwd_context.verify(secret, hash)]: a hash that no scheme identifies
    raises [UnknownHashError]; one that carries a bcrypt prefix and does not
    parse raises [MalformedHashError]. *)
Definition pwd_context_verify (secret : string) (hash : hash_string) : raises bool :=
  match hash with
  | NotBcrypt raw =>
      if existsb (fun ident => String.prefix ident raw) bcrypt_ident_values
      then try! _ := validate_secret secret in
           raise (PasslibError MalformedHashError)
      else raise (PasslibError UnknownHashError)
  | Bcrypt rounds salt checksum =>
      try! _ := validate_secret secret in
      try! computed := calc_checksum rounds salt secret in
      returns (String.eqb computed checksum)
  end.

End Passlib.

(** ** [server.py]: settings, models and helper functions *)

Definition ALGORITHM : string := "HS256".
Definition ACCESS_TOKEN_EXPIRE_MINUTES : Z := 1440.

Record UserCreate := mkUserCreate {
  uc_email : string;
  uc_name : string;
  uc_password : string
}.

Record UserLogin := mkUserLogin {
  ul_email : string;
  ul_password : string
}.

Record Token := mkToken {
  access_token : token;
  token_type : string;
  user : gmap string value
}.

Section Auth.

Variable hmac_sha256 : string -> string * claims Z -> string.
Variable bcrypt : Z -> Z -> string -> string.
(** [os.environ.get('JWT_SECRET_KEY', ...)] *)
Variable SECRET_KEY : string.

Definition verify_password (plain_password : string) (hashed_password : hash_string)
    : raises bool :=
  pwd_context_verify bcrypt plain_password hashed_password.

Definition get_password_hash (password : string) : State (raises hash_string) :=
  let! salt := next_os in
  ret (pwd_context_hash bcrypt password salt).

(** [create_access_token]; [now] is what [datetime.now(timezone.utc)]
    reads. A [timedelta] of zero is falsy, like [None]. *)
Definition create_access_token (now : datetime) (data : claims datetime)
    (expires_delta : option timedelta) : token :=
  let to_encode := data in
  let expire :=
    match expires_delta with
    | Some delta => if delta =? 0 then now + timedelta_minutes 15 else now + delta
    | None => now + timedelta_minutes 15
    end in
  let to_encode := Claims (sub to_encode) (Some expire) in
  jwt_encode hmac_sha256 to_encode SECRET_KEY ALGORITHM.

(** The [try] block of [get_current_user]: the subject of a token that
    verifies, 401 otherwise. The [HTTPException] raised inside the block is
    not a [PyJWTError] and passes the handler. *)
Definition token_subject (now : datetime) (tok : token) : raises string :=
  match jwt_decode hmac_sha256 now tok SECRET_KEY [ALGORITHM] with
  | inr payload =>
      match sub payload with
      | Some email => returns email
      | None => raise (HTTPException 401 "Invalid token")
      end
  | inl (PyJWTError _) => raise (HTTPException 401 "Invalid token")
  | inl e => raise e
  end.

Definition get_current_user (db : database) (now : datetime)
    (creds : HTTPAuthorizationCredentials) : raises (gmap string value) :=
  let tok := credentials creds in
  try! email := token_subject now tok in
  match find_one (users db) "email" (VStr email) ["_id"; "password_hash"]%string with
  | None => raise (HTTPException 401 "User not found")
  | Some found => returns found
  end.

(** [Depends(get_current_user)], itself behind [Depends(security)]: what a
    protected route does before its handler runs. *)
Definition current_user_of (db : database) (now : datetime) (request : Request)
    : raises (gmap string value) :=
  try! creds := HTTPBearer request in
  get_current_user db now creds.

Definition protected {A} (db : database) (now : datetime) (request : Request)
    (handler : gmap string value -> raises A) : raises A :=
  try! current_user := current_user_of db now request in
  handler current_user.

(** *** Auth routes *)

(** [POST /api/auth/register]. [created] is the clock read by the [User]
    model, [now] the one read when the token is issued. *)
Definition register (user_data : UserCreate) (db : database)
    (created now : datetime) : State (raises Token * database) :=
  match find_one (users db) "email" (VStr (uc_email user_data)) [] with
  | Some _ => ret (raise (HTTPException 400 "Email already registered"), db)
  | None =>
      let! id := uuid4 in
      let user_dict : gmap string value :=
        <["created_at" := VIso created]>
          (<["id" := VUuid id]>
             (<["name" := VStr (uc_name user_data)]>
                (<["email" := VStr (uc_email user_data)]> ∅))) in
      let! hashed := get_password_hash (uc_password user_data) in
      match hashed with
      | inl e => ret (raise e, db)
      | inr h =>
          let user_dict := <["password_hash" := VHash h]> user_dict in
          let! stored := insert_one (users db) user_dict in
          let access_token_expires := timedelta_minutes ACCESS_TOKEN_EXPIRE_MINUTES in
          let tok := create_access_token now
                       (Claims (Some (uc_email user_data)) None)
                       (Some access_token_expires) in
          ret (returns (mkToken tok "bearer"
                          (<["name" := VStr (uc_name user_data)]>
                             (<["email" := VStr (uc_email user_data)]>
                                (<["id" := VUuid id]> ∅)))),
               mkDatabase stored)
      end
  end.

(** [register] with its two awaits apart: [seen] is the collection that
    [await db.users.find_one] reads and [db] the collection that
    [await db.users.insert_one] appends to; other requests may have run in
    between. [register] is the case in which none did. *)
Definition register_interleaved (user_data : UserCreate) (seen db : database)
    (created now : datetime) : State (raises Token * database) :=
  match find_one (users seen) "email" (VStr (uc_email user_data)) [] with
  | Some _ => ret (raise (HTTPException 400 "Email already registered"), db)
  | None =>
      let! id := uuid4 in
      let user_dict : gmap string value :=
        <["created_at" := VIso created]>
          (<["id" := VUuid id]>
             (<["name" := VStr (uc_name user_data)]>
                (<["email" := VStr (uc_email user_data)]> ∅))) in
      let! hashed := get_password_hash (uc_password user_data) in
      match hashed with
      | inl e => ret (raise e, db)
      | inr h =>
          let user_dict := <["password_hash" := VHash h]> user_dict in
          let! stored := insert_one (users db) user_dict in
          let access_token_expires := timedelta_minutes ACCESS_TOKEN_EXPIRE_MINUTES in
          let tok := create_access_token now
                       (Claims (Some (uc_email user_data)) None)
                       (Some access_token_expires) in
          ret (returns (mkToken tok "bearer"
                          (<["name" := VStr (uc_name user_data)]>
                             (<["email" := VStr (uc_email user_data)]>
                                (<["id" := VUuid id]> ∅)))),
               mkDatabase stored)
      end
  end.

(** The string a user document stores under [email]. *)
Definition subject_of (v : value) : raises string :=
  match v with
  | VStr s => returns s
  | _ => raise TypeError
  end.

(** What passlib is handed when it reads a stored [password_hash]. *)
Definition stored_hash (v : value) : raises hash_string :=
  match v with
  | VHash h => returns h
  | VStr s => returns (NotBcrypt s)
  | _ => raise TypeError
  end.

(** [POST /api/auth/login]. *)
Definition login (user_data : UserLogin) (db : database) (now : datetime)
    : raises Token :=
  match find_one (users db) "email" (VStr (ul_email user_data)) [] with
  | None => raise (HTTPException 401 "Invalid email or password")
  | Some found =>
      try! stored := getitem found "password_hash" in
      try! h := stored_hash stored in
      try! ok := verify_password (ul_password user_data) h in
      if negb ok then raise (HTTPException 401 "Invalid email or password")
      else
        let access_token_expires := timedelta_minutes ACCESS_TOKEN_EXPIRE_MINUTES in
        try! email_v := getitem found "email" in
        try! email := subject_of email_v in
        let tok := create_access_token now (Claims (Some email) None)
                     (Some access_token_expires) in
        try! id := getitem found "id" in
        try! name := getitem found "name" in
        returns (mkToken tok "bearer"
                   (<["name" := name]> (<["email" := email_v]> (<["id" := id]> ∅))))
  end.

(** [GET /api/auth/me]. *)
Definition get_me (current_user : gmap string value) : raises (gmap string value) :=
  returns current_user.

Definition get_me_route (db : database) (now : datetime) (request : Request)
    : raises (gmap string value) :=
  protected db now request get_me.

End Auth.

(** ** Numbers, dates, slices and dictionaries *)

(** A decimal literal [n/d] as a float. *)
Definition dec (n : Z) (d : positive) : Qc := Q2Qc (n # d).

Definition of_int (z : Z) : Qc := Q2Qc (inject_Z z).

(** [int(x)]: truncation toward zero. *)
Definition py_int (x : Qc) : Z := Z.quot (Qnum (this x)) (Z.pos (Qden (this x))).

Definition py_floor (x : Qc) : Z := Qfloor (this x).

(** Rounding of a rational to the nearest integer, ties to even. *)
Definition round_half_even (q : Q) : Z :=
  let f := Qfloor q in
  match ((q - inject_Z f) ?= (1 # 2))%Q with
  | Lt => f
  | Gt => f + 1
  | Eq => if Z.even f then f else f + 1
  end.

(** [round(x, 2)]. *)
Definition py_round2 (x : Qc) : Qc :=
  Q2Qc (round_half_even (this x * inject_Z 100) # 100).

(** [sum(xs)] for floats and for ints. *)
Definition sum_float (xs : list Qc) : Qc := fold_left Qcplus xs (of_int 0).
Definition sum_int (xs : list Z) : Z := fold_left Z.add xs 0.

Definition len {A} (l : list A) : Z := Z.of_nat (length l).

(** [range(n)] and [range(a, b)]. *)
Definition range (n : Z) : list Z := Z.of_nat <$> seq 0 (Z.to_nat n).
Definition range_from (a b : Z) : list Z :=
  (fun i => a + Z.of_nat i) <$> seq 0 (Z.to_nat (b - a)).

(** [l[:k]]: a negative [k] counts from the end; out of range never raises. *)
Definition slice_to {A} (k : Z) (l : list A) : list A :=
  if k <? 0 then take (Z.to_nat (Z.max 0 (len l + k))) l
  else take (Z.to_nat k) l.

(** [l[-k:]] for a positive [k]: the last [k] elements, all of [l] if it is
    shorter. *)
Definition slice_last {A} (k : nat) (l : list A) : list A :=
  drop (length l - k) l.

(** [l[-k]] for [1 <= k <= len(l)], where the source only indexes. *)
Definition item_from_end (k : nat) (l : list Z) : Z :=
  nth (length l - k) l 0.

Definition day_us : Z := 86400000000.

(** [t.strftime("%Y-%m-%d")]. The string is carried as the number of the UTC
    day it spells (days since 1970-01-01): the rendering is one-to-one, and
    for four-digit years the order of the strings is the order of the days. *)
Definition strftime_Ymd (t : datetime) : Z := t / day_us.

(** [datetime.strptime(s, "%Y-%m-%d")]: midnight of that day. *)
Definition strptime_Ymd (s : Z) : datetime := s * day_us.

(** [t.weekday()]: Monday is 0; 1970-01-01 was a Thursday. *)
Definition weekday (t : datetime) : Z := (t / day_us + 3) mod 7.

(** A [dict] keeps its keys in insertion order; assigning to a key that is
    present keeps its position. *)
Section Dict.
Context {K V : Type} `{EqDecision K}.

Fixpoint dict_get (d : list (K * V)) (k : K) : option V :=
  match d with
  | [] => None
  | (k', v) :: rest => if decide (k' = k) then Some v else dict_get rest k
  end.

Fixpoint dict_set (d : list (K * V)) (k : K) (v : V) : list (K * V) :=
  match d with
  | [] => [(k, v)]
  | (k', v') :: rest =>
      if decide (k' = k) then (k, v) :: rest else (k', v') :: dict_set rest k v
  end.

(** [d.get(k, default)] *)
Definition dict_get_default (d : list (K * V)) (k : K) (default : V) : V :=
  match dict_get d k with
  | Some v => v
  | None => default
  end.

Definition dict_keys (d : list (K * V)) : list K := fst <$> d.
End Dict.

(** [sorted(keys)], ascending. *)
Fixpoint insert_asc (x : Z) (l : list Z) : list Z :=
  match l with
  | [] => [x]
  | y :: rest => if x <=? y then x :: l else y :: insert_asc x rest
  end.

Definition sorted (l : list Z) : list Z := foldr insert_asc [] l.

Definition Qc_ltb (x y : Qc) : bool :=
  match Qclt_le_dec x y with
  | left _ => true
  | right _ => false
  end.

(** [sorted(items, key=lambda x: x[1], reverse=True)]: descending by value,
    items of equal value in their original order. *)
Fixpoint insert_desc {A} (x : A * Qc) (l : list (A * Qc)) : list (A * Qc) :=
  match l with
  | [] => [x]
  | y :: rest => if Qc_ltb (snd x) (snd y) then y :: insert_desc x rest else x :: l
  end.

Definition sorted_by_value_desc {A} (l : list (A * Qc)) : list (A * Qc) :=
  foldr insert_desc [] l.

(** ** The [random] module *)

(** [random.random()]: 53 random bits over 2^53. *)
Definition random_random : State Qc :=
  let! r := next_mt in
  ret (Q2Qc (r mod 2 ^ 53 # 2 ^ 53)).

(** [random.uniform(a, b)] is [a + (b - a) * random()]. *)
Definition random_uniform (a b : Qc) : State Qc :=
  let! u := random_random in
  ret (a + (b - a) * u)%Qc.

(** [random.randint(a, b)]: an integer of [a..b]. *)
Definition random_randint (a b : Z) : State Z :=
  let! r := next_mt in
  ret (a + r mod (b - a + 1)).

(** ** Sales routes *)

Record Drug := mkDrug {
  name : string;
  category : string;
  base_price : Qc
}.

Definition DRUGS_DATA : list Drug := [
  mkDrug "Paracetamol" "Pain Relief" (dec 599 100);
  mkDrug "Amoxicillin" "Antibiotics" (dec 1299 100);
  mkDrug "Omeprazole" "Digestive" (dec 849 100);
  mkDrug "Metformin" "Diabetes" (dec 1599 100);
  mkDrug "Lisinopril" "Cardiovascular" (dec 1899 100);
  mkDrug "Atorvastatin" "Cardiovascular" (dec 2249 100);
  mkDrug "Ibuprofen" "Pain Relief" (dec 699 100);
  mkDrug "Ciprofloxacin" "Antibiotics" (dec 1499 100);
  mkDrug "Amlodipine" "Cardiovascular" (dec 1699 100);
  mkDrug "Gabapentin" "Neurological" (dec 2499 100)
].

Record Sale := mkSale {
  sale_id : Z;
  drug_name : string;
  sale_category : string;
  units_sold : Z;
  revenue : Qc;
  date : Z
}.

(** The body of the inner loop of [generate_mock_sales_data]. *)
Definition generate_row (date : datetime) (date_str : Z) (drug : Drug) : State Sale :=
  let! base_units := random_randint 50 200 in
  let day_factor := if weekday date <? 5 then dec 12 10 else dec 8 10 in
  let! noise := random_uniform (dec 7 10) (dec 13 10) in
  let units := py_int (of_int base_units * day_factor * noise)%Qc in
  let! noise2 := random_uniform (dec 9 10) (dec 11 10) in
  let revenue := py_round2 (of_int units * base_price drug * noise2)%Qc in
  let! id := uuid4 in
  ret (mkSale id (name drug) (category drug) units revenue date_str).

(** [generate_mock_sales_data]; [now] is what [datetime.now(timezone.utc)]
    reads. *)
Definition generate_mock_sales_data (now : datetime) : State (list Sale) :=
  let base_date := now in
  let! days :=
    for_each (fun days_ago =>
      let date := base_date - timedelta_days days_ago in
      let date_str := strftime_Ymd date in
      for_each (generate_row date date_str) DRUGS_DATA) (range 180) in
  ret (concat days).

Definition same_drug (drug : string) (s : Sale) : bool :=
  String.eqb (lower (drug_name s)) (lower drug).

Record SalesResponse := mkSalesResponse {
  sales : list Sale;
  total : Z
}.

(** [GET /api/sales]. *)
Definition get_sales (days : Z) (drug : option string) (now : datetime)
    : State SalesResponse :=
  let! all_sales := generate_mock_sales_data now in
  let filtered_sales := slice_to (days * len DRUGS_DATA) all_sales in
  let filtered_sales :=
    match drug with
    | Some (String c rest) => List.filter (same_drug (String c rest)) filtered_sales
    | _ => filtered_sales
    end in
  ret (mkSalesResponse filtered_sales (len filtered_sales)).

Record Entry := mkEntry {
  entry_name : string;
  entry_revenue : Qc;
  entry_units : Z
}.

Record Metrics := mkMetrics {
  total_revenue : Qc;
  total_units : Z;
  avg_daily_demand : Qc;
  top_drugs : list Entry;
  categories : list Entry;
  period : string
}.

(** The first loop of [get_sales_metrics], over both dictionaries. *)
Definition per_drug (recent_sales : list Sale)
    : list (string * Qc) * list (string * Z) :=
  fold_left
    (fun '(drug_revenues, drug_units) sale =>
       (dict_set drug_revenues (drug_name sale)
          (dict_get_default drug_revenues (drug_name sale) (of_int 0) + revenue sale)%Qc,
        dict_set drug_units (drug_name sale)
          (dict_get_default drug_units (drug_name sale) 0 + units_sold sale)))
    recent_sales ([], []).

(** One turn of the category loop. *)
Definition add_to_category (category_data : list (string * (Qc * Z))) (sale : Sale)
    : list (string * (Qc * Z)) :=
  let category_data :=
    match dict_get category_data (sale_category sale) with
    | None => dict_set category_data (sale_category sale) (of_int 0, 0)
    | Some _ => category_data
    end in
  let '(r, u) := dict_get_default category_data (sale_category sale) (of_int 0, 0) in
  dict_set category_data (sale_category sale)
    ((r + revenue sale)%Qc, u + units_sold sale).

Definition per_category (recent_sales : list Sale) : list (string * (Qc * Z)) :=
  fold_left add_to_category recent_sales [].

(** The aggregation of [get_sales_metrics] over the generated rows. *)
Definition sales_metrics (all_sales : list Sale) : Metrics :=
  let recent_sales := slice_to (30 * len DRUGS_DATA) all_sales in
  let total_revenue := sum_float (revenue <$> recent_sales) in
  let total_units := sum_int (units_sold <$> recent_sales) in
  let avg_daily_demand := (of_int total_units / of_int 30)%Qc in
  let '(drug_revenues, drug_units) := per_drug recent_sales in
  let top_drugs := take 5 (sorted_by_value_desc drug_revenues) in
  let category_data := per_category recent_sales in
  mkMetrics
    (py_round2 total_revenue)
    total_units
    (py_round2 avg_daily_demand)
    ((fun '(name, rev) =>
        mkEntry name (py_round2 rev) (dict_get_default drug_units name 0))
       <$> top_drugs)
    ((fun '(cat, (r, u)) => mkEntry cat (py_round2 r) u) <$> category_data)
    "Last 30 days".

(** [GET /api/sales/metrics]. *)
Definition get_sales_metrics (now : datetime) : State Metrics :=
  let! all_sales := generate_mock_sales_data now in
  ret (sales_metrics all_sales).

(** ** Predict route *)

#[warnings="-register-all"]
Inductive json :=
| JNull
| JBool (b : bool)
| JNumber (x : Qc)
| JString (s : string)
| JArray (items : list json)
| JObject (members : list (string * json)).

(** A [requests.Response]: [json_body] is what [response.json()] parses, or
    [None] where the body is not JSON. *)
Record Response := mkResponse {
  status : Z;
  json_body : option json
}.

Definition response_json (r : Response) : raises json :=
  match json_body r with
  | Some j => returns j
  | None => raise JSONDecodeError
  end.

Record Forecast := mkForecast {
  historical_dates : list Z;
  historical_values : list Z;
  forecast_dates : list Z;
  predicted : list Z;
  forecast_drug : string;
  forecast_status : string;
  model : string;
  lower_bound : list Z;
  upper_bound : list Z
}.

Inductive ForecastBody :=
| Relayed (body : json)
| ErrorPayload (error : string) (error_status : string)
| Mock (f : Forecast).

(** The loop that groups units by date; [drug] is the filter already known
    to be truthy, or [None]. *)
Definition group_by_date (drug : option string) (recent_sales : list Sale)
    : list (Z * Z) :=
  fold_left
    (fun daily_data sale =>
       if match drug with
          | Some (String c rest) => negb (same_drug (String c rest) sale)
          | _ => false
          end
       then daily_data
       else
         let daily_data :=
           match dict_get daily_data (date sale) with
           | None => dict_set daily_data (date sale) 0
           | Some _ => daily_data
           end in
         dict_set daily_data (date sale)
           (dict_get_default daily_data (date sale) 0 + units_sold sale))
    recent_sales [].

(** The moving average and the trend of the mock forecast. *)
Definition moving_average (actual_values : list Z) : Qc * Qc :=
  if 7 <? len actual_values then
    ((of_int (sum_int (slice_last 7 actual_values)) / of_int 7)%Qc,
     if 7 <? len actual_values
     then (of_int (item_from_end 1 actual_values - item_from_end 7 actual_values)
             / of_int 7)%Qc
     else of_int 0)
  else
    (match actual_values with
     | [] => of_int 100
     | _ => (of_int (sum_int actual_values) / of_int (len actual_values))%Qc
     end,
     of_int 0).

(** One turn of the prediction loop. [last_date + timedelta(days=i)] raises
    [OverflowError] past [datetime.max], before anything is drawn. *)
Definition predict_day (last_date : datetime) (avg trend : Qc) (i : Z)
    : State (raises (Z * Z)) :=
  match (try! delta := timedelta_of_days i in datetime_add last_date delta) with
  | inl e => ret (raise e)
  | inr future_date =>
      let! noise := random_uniform (- avg * dec 1 10)%Qc (avg * dec 1 10)%Qc in
      let pred := (avg + trend * of_int i + noise)%Qc in
      ret (returns (strftime_Ymd future_date, Z.max 0 (py_int pred)))
  end.

(** The dictionary the mock branch returns. *)
Definition forecast_body (sorted_dates actual_values : list Z)
    (days_out : list (Z * Z)) (drug : option string) : Forecast :=
  let future_dates := fst <$> days_out in
  let predicted_values := snd <$> days_out in
  mkForecast
    (slice_last 30 sorted_dates)
    (slice_last 30 actual_values)
    future_dates
    predicted_values
    (match drug with Some (String c rest) => String c rest | _ => "All Drugs" end)
    "mock"
    "SARIMA (Mock)"
    ((fun v => Z.max 0 (py_int (of_int v * dec 85 100)%Qc)) <$> predicted_values)
    ((fun v => py_int (of_int v * dec 115 100)%Qc) <$> predicted_values).

(** The mock branch of [get_forecast], from the generated rows on. *)
Definition forecast_from_sales (all_sales : list Sale) (drug : option string)
    (days : Z) (now : datetime) : State (raises Forecast) :=
  let recent_sales := slice_to (60 * len DRUGS_DATA) all_sales in
  let daily_data := group_by_date drug recent_sales in
  let sorted_dates := sorted (dict_keys daily_data) in
  let actual_values := (fun d => dict_get_default daily_data d 0) <$> sorted_dates in
  let '(avg, trend) := moving_average actual_values in
  let last_date :=
    match last sorted_dates with
    | Some d => strptime_Ymd d
    | None => now
    end in
  let! days_out :=
    for_each_raising (predict_day last_date avg trend) (range_from 1 (days + 1)) in
  ret (try! days_out := days_out in
       returns (forecast_body sorted_dates actual_values days_out drug)).

(** The mock branch of [get_forecast]. *)
Definition mock_forecast (drug : option string) (days : Z) (now : datetime)
    : State (raises Forecast) :=
  let! all_sales := generate_mock_sales_data now in
  forecast_from_sales all_sales drug days now.

(** [GET /api/predict]. [ML_API_URL] is the environment's setting and
    [requests_get] what the network answers to
    [requests.get(f"{ML_API_URL}/predict", params={"drug": drug, "days": days})].
    The relay is inside [try]/[except Exception]; the mock branch is not,
    so what it raises leaves the handler. *)
Definition get_forecast (ML_API_URL : option string)
    (requests_get : string -> option string -> Z -> raises Response)
    (drug : option string) (days : Z) (now : datetime)
    : State (raises ForecastBody) :=
  match ML_API_URL with
  | Some (String c rest) =>
      let url := String c rest in
      match (try! response := requests_get (url ++ "/predict")%string drug days in
             response_json response) with
      | inr body => ret (returns (Relayed body))
      | inl _ =>
          ret (returns (ErrorPayload "Failed to fetch from external ML API" "error"))
      end
  | _ =>
      let! f := mock_forecast drug days now in
      ret (try! f := f in returns (Mock f))
  end.

(** ** Protected routes *)

Section Routes.

Variable hmac_sha256 : string -> string * claims Z -> string.
Variable SECRET_KEY : string.

(** A handler that reads the random sources, behind
    [Depends(get_current_user)]; [auth_time] is the clock read when the
    token is verified. *)
Definition protected_state {A} (db : database) (auth_time : datetime)
    (request : Request) (handler : State A) : State (raises A) :=
  match current_user_of hmac_sha256 SECRET_KEY db auth_time request with
  | inl e => ret (raise e)
  | inr _ => let! body := handler in ret (returns body)
  end.

(** The same for a handler that may itself raise. *)
Definition protected_raising {A} (db : database) (auth_time : datetime)
    (request : Request) (handler : State (raises A)) : State (raises A) :=
  match current_user_of hmac_sha256 SECRET_KEY db auth_time request with
  | inl e => ret (raise e)
  | inr _ => handler
  end.

Definition get_sales_route (db : database) (auth_time : datetime)
    (request : Request) (days : Z) (drug : option string) (now : datetime)
    : State (raises SalesResponse) :=
  protected_state db auth_time request (get_sales days drug now).

Definition get_sales_metrics_route (db : database) (auth_time : datetime)
    (request : Request) (now : datetime) : State (raises Metrics) :=
  protected_state db auth_time request (get_sales_metrics now).

Definition get_forecast_route (ML_API_URL : option string)
    (requests_get : string -> option string -> Z -> raises Response)
    (db : database) (auth_time : datetime) (request : Request)
    (drug : option string) (days : Z) (now : datetime)
    : State (raises ForecastBody) :=
  protected_raising db auth_time request
    (get_forecast ML_API_URL requests_get drug days now).

End Routes.

(** ** Sample instances of the primitives, for closed examples *)

Definition sample_hmac (key : string) (input : string * claims Z) : string :=
  (key ++ "." ++ fst input ++ "." ++ default "" (sub (snd input)))%string.

Definition sample_bcrypt (rounds salt : Z) (key : string) : string := key.

Definition sample_entropy : Entropy :=
  mkEntropy (fun n => Z.of_nat n * 7919 + 13) 0 (fun n => Z.of_nat n + 1) 0.

(** A stored user and a database holding it, for closed examples. *)
Definition sample_user : gmap string value :=
  <["_id" := VObjectId 7]>
    (<["password_hash" := VHash (Bcrypt 12 5 "pw123")]>
       (<["created_at" := VIso 0]>
          (<["id" := VUuid 1]>
             (<["name" := VStr "Alice"]>
                (<["email" := VStr "alice@x.com"]> ∅))))).

Definition sample_db : database := mkDatabase [sample_user].

(** [document.pop("_id"); document.pop("password_hash")]: what the projection
    of [get_current_user] leaves of a document. *)
Definition without_id_and_hash (doc : gmap string value) : gmap string value :=
  delete "_id" (delete "password_hash" doc).


(** The secrets passlib accepts: at most [MAX_PASSWORD_SIZE] characters and
    no NUL byte. *)
Definition acceptable_secret (secret : string) : Prop :=
  py_len secret <= MAX_PASSWORD_SIZE /\ contains_byte zero secret = false.


(** A password with a NUL byte in it. *)
Definition password_with_nul : string :=
  String "a" (String zero (String "b" EmptyString)).

(** The drug, category and date of a row. *)
Definition row_key (s : Sale) : string * string * Z :=
  (drug_name s, sale_category s, date s).

(** The keys of the rows of the [days] most recent days, as the loops of the
    generator order them: today first, the catalog order within a day. *)
Definition expected_keys (today : Z) (days : Z) : list (string * string * Z) :=
  d ← range days; (fun drug => (name drug, category drug, today - d)) <$> DRUGS_DATA.

(** A request that carries a token issued to the sample user. *)
Definition sample_token : token :=
  create_access_token sample_hmac "secret" 0
    (Claims (Some "alice@x.com"%string) None)
    (Some (timedelta_minutes ACCESS_TOKEN_EXPIRE_MINUTES)).

Definition sample_request : Request :=
  mkRequest (Some ("Bearer"%string, sample_token)).

(** A network on which the ML service answers with a JSON body, one on which
    the connection fails, and one that answers with a body that is not JSON. *)
Definition upstream_ok (url : string) (drug : option string) (days : Z)
    : raises Response :=
  returns (mkResponse 200 (Some (JObject [("predicted"%string, JArray [JNumber (of_int days)])]))).

Definition upstream_down (url : string) (drug : option string) (days : Z)
    : raises Response :=
  raise (RequestException "connection refused").

Definition upstream_html (url : string) (drug : option string) (days : Z)
    : raises Response :=
  returns (mkResponse 502 None).

(** An amount in whole cents. *)
Definition is_cents (x : Qc) : Prop := exists z : Z, x = Q2Qc (z # 100).

(** ** The mock forecast in the words of its specification

    [back] is how many positions before the last value the trend reaches. *)

(** The rows a drug filter keeps: all of them without a filter. *)
Definition selected (drug : option string) (rows : list Sale) : list Sale :=
  match drug with
  | Some (String c rest) => List.filter (same_drug (String c rest)) rows
  | _ => rows
  end.

(** The units sold on a date. *)
Definition units_on (rows : list Sale) (d : Z) : Z :=
  sum_int (units_sold <$> List.filter (fun s => date s =? d) rows).







(** The last date [datetime] can hold, 9999-12-31, as a day number. *)
Definition date_max : Z := 2932896.

(** What one turn of the prediction loop draws and appends while the date
    is in range. *)
Definition predicted_day (last_date : datetime) (avg trend : Qc) (i : Z)
    : State (Z * Z) :=
  let future_date := last_date + timedelta_days i in
  let! noise := random_uniform (- avg * dec 1 10)%Qc (avg * dec 1 10)%Qc in
  let pred := (avg + trend * of_int i + noise)%Qc in
  ret (strftime_Ymd future_date, Z.max 0 (py_int pred)).

(** The date the forecast counts from: the last date that has rows, else
    the clock. *)
Definition last_date_of (sorted_dates : list Z) (now : datetime) : datetime :=
  match last sorted_dates with
  | Some d => strptime_Ymd d
  | None => now
  end.

(** What the mock branch returns while every forecast date is in range. *)
Definition forecast_in_range (all_sales : list Sale) (drug : option string)
    (days : Z) (now : datetime) : State Forecast :=
  let recent_sales := slice_to (60 * len DRUGS_DATA) all_sales in
  let daily_data := group_by_date drug recent_sales in
  let sorted_dates := sorted (dict_keys daily_data) in
  let actual_values := (fun d => dict_get_default daily_data d 0) <$> sorted_dates in
  let '(avg, trend) := moving_average actual_values in
  let last_date := last_date_of sorted_dates now in
  let! days_out := for_each (predicted_day last_date avg trend) (range_from 1 (days + 1)) in
  ret (forecast_body sorted_dates actual_values days_out drug).

(** The values the forecast is computed from: the units per date of the
    selected rows of the last 60 days, by ascending date. *)
Definition actuals (drug : option string) (all_sales : list Sale) : list Z * list Z :=
  let daily_data := group_by_date drug (slice_to (60 * len DRUGS_DATA) all_sales) in
  let sorted_dates := sorted (dict_keys daily_data) in
  (sorted_dates, (fun d => dict_get_default daily_data d 0) <$> sorted_dates).

(** What one turn of the grouping loop amounts to for a row it keeps: the
    row's units are added under its date. *)
Definition add_units (daily_data : list (Z * Z)) (sale : Sale) : list (Z * Z) :=
  dict_set daily_data (date sale)
    (dict_get_default daily_data (date sale) 0 + units_sold sale).




(** ** [GET /api/sales/trends] *)

Record Trends := mkTrends {
  trend_dates : list Z;
  trend_units : list Z;
  trend_revenue : list Qc
}.

(** One turn of the grouping loop of [get_sales_trends]. *)
Definition add_to_day (drug : option string) (daily_data : list (Z * (Z * Qc)))
    (sale : Sale) : list (Z * (Z * Qc)) :=
  if match drug with
     | Some (String c rest) => negb (same_drug (String c rest) sale)
     | _ => false
     end
  then daily_data
  else
    let daily_data :=
      match dict_get daily_data (date sale) with
      | None => dict_set daily_data (date sale) (0, of_int 0)
      | Some _ => daily_data
      end in
    let '(units, rev) := dict_get_default daily_data (date sale) (0, of_int 0) in
    dict_set daily_data (date sale) (units + units_sold sale, (rev + revenue sale)%Qc).

(** The aggregation of [get_sales_trends] over the generated rows. *)
Definition sales_trends (drug : option string) (all_sales : list Sale) : Trends :=
  let recent_sales := slice_to (60 * len DRUGS_DATA) all_sales in
  let daily_data := fold_left (add_to_day drug) recent_sales [] in
  let sorted_dates := sorted (dict_keys daily_data) in
  mkTrends
    sorted_dates
    ((fun d => fst (dict_get_default daily_data d (0, of_int 0))) <$> sorted_dates)
    ((fun d => py_round2 (snd (dict_get_default daily_data d (0, of_int 0))))
       <$> sorted_dates).

Definition get_sales_trends (drug : option string) (now : datetime) : State Trends :=
  let! all_sales := generate_mock_sales_data now in
  ret (sales_trends drug all_sales).

(** The revenue taken on a date. *)
Definition revenue_on (rows : list Sale) (d : Z) : Qc :=
  sum_float (revenue <$> List.filter (fun s => date s =? d) rows).

(** The [n] days that end with [today], ascending. *)
Definition date_window (today : Z) (n : Z) : list Z :=
  (fun i => today - (n - 1) + i) <$> range n.

(** A filter string that names a catalog drug, in any letter case. *)
Definition names_catalog_drug (q : string) : Prop :=
  exists drug, In drug DRUGS_DATA /\ lower q = lower (name drug).

(** A drug filter under which rows remain: none, the empty string, or a
    string that names a catalog drug. *)
Definition keeps_rows (drug : option string) : Prop :=
  match drug with
  | Some (String c rest) => names_catalog_drug (String c rest)
  | _ => True
  end.

(** The revenue and the units of one drug over some rows. *)
Definition revenue_of (rows : list Sale) (n : string) : Qc :=
  sum_float (revenue <$> List.filter (fun s => String.eqb (drug_name s) n) rows).

Definition units_of (rows : list Sale) (n : string) : Z :=
  sum_int (units_sold <$> List.filter (fun s => String.eqb (drug_name s) n) rows).

(** The keys a dictionary ends with when the keys [ks] are assigned in turn
    to a dictionary that holds [seen]. *)
Definition first_seen (seen ks : list string) : list string :=
  fold_left (fun acc k => if decide (k ∈ acc) then acc else acc ++ [k]) ks seen.

(** [x] comes before [y] when sorted by value, descending. *)
Definition at_least {A} (x y : A * Qc) : Prop := (snd y <= snd x)%Qc.

(** ** [GET /api/insights] *)

Record Insight := mkInsight {
  insight_id : string;
  insight_title : string;
  insight_description : string;
  insight_category : string;
  insight_priority : string;
  insight_drug_name : option string
}.

Definition MOCK_INSIGHTS : list Insight := [
  mkInsight "1"
    "Increase Paracetamol Stock"
    "Based on historical trends and seasonal patterns, demand for Paracetamol is expected to increase by 25% in Q1. Consider increasing stock levels by 30% to meet anticipated demand."
    "Inventory" "high" (Some "Paracetamol"%string);
  mkInsight "2"
    "Antibiotic Sales Declining"
    "Amoxicillin sales have decreased by 15% over the past month. This may be due to seasonal factors or competition. Consider promotional activities or price adjustments."
    "Sales" "medium" (Some "Amoxicillin"%string);
  mkInsight "3"
    "Cardiovascular Category Growth"
    "The cardiovascular drug category shows consistent 8% month-over-month growth. Expand product range and ensure adequate stock of Lisinopril and Atorvastatin."
    "Growth" "high" None;
  mkInsight "4"
    "Optimize Omeprazole Pricing"
    "Price elasticity analysis suggests Omeprazole can sustain a 5% price increase without significant demand reduction. Potential additional revenue: $2,400/month."
    "Pricing" "medium" (Some "Omeprazole"%string);
  mkInsight "5"
    "Weekend Staffing Adjustment"
    "Sales data shows 20% lower foot traffic on weekends. Consider reducing weekend staff hours to optimize labor costs while maintaining service quality."
    "Operations" "low" None;
  mkInsight "6"
    "Gabapentin Stockout Risk"
    "Current inventory levels for Gabapentin may not meet projected demand in the next 2 weeks. Reorder immediately to prevent stockout."
    "Inventory" "critical" (Some "Gabapentin"%string);
  mkInsight "7"
    "Bundle Promotion Opportunity"
    "Customers frequently purchase Ibuprofen and Omeprazole together. Create a bundle deal to increase average transaction value by an estimated 12%."
    "Marketing" "medium" None;
  mkInsight "8"
    "Diabetes Category Expansion"
    "Metformin demand is stable with high customer loyalty. Consider expanding the diabetes product line with complementary items like glucose monitors."
    "Growth" "low" (Some "Metformin"%string)
]%string.

(** [priority_order = {'critical': 0, 'high': 1, 'medium': 2, 'low': 3}] *)
Definition priority_order : list (string * Z) :=
  [("critical", 0); ("high", 1); ("medium", 2); ("low", 3)]%string.

(** [lambda x: priority_order.get(x['priority'], 4)] *)
Definition priority_key (x : Insight) : Z :=
  dict_get_default priority_order (insight_priority x) 4.

(** [l.sort(key=key)]: ascending by key, stable. *)
Fixpoint insert_by_key {A} (key : A -> Z) (x : A) (l : list A) : list A :=
  match l with
  | [] => [x]
  | y :: rest =>
      if key x <=? key y then x :: l else y :: insert_by_key key x rest
  end.

Definition sort_by_key {A} (key : A -> Z) (l : list A) : list A :=
  foldr (insert_by_key key) [] l.

Record InsightsResponse := mkInsightsResponse {
  insights : list Insight;
  insights_total : Z
}.

(** [GET /api/insights]. *)
Definition get_insights (category priority : option string) : InsightsResponse :=
  let insights := MOCK_INSIGHTS in
  let insights :=
    match category with
    | Some (String c rest) =>
        List.filter
          (fun i => String.eqb (lower (insight_category i)) (lower (String c rest)))
          insights
    | _ => insights
    end in
  let insights :=
    match priority with
    | Some (String c rest) =>
        List.filter
          (fun i => String.eqb (lower (insight_priority i)) (lower (String c rest)))
          insights
    | _ => insights
    end in
  let insights := sort_by_key priority_key insights in
  mkInsightsResponse insights (len insights).



(** ** [GET /api/drugs], [GET /api/] and [GET /api/health] *)

Definition get_drugs : list Drug := DRUGS_DATA.

Record Health := mkHealth {
  health_status : string;
  ml_api_configured : bool
}.

(** [ML_API_URL is not None] *)
Definition health_check (ML_API_URL : option string) : Health :=
  mkHealth "healthy" (match ML_API_URL with Some _ => true | None => false end).

Section MoreRoutes.

Variable hmac_sha256 : string -> string * claims Z -> string.
Variable SECRET_KEY : string.

Definition get_sales_trends_route (db : database) (auth_time : datetime)
    (request : Request) (drug : option string) (now : datetime)
    : State (raises Trends) :=
  protected_state hmac_sha256 SECRET_KEY db auth_time request
    (get_sales_trends drug now).

Definition get_insights_route (db : database) (auth_time : datetime)
    (request : Request) (category priority : option string)
    : raises InsightsResponse :=
  protected hmac_sha256 SECRET_KEY db auth_time request
    (fun _ => returns (get_insights category priority)).

Definition get_drugs_route (db : database) (auth_time : datetime)
    (request : Request) : raises (list Drug) :=
  protected hmac_sha256 SECRET_KEY db auth_time request
    (fun _ => returns get_drugs).

End MoreRoutes.

(** * Properties *)

(** ** Tokens *)

Lemma expiry_of_bounds (issued : datetime) (ttl : timedelta) :
  issued + ttl - 1000000 < expiry_of issued ttl <= issued + ttl.
Proof. unfold expiry_of, timegm. Z.to_euclidean_division_equations. lia. Qed.

Section TokenProperties.

Variable hmac_sha256 : string -> string * claims Z -> string.
Variable SECRET_KEY : string.

Lemma algorithm_allowed : bool_decide (ALGORITHM ∈ [ALGORITHM]) = true.
Proof. apply bool_decide_eq_true. apply list_elem_of_here. Qed.

(** Decoding what [jwt_encode] produced under the same key checks nothing
    but the expiry. *)
Lemma jwt_decode_encode (payload : claims datetime) (now : datetime) :
  jwt_decode hmac_sha256 now (jwt_encode hmac_sha256 payload SECRET_KEY ALGORITHM)
    SECRET_KEY [ALGORITHM]
  = match exp payload with
    | Some t =>
        if timegm t * 1000000 <=? now
        then raise (PyJWTError ExpiredSignatureError)
        else returns (Claims (sub payload) (Some (timegm t)))
    | None => returns (Claims (sub payload) None)
    end.
Proof.
  unfold jwt_decode, jwt_encode. cbn [jws_alg jws_payload jws_signature].
  rewrite algorithm_allowed. cbn [negb].
  rewrite String.eqb_refl. cbn [negb exp sub].
  destruct (exp payload) as [t|]; cbn; reflexivity.
Qed.

Lemma token_subject_issued (e : string) (issued now : datetime) (ttl : timedelta) :
  ttl <> 0 ->
  token_subject hmac_sha256 SECRET_KEY now
    (create_access_token hmac_sha256 SECRET_KEY issued (Claims (Some e) None) (Some ttl))
  = if expiry_of issued ttl <=? now
    then raise (HTTPException 401 "Invalid token")
    else returns e.
Proof.
  intros Httl. unfold token_subject, create_access_token.
  rewrite jwt_decode_encode. cbn [exp sub].
  destruct (Z.eqb_spec ttl 0) as [|_]; [contradiction|].
  unfold expiry_of.
  destruct (timegm (issued + ttl) * 1000000 <=? now); reflexivity.
Qed.

End TokenProperties.

Section IssuedTokens.

Variable hmac_sha256 : string -> string * claims Z -> string.
Variable bcrypt : Z -> Z -> string -> string.
Variable SECRET_KEY : string.

Lemma find_one_all_fields (collection : list (gmap string value)) (field : string)
    (v : value) (doc : gmap string value) :
  find_one collection field v [] = Some doc ->
  doc ∈ collection /\ doc !! field = Some v.
Proof.
  unfold find_one. destruct (List.find _ collection) as [d|] eqn:Hfind; [|discriminate].
  cbn. intros [= <-]. apply find_some in Hfind as [Hin Hdec].
  apply bool_decide_eq_true in Hdec. split; [by apply list_elem_of_In | done].
Qed.

(** The token [login] returns is the one [create_access_token] issues for the
    stored email with the 1440-minute lifetime. *)
Lemma login_issues_day_token (user_data : UserLogin) (db : database)
    (now : datetime) (t : Token) :
  login hmac_sha256 bcrypt SECRET_KEY user_data db now = returns t ->
  access_token t
  = create_access_token hmac_sha256 SECRET_KEY now
      (Claims (Some (ul_email user_data)) None)
      (Some (timedelta_minutes ACCESS_TOKEN_EXPIRE_MINUTES)).
Proof.
  unfold login.
  destruct (find_one _ _ _ _) as [found|] eqn:Hfind; [|discriminate].
  apply find_one_all_fields in Hfind as [_ Hemail].
  unfold getitem. rewrite Hemail.
  destruct (found !! "password_hash") as [stored|]; [|discriminate]. cbn.
  destruct (stored_hash stored) as [|h]; [discriminate|]. cbn.
  destruct (verify_password bcrypt _ h) as [|[|]]; cbn; try discriminate.
  destruct (found !! "id"); [|discriminate]. cbn.
  destruct (found !! "name"); [|discriminate]. cbn.
  intros [= <-]. reflexivity.
Qed.

(** So is the token [register] returns. *)
Lemma register_issues_day_token (user_data : UserCreate) (db : database)
    (created now : datetime) (entropy : Entropy) (t : Token) :
  fst (fst (register hmac_sha256 bcrypt SECRET_KEY user_data db created now entropy))
    = returns t ->
  access_token t
  = create_access_token hmac_sha256 SECRET_KEY now
      (Claims (Some (uc_email user_data)) None)
      (Some (timedelta_minutes ACCESS_TOKEN_EXPIRE_MINUTES)).
Proof.
  unfold register.
  destruct (find_one _ _ _ _); [discriminate|].
  unfold bind, ret, get_password_hash. cbn.
  destruct (pwd_context_hash _ _ _); cbn; [discriminate|].
  intros [= <-]. reflexivity.
Qed.

End IssuedTokens.

(** C1 (amended). A token issued for subject [e] with the 1440-minute
    lifetime that login and registration use verifies to [sub = e] at every
    time strictly before its expiry and is rejected as 401 "Invalid token"
    from its expiry on, where the expiry is issue time + lifetime cut down to
    the whole second. So it verifies up to one second before issue time +
    lifetime, and is rejected at every time at or after issue time +
    lifetime. *)
Theorem token_round_trip_until_expiry
    (hmac_sha256 : string -> string * claims Z -> string) (SECRET_KEY e : string)
    (issued now : datetime) :
  let ttl := timedelta_minutes ACCESS_TOKEN_EXPIRE_MINUTES in
  let tok := create_access_token hmac_sha256 SECRET_KEY issued
               (Claims (Some e) None) (Some ttl) in
  let verified := token_subject hmac_sha256 SECRET_KEY now tok in
  issued + ttl - 1000000 < expiry_of issued ttl <= issued + ttl /\
  (now < expiry_of issued ttl -> verified = returns e) /\
  (expiry_of issued ttl <= now ->
     verified = raise (HTTPException 401 "Invalid token")) /\
  (now <= issued + ttl - 1000000 -> verified = returns e) /\
  (issued + ttl <= now ->
     verified = raise (HTTPException 401 "Invalid token") /\
     response_status verified = 401).
Proof.
  intros ttl tok verified.
  pose proof (expiry_of_bounds issued ttl) as Hb.
  assert (Hv : verified = if expiry_of issued ttl <=? now
                          then raise (HTTPException 401 "Invalid token")
                          else returns e).
  { apply token_subject_issued. unfold ttl. discriminate. }
  split; [exact Hb|].
  rewrite Hv. destruct (Z.leb_spec (expiry_of issued ttl) now); repeat split;
    intros; first [reflexivity | lia].
Qed.

Lemma token_round_trip_until_expiry_witness :
  let ttl := timedelta_minutes ACCESS_TOKEN_EXPIRE_MINUTES in
  let tok := create_access_token sample_hmac "secret" 700000
               (Claims (Some "alice@x.com"%string) None) (Some ttl) in
  token_subject sample_hmac "secret" 700001 tok = returns "alice@x.com"%string /\
  token_subject sample_hmac "secret" 86399999999 tok = returns "alice@x.com"%string /\
  token_subject sample_hmac "secret" 86400000000 tok
    = raise (HTTPException 401 "Invalid token") /\
  token_subject sample_hmac "secret" 86400700000 tok
    = raise (HTTPException 401 "Invalid token").
Proof.
  intros ttl tok.
  pose proof (token_round_trip_until_expiry sample_hmac "secret" "alice@x.com" 700000) as H.
  split; [|split; [|split]].
  - destruct (H 700001) as (_ & _ & _ & Hearly & _).
    apply Hearly. vm_compute. discriminate.
  - destruct (H 86399999999) as (_ & Hvalid & _).
    apply Hvalid. vm_compute. reflexivity.
  - destruct (H 86400000000) as (_ & _ & Hexpired & _).
    apply Hexpired. vm_compute. discriminate.
  - destruct (H 86400700000) as (_ & _ & _ & _ & Hlate).
    apply Hlate. vm_compute. discriminate.
Defined.

(** C1 as stated fails: a token issued 0.7 s after a whole second is rejected
    0.6 s before issue time + 1440 minutes. *)
Lemma token_rejected_before_lifetime_elapsed :
  let ttl := timedelta_minutes ACCESS_TOKEN_EXPIRE_MINUTES in
  let issued := 700000 in
  let now := 86400100000 in
  now < issued + ttl /\
  token_subject sample_hmac "secret" now
    (create_access_token sample_hmac "secret" issued
       (Claims (Some "alice@x.com"%string) None) (Some ttl))
  = raise (HTTPException 401 "Invalid token").
Proof. split; vm_compute; reflexivity. Qed.

(** ** The authorization dependency *)

Section AuthorizationProperties.

Variable hmac_sha256 : string -> string * claims Z -> string.
Variable SECRET_KEY : string.

Lemma jwt_decode_raises_PyJWTError (now : datetime) (tok : token) (key : string)
    (algorithms : list string) (e : exception) :
  jwt_decode hmac_sha256 now tok key algorithms = raise e ->
  exists kind, e = PyJWTError kind.
Proof.
  unfold jwt_decode. destruct tok as [j|raw].
  - destruct (negb (bool_decide _)); [intros [= <-]; eauto|].
    destruct (negb (String.eqb _ _)); [intros [= <-]; eauto|].
    destruct (exp (jws_payload j)) as [t|]; [|discriminate].
    destruct (t * 1000000 <=? now); [intros [= <-]; eauto | discriminate].
  - intros [= <-]. eauto.
Qed.

Lemma token_subject_rejects (now : datetime) (tok : token) (e : exception) :
  jwt_decode hmac_sha256 now tok SECRET_KEY [ALGORITHM] = raise e ->
  token_subject hmac_sha256 SECRET_KEY now tok = raise (HTTPException 401 "Invalid token").
Proof.
  intros Hdec. unfold token_subject.
  destruct (jwt_decode_raises_PyJWTError _ _ _ _ _ Hdec) as [kind ->].
  unfold raise in Hdec. rewrite Hdec. reflexivity.
Qed.

Lemma jwt_decode_opaque (now : datetime) (raw key : string) (algorithms : list string) :
  jwt_decode hmac_sha256 now (Opaque raw) key algorithms = raise (PyJWTError DecodeError).
Proof. reflexivity. Qed.

Lemma jwt_decode_bad_algorithm (now : datetime) (j : jws) (key : string) :
  jws_alg j <> ALGORITHM ->
  jwt_decode hmac_sha256 now (Compact j) key [ALGORITHM]
  = raise (PyJWTError InvalidAlgorithmError).
Proof.
  intros Halg. unfold jwt_decode.
  rewrite bool_decide_eq_false_2; [reflexivity|].
  intros Hin. apply list_elem_of_singleton in Hin. contradiction.
Qed.

Lemma jwt_decode_bad_signature (now : datetime) (j : jws) (key : string) :
  jws_signature j <> hmac_sha256 key (jws_alg j, jws_payload j) ->
  exists kind, jwt_decode hmac_sha256 now (Compact j) key [ALGORITHM]
               = raise (PyJWTError kind).
Proof.
  intros Hsig. unfold jwt_decode.
  destruct (negb (bool_decide _)); [eauto|].
  apply String.eqb_neq in Hsig. rewrite Hsig. cbn. eauto.
Qed.

Lemma jwt_decode_expired (now : datetime) (j : jws) (key : string) (t : Z) :
  exp (jws_payload j) = Some t -> t * 1000000 <= now ->
  exists kind, jwt_decode hmac_sha256 now (Compact j) key [ALGORITHM]
               = raise (PyJWTError kind).
Proof.
  intros Hexp Hle. unfold jwt_decode.
  destruct (negb (bool_decide _)); [eauto|].
  destruct (negb (String.eqb _ _)); [eauto|].
  rewrite Hexp. apply Z.leb_le in Hle. rewrite Hle. eauto.
Qed.

End AuthorizationProperties.

Lemma find_one_none (collection : list (gmap string value)) (field : string)
    (v : value) (excluded : list string) :
  (forall doc, doc ∈ collection -> doc !! field <> Some v) ->
  find_one collection field v excluded = None.
Proof.
  intros Hnone. unfold find_one.
  destruct (List.find _ collection) as [d|] eqn:Hfind; [|reflexivity].
  apply find_some in Hfind as [Hin Hdec]. apply bool_decide_eq_true in Hdec.
  exfalso. apply (Hnone d); [by apply list_elem_of_In | done].
Qed.

Lemma find_one_first (before after : list (gmap string value))
    (doc : gmap string value) (field : string) (v : value) (excluded : list string) :
  (forall d, d ∈ before -> d !! field <> Some v) ->
  doc !! field = Some v ->
  find_one (before ++ doc :: after) field v excluded
  = Some (foldr delete doc excluded).
Proof.
  intros Hbefore Hdoc. unfold find_one.
  induction before as [|d before IH]; cbn.
  - rewrite bool_decide_eq_true_2 by done. reflexivity.
  - rewrite bool_decide_eq_false_2.
    + apply IH. intros d' Hd'. apply Hbefore. by right.
    + apply Hbefore. by left.
Qed.

Lemma without_id_and_hash_lookup (doc : gmap string value) (key : string) :
  without_id_and_hash doc !! key
  = if bool_decide (key = "_id"%string \/ key = "password_hash"%string)
    then None else doc !! key.
Proof.
  unfold without_id_and_hash. case_bool_decide as Hk.
  - destruct Hk as [-> | ->].
    + apply lookup_delete_eq.
    + rewrite lookup_delete_ne by done. apply lookup_delete_eq.
  - rewrite !lookup_delete_ne; [reflexivity | |]; intros <-; apply Hk; auto.
Qed.

(** C2 (amended). A request without an [Authorization] header never reaches
    [get_current_user]: the [HTTPBearer] dependency answers it 403 "Not
    authenticated". For a bearer token that is presented, [get_current_user]
    rejects with 401 when the token fails format, algorithm, signature or
    expiry verification, when it lacks a [sub] claim, and when no user
    document carries the [sub] email; 401 is the only way it rejects.
    Otherwise it returns the first stored document with that email without
    its [_id] and [password_hash], and this is the value the handlers behind
    the dependency receive. *)
Theorem authorization_dependency_contract
    (hmac_sha256 : string -> string * claims Z -> string) (SECRET_KEY : string)
    (db : database) (now : datetime) :
  (forall request, authorization request = None ->
     current_user_of hmac_sha256 SECRET_KEY db now request
     = raise (HTTPException 403 "Not authenticated")) /\
  (forall creds : HTTPAuthorizationCredentials,
     let tok := credentials creds in
     let decoded := jwt_decode hmac_sha256 now tok SECRET_KEY [ALGORITHM] in
     let result := get_current_user hmac_sha256 SECRET_KEY db now creds in
     let invalid := raise (HTTPException 401 "Invalid token") in
     (forall e, decoded = raise e -> result = invalid) /\
     (forall raw, tok = Opaque raw -> result = invalid) /\
     (forall j, tok = Compact j -> jws_alg j <> ALGORITHM -> result = invalid) /\
     (forall j, tok = Compact j ->
        jws_signature j <> hmac_sha256 SECRET_KEY (jws_alg j, jws_payload j) ->
        result = invalid) /\
     (forall j t, tok = Compact j -> exp (jws_payload j) = Some t ->
        t * 1000000 <= now -> result = invalid) /\
     (forall payload, decoded = returns payload -> sub payload = None ->
        result = invalid) /\
     (forall payload email, decoded = returns payload -> sub payload = Some email ->
        (forall doc, doc ∈ users db -> doc !! "email" <> Some (VStr email)) ->
        result = raise (HTTPException 401 "User not found")) /\
     (forall payload email before doc after,
        decoded = returns payload -> sub payload = Some email ->
        users db = before ++ doc :: after ->
        (forall d, d ∈ before -> d !! "email" <> Some (VStr email)) ->
        doc !! "email" = Some (VStr email) ->
        result = returns (without_id_and_hash doc) /\
        without_id_and_hash doc !! "password_hash" = None) /\
     (forall e, result = raise e -> exists detail, e = HTTPException 401 detail)) /\
  (forall request current_user,
     current_user_of hmac_sha256 SECRET_KEY db now request = returns current_user ->
     (forall (A : Type) (handler : gmap string value -> raises A),
        protected hmac_sha256 SECRET_KEY db now request handler = handler current_user) /\
     get_me_route hmac_sha256 SECRET_KEY db now request = returns current_user).
Proof.
  split; [|split].
  - intros request Hnone. unfold current_user_of, HTTPBearer. rewrite Hnone. reflexivity.
  - intros creds tok decoded result invalid.
    assert (Hrej : forall e, decoded = raise e -> result = invalid).
    { intros e He. unfold result, get_current_user. fold tok.
      rewrite (token_subject_rejects _ _ _ _ _ He). reflexivity. }
    assert (Hok : forall payload, decoded = returns payload ->
              token_subject hmac_sha256 SECRET_KEY now tok
              = match sub payload with
                | Some email => returns email
                | None => raise (HTTPException 401 "Invalid token")
                end).
    { intros payload Hp. unfold token_subject. fold decoded.
      unfold returns in Hp. rewrite Hp. reflexivity. }
    split; [exact Hrej|].
    split. { intros raw Hraw. apply (Hrej (PyJWTError DecodeError)).
             unfold decoded. rewrite Hraw. reflexivity. }
    split. { intros j Hj Halg. apply (Hrej (PyJWTError InvalidAlgorithmError)).
             unfold decoded. rewrite Hj. by apply jwt_decode_bad_algorithm. }
    split. { intros j Hj Hsig.
             destruct (jwt_decode_bad_signature hmac_sha256 now j SECRET_KEY Hsig)
               as [kind Hk].
             apply (Hrej (PyJWTError kind)). unfold decoded. by rewrite Hj. }
    split. { intros j t Hj Hexp Hle.
             destruct (jwt_decode_expired hmac_sha256 now j SECRET_KEY t Hexp Hle)
               as [kind Hk].
             apply (Hrej (PyJWTError kind)). unfold decoded. by rewrite Hj. }
    split. { intros payload Hp Hsub. unfold result, get_current_user. fold tok.
             rewrite (Hok _ Hp), Hsub. reflexivity. }
    split. { intros payload email Hp Hsub Hnone. unfold result, get_current_user.
             fold tok. rewrite (Hok _ Hp), Hsub. cbn.
             rewrite find_one_none by exact Hnone. reflexivity. }
    split. { intros payload email before doc after Hp Hsub Husers Hbefore Hdoc.
             split.
             - unfold result, get_current_user. fold tok.
               rewrite (Hok _ Hp), Hsub. cbn. rewrite Husers.
               rewrite find_one_first by assumption. reflexivity.
             - rewrite without_id_and_hash_lookup. reflexivity. }
    intros e. unfold result, get_current_user. fold tok.
    destruct decoded as [err|payload] eqn:Hd.
    + rewrite (token_subject_rejects _ _ _ _ _ Hd). cbn. intros [= <-]. eauto.
    + rewrite (Hok _ eq_refl).
      destruct (sub payload) as [email|]; cbn; [|intros [= <-]; eauto].
      destruct (find_one _ _ _ _); [discriminate|]. intros [= <-]. eauto.
  - intros request current_user Hu. split.
    + intros A handler. unfold protected. unfold returns in Hu. rewrite Hu. reflexivity.
    + unfold get_me_route, protected. unfold returns in Hu. rewrite Hu. reflexivity.
Qed.

Lemma authorization_dependency_contract_witness :
  let ttl := timedelta_minutes ACCESS_TOKEN_EXPIRE_MINUTES in
  let tok := create_access_token sample_hmac "secret" 0
               (Claims (Some "alice@x.com"%string) None) (Some ttl) in
  let request := mkRequest (Some ("Bearer"%string, tok)) in
  get_current_user sample_hmac "secret" sample_db 1000 (mkCredentials "Bearer" tok)
    = returns (without_id_and_hash sample_user) /\
  get_me_route sample_hmac "secret" sample_db 1000 request
    = returns (without_id_and_hash sample_user) /\
  get_current_user sample_hmac "secret" sample_db 86400000000 (mkCredentials "Bearer" tok)
    = raise (HTTPException 401 "Invalid token") /\
  get_current_user sample_hmac "secret" (mkDatabase []) 1000 (mkCredentials "Bearer" tok)
    = raise (HTTPException 401 "User not found").
Proof.
  intros ttl tok request.
  pose proof (authorization_dependency_contract sample_hmac "secret") as H.
  assert (Hfound : get_current_user sample_hmac "secret" sample_db 1000
                     (mkCredentials "Bearer" tok)
                   = returns (without_id_and_hash sample_user)).
  { destruct (H sample_db 1000) as (_ & Hcreds & _).
    destruct (Hcreds (mkCredentials "Bearer" tok))
      as (_ & _ & _ & _ & _ & _ & _ & Hfound & _).
    apply (Hfound (Claims (Some "alice@x.com"%string) (Some 86400))
             "alice@x.com"%string [] sample_user []);
      [reflexivity | reflexivity | reflexivity | | reflexivity].
    intros d Hd. inversion Hd. }
  split; [exact Hfound|].
  split.
  { destruct (H sample_db 1000) as (_ & _ & Hdown).
    apply (Hdown request). unfold current_user_of. cbn. exact Hfound. }
  split.
  { destruct (H sample_db 86400000000) as (_ & Hcreds & _).
    destruct (Hcreds (mkCredentials "Bearer" tok))
      as (_ & _ & _ & _ & Hexpired & _).
    apply (Hexpired (JWS ALGORITHM (Claims (Some "alice@x.com"%string) (Some 86400))
                       (sample_hmac "secret"
                          (ALGORITHM, Claims (Some "alice@x.com"%string) (Some 86400))))
             86400); [reflexivity | reflexivity | vm_compute; discriminate]. }
  destruct (H (mkDatabase []) 1000) as (_ & Hcreds & _).
  destruct (Hcreds (mkCredentials "Bearer" tok))
    as (_ & _ & _ & _ & _ & _ & Hmissing & _).
  apply (Hmissing (Claims (Some "alice@x.com"%string) (Some 86400)) "alice@x.com"%string);
    [reflexivity | reflexivity |].
  intros d Hd. inversion Hd.
Defined.

(** C2 as stated fails: a request without a bearer token is answered 403 by
    the [HTTPBearer] dependency, not 401. *)
Lemma missing_bearer_token_is_403 :
  let request := mkRequest None in
  let answer := current_user_of sample_hmac "secret" sample_db 1000 request in
  authorization request = None /\
  answer = raise (HTTPException 403 "Not authenticated") /\
  response_status answer <> 401.
Proof. repeat split. vm_compute. discriminate. Qed.

(** ** Password hashing *)

Section PasswordProperties.

Variable bcrypt : Z -> Z -> string -> string.

Lemma validate_secret_accepts (secret : string) :
  py_len secret <= MAX_PASSWORD_SIZE -> validate_secret secret = returns tt.
Proof.
  intros Hlen. unfold validate_secret.
  destruct (Z.ltb_spec MAX_PASSWORD_SIZE (py_len secret)); [lia | reflexivity].
Qed.



Lemma verify_password_bcrypt (plain : string) (rounds salt : Z) (checksum : string) :
  acceptable_secret plain ->
  verify_password bcrypt plain (Bcrypt rounds salt checksum)
  = returns (String.eqb (bcrypt rounds salt (take_bytes 72 plain)) checksum).
Proof.
  intros [Hlen Hnul]. unfold verify_password, pwd_context_verify, calc_checksum.
  rewrite validate_secret_accepts by exact Hlen. cbn. rewrite Hnul. reflexivity.
Qed.

Lemma verify_password_refuses (plain : string) (rounds salt : Z) (checksum : string) :
  ~ acceptable_secret plain ->
  exists kind, verify_password bcrypt plain (Bcrypt rounds salt checksum)
               = raise (PasslibError kind).
Proof.
  intros Hbad. unfold verify_password, pwd_context_verify, validate_secret, calc_checksum.
  destruct (Z.ltb_spec MAX_PASSWORD_SIZE (py_len plain)); [cbn; eauto|]. cbn.
  destruct (contains_byte zero plain) eqn:Hnul; [cbn; eauto|].
  exfalso. apply Hbad. split; [lia | exact Hnul].
Qed.

Lemma verify_password_not_bcrypt (plain raw : string) :
  exists kind, verify_password bcrypt plain (NotBcrypt raw) = raise (PasslibError kind).
Proof.
  unfold verify_password, pwd_context_verify.
  destruct (existsb _ bcrypt_ident_values); [|eauto].
  unfold validate_secret. destruct (MAX_PASSWORD_SIZE <? py_len plain); cbn; eauto.
Qed.

End PasswordProperties.





(** C5 (amended). For every plaintext [p] and every string [h] that is not a
    well-formed bcrypt hash, [verify(p, h)] raises a passlib error
    ([UnknownHashError], or a malformed-hash or size error), which
    [verify_password] lets through: it never returns false there. Against a
    well-formed hash it returns a boolean for every plaintext passlib accepts
    and raises for a plaintext longer than 4096 characters or with a NUL
    byte. *)
Theorem verify_password_error_conditions (bcrypt : Z -> Z -> string -> string) :
  (forall p raw,
     exists kind, verify_password bcrypt p (NotBcrypt raw) = raise (PasslibError kind)) /\
  (forall p rounds salt checksum, acceptable_secret p ->
     exists b, verify_password bcrypt p (Bcrypt rounds salt checksum) = returns b) /\
  (forall p rounds salt checksum, ~ acceptable_secret p ->
     exists kind, verify_password bcrypt p (Bcrypt rounds salt checksum)
                  = raise (PasslibError kind)).
Proof.
  split; [|split].
  - intros p raw. apply verify_password_not_bcrypt.
  - intros p rounds salt checksum Hp. eexists. by apply verify_password_bcrypt.
  - intros p rounds salt checksum Hp. by apply verify_password_refuses.
Qed.

Lemma verify_password_error_conditions_witness :
  (exists b, verify_password sample_bcrypt "pw123" (Bcrypt 12 5 "pw123") = returns b) /\
  (exists kind, verify_password sample_bcrypt password_with_nul (Bcrypt 12 5 "pw123")
                = raise (PasslibError kind)).
Proof.
  destruct (verify_password_error_conditions sample_bcrypt) as (_ & Hok & Hbad).
  split.
  - apply Hok. split; [vm_compute; discriminate | reflexivity].
  - apply Hbad. intros [_ Hnul]. vm_compute in Hnul. discriminate.
Defined.

(** C5 as stated fails: against a stored string that is not a bcrypt hash,
    verification raises instead of returning false. *)
Lemma verify_password_raises_on_malformed_hash :
  verify_password sample_bcrypt "pw123" (NotBcrypt "pw123")
  = raise (PasslibError UnknownHashError) /\
  verify_password sample_bcrypt "pw123" (NotBcrypt "$2b$12$short")
  = raise (PasslibError MalformedHashError).
Proof. split; vm_compute; reflexivity. Qed.

(** ** The generator *)


Lemma for_each_fmap {A B C} (body : A -> State B) (f : B -> C) (g : A -> C)
    (xs : list A) (e : Entropy) :
  (forall x e', f (fst (body x e')) = g x) ->
  f <$> fst (for_each body xs e) = g <$> xs.
Proof.
  intros Hbody. revert e. induction xs as [|x xs IH]; intros e; [reflexivity|].
  cbn. unfold bind. cbn. by rewrite Hbody, IH.
Qed.

Lemma for_each_Forall {A B} (body : A -> State B) (P : B -> Prop)
    (xs : list A) (e : Entropy) :
  (forall x e', P (fst (body x e'))) ->
  Forall P (fst (for_each body xs e)).
Proof.
  intros Hbody. revert e. induction xs as [|x xs IH]; intros e; [constructor|].
  cbn. unfold bind. cbn. constructor; [apply Hbody | apply IH].
Qed.

Lemma strftime_days_ago (now : datetime) (d : Z) :
  strftime_Ymd (now - timedelta_days d) = strftime_Ymd now - d.
Proof.
  unfold strftime_Ymd, timedelta_days. fold day_us.
  replace (now - d * day_us) with (now + (- d) * day_us) by lia.
  rewrite Z.div_add by (unfold day_us; lia). lia.
Qed.

Lemma generate_row_key (t : datetime) (date_str : Z) (drug : Drug) (e : Entropy) :
  row_key (fst (generate_row t date_str drug e)) = (name drug, category drug, date_str).
Proof. reflexivity. Qed.

(** Whatever the random sources give, the generator lays its rows out the
    same way. *)
Lemma generate_keys (now : datetime) (e : Entropy) :
  row_key <$> fst (generate_mock_sales_data now e)
  = expected_keys (strftime_Ymd now) 180.
Proof.
  unfold generate_mock_sales_data, bind, ret. cbn [fst snd].
  unfold expected_keys.
  generalize (range 180). intros ds. revert e.
  induction ds as [|d ds IH]; intros e; [reflexivity|].
  cbn [for_each]. unfold bind, ret. cbn [fst snd concat].
  rewrite fmap_app, IH. cbn [mbind list_bind]. f_equal.
  rewrite <- strftime_days_ago.
  apply for_each_fmap. intros drug e'. apply generate_row_key.
Qed.

Lemma range_length (n : Z) : length (range n) = Z.to_nat n.
Proof. unfold range. by rewrite length_fmap, length_seq. Qed.

Lemma expected_keys_length (today days : Z) :
  length (expected_keys today days) = (Z.to_nat days * 10)%nat.
Proof.
  unfold expected_keys. rewrite <- range_length.
  induction (range days) as [|d ds IH]; [reflexivity|].
  cbn [mbind list_bind]. rewrite length_app, IH. reflexivity.
Qed.

Lemma generate_length (now : datetime) (e : Entropy) :
  length (fst (generate_mock_sales_data now e)) = 1800%nat.
Proof.
  rewrite <- (length_fmap row_key), generate_keys, expected_keys_length.
  reflexivity.
Qed.

(** *** Signs of the generated numbers *)

Lemma this_Q2Qc (q : Q) : (this (Q2Qc q) == q)%Q.
Proof. apply Qred_correct. Qed.

Lemma this_mult (x y : Qc) : (this (x * y)%Qc == this x * this y)%Q.
Proof. apply this_Q2Qc. Qed.

Lemma this_plus (x y : Qc) : (this (x + y)%Qc == this x + this y)%Q.
Proof. apply this_Q2Qc. Qed.

Lemma nonneg_Q2Qc (q : Q) : (0 <= q)%Q -> (0 <= this (Q2Qc q))%Q.
Proof. intros H. by rewrite this_Q2Qc. Qed.

Lemma nonneg_mult (x y : Qc) :
  (0 <= this x)%Q -> (0 <= this y)%Q -> (0 <= this (x * y)%Qc)%Q.
Proof. intros Hx Hy. rewrite this_mult. by apply Qmult_le_0_compat. Qed.

Lemma nonneg_plus (x y : Qc) :
  (0 <= this x)%Q -> (0 <= this y)%Q -> (0 <= this (x + y)%Qc)%Q.
Proof.
  intros Hx Hy. rewrite this_plus.
  apply (Qplus_le_compat 0 (this x) 0 (this y)); assumption.
Qed.

Lemma nonneg_of_int (z : Z) : 0 <= z -> (0 <= this (of_int z))%Q.
Proof.
  intros Hz. apply nonneg_Q2Qc. unfold Qle, inject_Z. cbn. lia.
Qed.

Lemma nonneg_dec (n : Z) (d : positive) : 0 <= n -> (0 <= this (dec n d))%Q.
Proof. intros Hn. apply nonneg_Q2Qc. unfold Qle. cbn. lia. Qed.

Lemma py_int_nonneg (x : Qc) : (0 <= this x)%Q -> 0 <= py_int x.
Proof.
  intros Hx. unfold py_int. apply Z.quot_pos; [|lia].
  unfold Qle in Hx. cbn in Hx. lia.
Qed.

Lemma random_random_nonneg (e : Entropy) : (0 <= this (fst (random_random e)))%Q.
Proof.
  unfold random_random, bind, ret, next_mt. cbn [fst snd].
  apply nonneg_Q2Qc. unfold Qle. cbn [Qnum Qden].
  pose proof (Z.mod_pos_bound (mt_tape e (mt_pos e)) (2 ^ 53)). lia.
Qed.

(** [uniform(a, b)] for [0 <= a <= b] is not negative. *)
Lemma random_uniform_nonneg (a b : Qc) (e : Entropy) :
  (0 <= this a)%Q -> (0 <= this (b - a)%Qc)%Q ->
  (0 <= this (fst (random_uniform a b e)))%Q.
Proof.
  intros Ha Hba. unfold random_uniform, bind, ret. cbn [fst snd].
  apply nonneg_plus; [exact Ha|].
  apply nonneg_mult; [exact Hba | apply random_random_nonneg].
Qed.

Lemma random_randint_bounds (a b : Z) (e : Entropy) :
  a <= b -> a <= fst (random_randint a b e) <= b.
Proof.
  intros Hab. unfold random_randint, bind, ret, next_mt. cbn [fst snd].
  pose proof (Z.mod_pos_bound (mt_tape e (mt_pos e)) (b - a + 1)). lia.
Qed.

Lemma generate_row_units (t : datetime) (date_str : Z) (drug : Drug) (e : Entropy) :
  0 <= units_sold (fst (generate_row t date_str drug e)).
Proof.
  unfold generate_row. unfold bind at 1. unfold bind at 1. unfold bind at 1.
  unfold bind at 1. unfold ret. cbn [fst snd units_sold].
  apply py_int_nonneg. apply nonneg_mult; [apply nonneg_mult|].
  - apply nonneg_of_int. pose proof (random_randint_bounds 50 200 e). lia.
  - destruct (weekday t <? 5); apply nonneg_dec; lia.
  - apply random_uniform_nonneg; [apply nonneg_dec; lia|]. vm_compute. discriminate.
Qed.

Lemma Forall_concat_all {A} (P : A -> Prop) (ls : list (list A)) :
  Forall (Forall P) ls -> Forall P (concat ls).
Proof.
  induction 1 as [|l ls Hl _ IH]; cbn; [constructor|].
  apply Forall_app. by split.
Qed.

Lemma generate_units (now : datetime) (e : Entropy) :
  Forall (fun s => 0 <= units_sold s) (fst (generate_mock_sales_data now e)).
Proof.
  unfold generate_mock_sales_data, bind, ret. cbn [fst snd].
  apply Forall_concat_all. apply for_each_Forall. intros d e'.
  apply for_each_Forall. intros drug e''. apply generate_row_units.
Qed.

(** *** One row per drug and day *)

Lemma dates_of_drug_by_key (n : string) (rows : list Sale) :
  date <$> List.filter (fun s => String.eqb (drug_name s) n) rows
  = snd <$> List.filter (fun k => String.eqb (fst (fst k)) n) (row_key <$> rows).
Proof.
  induction rows as [|s rows IH]; [reflexivity|].
  cbn. destruct (String.eqb (drug_name s) n); cbn; by rewrite IH.
Qed.

Lemma expected_keys_of_drug (today days : Z) (drug : Drug) :
  In drug DRUGS_DATA ->
  snd <$> List.filter (fun k => String.eqb (fst (fst k)) (name drug))
            (expected_keys today days)
  = (fun d => today - d) <$> range days.
Proof.
  intros Hdrug. unfold expected_keys.
  induction (range days) as [|d ds IH]; [reflexivity|].
  cbn [mbind list_bind]. rewrite List.filter_app, fmap_app, IH.
  cbn [fmap list_fmap]. f_equal.
  cbn in Hdrug.
  repeat (destruct Hdrug as [<-|Hdrug]; [reflexivity|]). contradiction.
Qed.

Lemma range_NoDup (n : Z) : NoDup (range n).
Proof.
  unfold range. apply NoDup_fmap_2; [|apply NoDup_seq].
  intros x y Hxy. lia.
Qed.

Lemma drug_names_NoDup : NoDup (name <$> DRUGS_DATA).
Proof.
  apply (bool_decide_unpack (NoDup (name <$> DRUGS_DATA))). vm_compute. exact I.
Qed.

Lemma expected_keys_NoDup (today days : Z) :
  NoDup ((fun k => (fst (fst k), snd k)) <$> expected_keys today days).
Proof.
  unfold expected_keys.
  assert (Hmap : forall ds : list Z,
    (fun k : string * string * Z => (fst (fst k), snd k))
      <$> (ds ≫= fun d => (fun drug => (name drug, category drug, today - d)) <$> DRUGS_DATA)
    = ds ≫= fun d => (fun drug => (name drug, today - d)) <$> DRUGS_DATA).
  { induction ds as [|d ds IH]; [reflexivity|].
    cbn [mbind list_bind]. rewrite fmap_app, IH. reflexivity. }
  rewrite Hmap. apply NoDup_bind.
  - intros d1 d2 [n t] _ _ H1 H2.
    apply list_elem_of_fmap in H1 as (drug1 & [= _ ->] & _).
    apply list_elem_of_fmap in H2 as (drug2 & [= _ Ht] & _). lia.
  - intros d _. apply (NoDup_fmap_1 fst).
    rewrite <- list_fmap_compose. exact drug_names_NoDup.
  - apply range_NoDup.
Qed.

(** C3. Every call of the generator returns exactly 180 x 10 = 1800 rows;
    no row has negative [units_sold]; for each of the ten catalog drugs the
    dates of its rows are exactly today (UTC), today - 1, ..., today - 179,
    each once; and no (drug, date) pair occurs twice in one call's output. *)
Theorem generate_mock_sales_data_invariant (now : datetime) (entropy : Entropy) :
  let rows := fst (generate_mock_sales_data now entropy) in
  let today := strftime_Ymd now in
  length DRUGS_DATA = 10%nat /\
  len rows = 180 * 10 /\
  len rows = 1800 /\
  Forall (fun s => 0 <= units_sold s) rows /\
  (forall drug, In drug DRUGS_DATA ->
     date <$> List.filter (fun s => String.eqb (drug_name s) (name drug)) rows
     = (fun days_ago => today - days_ago) <$> range 180) /\
  NoDup ((fun s => (drug_name s, date s)) <$> rows).
Proof.
  intros rows today.
  assert (Hlen : len rows = 1800).
  { unfold len, rows. by rewrite generate_length. }
  split; [reflexivity|]. split; [exact Hlen|]. split; [exact Hlen|].
  split; [apply generate_units|]. split.
  - intros drug Hdrug. unfold rows.
    rewrite dates_of_drug_by_key, generate_keys.
    by apply expected_keys_of_drug.
  - replace ((fun s => (drug_name s, date s)) <$> rows)
      with ((fun k : string * string * Z => (fst (fst k), snd k)) <$> (row_key <$> rows))
      by (by rewrite <- list_fmap_compose).
    unfold rows. rewrite generate_keys. apply expected_keys_NoDup.
Qed.

(** ** [GET /api/sales] *)

Lemma slice_to_length {A} (k : Z) (l : list A) :
  len (slice_to k l)
  = if k <? 0 then Z.max 0 (len l + k) else Z.min k (len l).
Proof.
  unfold slice_to, len.
  destruct (Z.ltb_spec k 0); rewrite length_take; lia.
Qed.

Lemma range_app (a b : Z) :
  0 <= a <= b ->
  range b = range a ++ ((fun i => a + Z.of_nat i) <$> seq 0 (Z.to_nat (b - a))).
Proof.
  intros Hab. unfold range.
  replace (Z.to_nat b) with (Z.to_nat a + Z.to_nat (b - a))%nat by lia.
  rewrite seq_app, fmap_app. f_equal.
  replace (0 + Z.to_nat a)%nat with (Z.to_nat a + 0)%nat by lia.
  rewrite <- (fmap_add_seq (Z.to_nat a) 0), <- list_fmap_compose.
  apply list_fmap_ext. intros _ i _. cbn. lia.
Qed.

(** The first [days] x 10 keys are those of the [days] most recent days. *)
Lemma expected_keys_take (today days all_days : Z) :
  0 <= days <= all_days ->
  take (Z.to_nat (days * 10)) (expected_keys today all_days) = expected_keys today days.
Proof.
  intros Hdays. unfold expected_keys at 1.
  rewrite (range_app days all_days Hdays), bind_app.
  fold (expected_keys today days).
  replace (Z.to_nat (days * 10)) with (length (expected_keys today days))
    by (rewrite expected_keys_length; lia).
  apply take_app_length.
Qed.

Lemma get_sales_unfiltered (days : Z) (now : datetime) (entropy : Entropy) :
  sales (fst (get_sales days None now entropy))
  = slice_to (days * 10) (fst (generate_mock_sales_data now entropy)).
Proof. reflexivity. Qed.

Lemma get_sales_total (days : Z) (drug : option string) (now : datetime)
    (entropy : Entropy) :
  total (fst (get_sales days drug now entropy))
  = len (sales (fst (get_sales days drug now entropy))).
Proof. reflexivity. Qed.

Section SalesRouteProperties.

Variable hmac_sha256 : string -> string * claims Z -> string.
Variable SECRET_KEY : string.

Lemma protected_state_authenticated {A} (db : database) (auth_time : datetime)
    (request : Request) (handler : State A) (current_user : gmap string value)
    (entropy : Entropy) :
  current_user_of hmac_sha256 SECRET_KEY db auth_time request = returns current_user ->
  fst (protected_state hmac_sha256 SECRET_KEY db auth_time request handler entropy)
  = returns (fst (handler entropy)).
Proof.
  intros Hu. unfold protected_state. unfold returns in Hu. rewrite Hu. reflexivity.
Qed.

End SalesRouteProperties.

(** C9. For an authenticated [GET /sales] with [0 <= days <= 180] and no drug
    filter, the rows returned are exactly the first [days] x 10 rows of the
    freshly generated series, which are the rows of the [days] most recent
    days: today's ten first, the catalog order within each day; [total] is
    [days] x 10, so 70 for [days = 7]. *)
Theorem get_sales_recent_slice
    (hmac_sha256 : string -> string * claims Z -> string) (SECRET_KEY : string)
    (db : database) (auth_time : datetime) (request : Request)
    (current_user : gmap string value)
    (days : Z) (now : datetime) (entropy : Entropy) :
  current_user_of hmac_sha256 SECRET_KEY db auth_time request = returns current_user ->
  0 <= days <= 180 ->
  exists response,
    fst (get_sales_route hmac_sha256 SECRET_KEY db auth_time request days None now entropy)
    = returns response /\
    sales response
    = take (Z.to_nat (days * 10)) (fst (generate_mock_sales_data now entropy)) /\
    row_key <$> sales response = expected_keys (strftime_Ymd now) days /\
    len (sales response) = days * 10 /\
    total response = days * 10 /\
    (days = 7 -> total response = 70).
Proof.
  intros Hauth Hdays. eexists. split.
  { unfold get_sales_route. by apply protected_state_authenticated with current_user. }
  assert (Hrows : sales (fst (get_sales days None now entropy))
                  = take (Z.to_nat (days * 10))
                      (fst (generate_mock_sales_data now entropy))).
  { rewrite get_sales_unfiltered. unfold slice_to.
    destruct (Z.ltb_spec (days * 10) 0); [lia | reflexivity]. }
  assert (Hlen : len (sales (fst (get_sales days None now entropy))) = days * 10).
  { rewrite Hrows. unfold len. rewrite length_take, generate_length. lia. }
  split; [exact Hrows|]. split.
  { rewrite Hrows, fmap_take, generate_keys. by apply expected_keys_take. }
  split; [exact Hlen|]. split; [by rewrite get_sales_total|].
  intros ->. by rewrite get_sales_total.
Qed.

(** C10. For every integer [days] the slice of [GET /sales] is total: with
    no drug filter an authenticated request is answered, with
    [min(days x 10, 1800)] rows when [days >= 0] (all 1800 rows when
    [days > 180]) and, by the semantics of a negative slice bound,
    [max(0, 1800 + days x 10)] rows when [days < 0]. The rows answered are
    always the first rows of the generated series: a negative [days] drops
    [min(1800, -days x 10)] rows from its end, which are the rows of the
    oldest [-days] days. *)
Theorem get_sales_any_days
    (hmac_sha256 : string -> string * claims Z -> string) (SECRET_KEY : string)
    (db : database) (auth_time : datetime) (request : Request)
    (current_user : gmap string value)
    (days : Z) (now : datetime) (entropy : Entropy) :
  current_user_of hmac_sha256 SECRET_KEY db auth_time request = returns current_user ->
  let all_sales := fst (generate_mock_sales_data now entropy) in
  exists response,
    fst (get_sales_route hmac_sha256 SECRET_KEY db auth_time request days None now entropy)
    = returns response /\
    total response = len (sales response) /\
    (0 <= days -> len (sales response) = Z.min (days * 10) 1800) /\
    (180 < days -> len (sales response) = 1800 /\ sales response = all_sales) /\
    (days < 0 -> len (sales response) = Z.max 0 (1800 + days * 10)) /\
    (0 <= days -> sales response = take (Z.to_nat (days * 10)) all_sales) /\
    (days < 0 ->
     exists dropped,
       all_sales = sales response ++ dropped /\
       len dropped = Z.min 1800 (- days * 10)) /\
    (-180 <= days < 0 ->
     row_key <$> sales response = expected_keys (strftime_Ymd now) (180 + days)).
Proof.
  intros Hauth all_sales. eexists. split.
  { unfold get_sales_route. by apply protected_state_authenticated with current_user. }
  split; [apply get_sales_total|].
  assert (Hall : length all_sales = 1800%nat) by apply generate_length.
  assert (Hrows : sales (fst (get_sales days None now entropy))
                  = if days * 10 <? 0
                    then take (Z.to_nat (Z.max 0 (1800 + days * 10))) all_sales
                    else take (Z.to_nat (days * 10)) all_sales).
  { rewrite get_sales_unfiltered. unfold slice_to. fold all_sales.
    unfold len. rewrite Hall. reflexivity. }
  assert (Hlen : len (sales (fst (get_sales days None now entropy)))
                 = if days * 10 <? 0 then Z.max 0 (1800 + days * 10)
                   else Z.min (days * 10) 1800).
  { rewrite get_sales_unfiltered, slice_to_length.
    unfold len at 1 2. by rewrite generate_length. }
  rewrite Hlen, Hrows.
  destruct (Z.ltb_spec (days * 10) 0) as [Hneg|Hpos].
  - split; [intros; lia|]. split; [intros; lia|]. split; [intros; lia|].
    split; [intros; lia|]. split.
    + intros _. exists (drop (Z.to_nat (Z.max 0 (1800 + days * 10))) all_sales).
      split; [by rewrite take_drop|].
      unfold len. rewrite length_drop, Hall. lia.
    + intros Hdays. rewrite fmap_take. unfold all_sales. rewrite generate_keys.
      replace (Z.max 0 (1800 + days * 10)) with ((180 + days) * 10) by lia.
      apply expected_keys_take. lia.
  - split; [intros; lia|]. split.
    { intros Hmany. split; [lia|]. apply take_ge. rewrite Hall. lia. }
    split; [intros; lia|]. split; [reflexivity|]. split; intros; lia.
Qed.

Lemma sample_request_authenticated :
  current_user_of sample_hmac "secret" sample_db 1000 sample_request
  = returns (without_id_and_hash sample_user).
Proof. reflexivity. Qed.

Lemma get_sales_recent_slice_witness :
  exists response,
    fst (get_sales_route sample_hmac "secret" sample_db 1000 sample_request
           7 None 1700000000000000 sample_entropy) = returns response /\
    len (sales response) = 70 /\
    total response = 70.
Proof.
  destruct (get_sales_recent_slice sample_hmac "secret" sample_db 1000 sample_request
              (without_id_and_hash sample_user) 7 1700000000000000 sample_entropy
              sample_request_authenticated)
    as (response & Hresponse & _ & _ & Hlen & Htotal & _); [lia|].
  exists response. split; [exact Hresponse|]. split; [exact Hlen | exact Htotal].
Defined.

Lemma get_sales_any_days_witness :
  (exists response,
     fst (get_sales_route sample_hmac "secret" sample_db 1000 sample_request
            500 None 1700000000000000 sample_entropy) = returns response /\
     len (sales response) = 1800) /\
  (exists response,
     fst (get_sales_route sample_hmac "secret" sample_db 1000 sample_request
            (-5) None 1700000000000000 sample_entropy) = returns response /\
     len (sales response) = 1750 /\
     row_key <$> sales response = expected_keys 19675 175) /\
  (exists response,
     fst (get_sales_route sample_hmac "secret" sample_db 1000 sample_request
            (-200) None 1700000000000000 sample_entropy) = returns response /\
     len (sales response) = 0).
Proof.
  pose proof (fun days =>
    get_sales_any_days sample_hmac "secret" sample_db 1000 sample_request
      (without_id_and_hash sample_user) days 1700000000000000 sample_entropy
      sample_request_authenticated) as H.
  cbv zeta in H. split; [|split].
  - destruct (H 500) as (response & Hresponse & _ & _ & [Hmany _] & _); [lia|].
    exists response. split; [exact Hresponse | exact Hmany].
  - destruct (H (-5)) as (response & Hresponse & _ & _ & _ & Hneg & _ & _ & Hkeys).
    exists response. split; [exact Hresponse|]. split; [rewrite Hneg; lia|].
    rewrite Hkeys by lia. reflexivity.
  - destruct (H (-200)) as (response & Hresponse & _ & _ & _ & Hneg & _).
    exists response. split; [exact Hresponse | rewrite Hneg; lia].
Defined.

(** ** [GET /api/predict]: the relay *)

(** C8. With an external ML URL configured, the forecast endpoint relays the
    JSON body of the upstream response as it is; and whenever the relay
    fails (the request raises, or the body is not JSON) it returns the
    payload with [status] "error" and an error message as a normal body: an
    authenticated request is answered 200 in every case and no exception
    leaves the handler. The random sources are not read. *)
Theorem get_forecast_relay
    (hmac_sha256 : string -> string * claims Z -> string) (SECRET_KEY : string)
    (db : database) (auth_time : datetime) (request : Request)
    (current_user : gmap string value)
    (ML_API_URL : option string)
    (requests_get : string -> option string -> Z -> raises Response)
    (drug : option string) (days : Z) (now : datetime) (entropy : Entropy) :
  truthy ML_API_URL = true ->
  current_user_of hmac_sha256 SECRET_KEY db auth_time request = returns current_user ->
  exists url body,
    ML_API_URL = Some url /\
    get_forecast ML_API_URL requests_get drug days now entropy
    = (returns body, entropy) /\
    fst (get_forecast_route hmac_sha256 SECRET_KEY ML_API_URL requests_get
           db auth_time request drug days now entropy) = returns body /\
    response_status (returns body : raises ForecastBody) = 200 /\
    (forall response json,
       requests_get (url ++ "/predict")%string drug days = returns response ->
       json_body response = Some json ->
       body = Relayed json) /\
    (forall response,
       requests_get (url ++ "/predict")%string drug days = returns response ->
       json_body response = None ->
       body = ErrorPayload "Failed to fetch from external ML API" "error") /\
    (forall e,
       requests_get (url ++ "/predict")%string drug days = raise e ->
       body = ErrorPayload "Failed to fetch from external ML API" "error").
Proof.
  intros Hurl Hauth.
  destruct ML_API_URL as [[|c rest]|]; try discriminate.
  exists (String c rest).
  exists (match (try! response :=
                   requests_get (String c rest ++ "/predict")%string drug days in
                 response_json response) with
          | inr json => Relayed json
          | inl _ => ErrorPayload "Failed to fetch from external ML API" "error"
          end).
  split; [reflexivity|].
  assert (Hbody : get_forecast (Some (String c rest)) requests_get drug days now entropy
                  = (returns
                       (match (try! response :=
                                 requests_get (String c rest ++ "/predict")%string
                                   drug days in
                               response_json response) with
                        | inr json => Relayed json
                        | inl _ =>
                            ErrorPayload "Failed to fetch from external ML API" "error"
                        end), entropy)).
  { unfold get_forecast. destruct (bind_raises _ _) as [e|body]; reflexivity. }
  split; [exact Hbody|]. split.
  { unfold get_forecast_route, protected_raising.
    unfold returns in Hauth. rewrite Hauth, Hbody. reflexivity. }
  split; [reflexivity|].
  split; [|split].
  - intros response json Hget Hjson. unfold returns in Hget. rewrite Hget. cbn.
    unfold response_json. rewrite Hjson. reflexivity.
  - intros response Hget Hjson. unfold returns in Hget. rewrite Hget. cbn.
    unfold response_json. rewrite Hjson. reflexivity.
  - intros e Hget. unfold raise in Hget. rewrite Hget. reflexivity.
Qed.

Lemma get_forecast_relay_witness :
  let route := fun upstream =>
    fst (get_forecast_route sample_hmac "secret" (Some "http://ml:8000"%string) upstream
           sample_db 1000 sample_request (Some "Ibuprofen"%string) 3
           1700000000000000 sample_entropy) in
  route upstream_ok
    = returns (Relayed (JObject [("predicted"%string, JArray [JNumber (of_int 3)])])) /\
  route upstream_down
    = returns (ErrorPayload "Failed to fetch from external ML API" "error") /\
  route upstream_html
    = returns (ErrorPayload "Failed to fetch from external ML API" "error").
Proof.
  intros route.
  pose proof (fun upstream =>
    get_forecast_relay sample_hmac "secret" sample_db 1000 sample_request
      (without_id_and_hash sample_user) (Some "http://ml:8000"%string) upstream
      (Some "Ibuprofen"%string) 3 1700000000000000 sample_entropy
      eq_refl sample_request_authenticated) as H.
  split; [|split].
  - destruct (H upstream_ok) as (url & body & [= <-] & _ & Hroute & _ & Hok & _).
    unfold route. rewrite Hroute. f_equal. by eapply Hok.
  - destruct (H upstream_down) as (url & body & [= <-] & _ & Hroute & _ & _ & _ & Hdown).
    unfold route. rewrite Hroute. f_equal. by eapply Hdown.
  - destruct (H upstream_html) as (url & body & [= <-] & _ & Hroute & _ & _ & Hhtml & _).
    unfold route. rewrite Hroute. f_equal. by eapply Hhtml.
Defined.

(** ** [GET /api/sales/metrics] *)

Lemma fold_left_Qcplus (xs : list Qc) (a : Qc) :
  fold_left Qcplus xs a = (a + fold_left Qcplus xs (of_int 0))%Qc.
Proof.
  revert a. induction xs as [|x xs IH]; intros a; cbn.
  - change (of_int 0) with 0%Qc. ring.
  - rewrite (IH (a + x)%Qc), (IH (of_int 0 + x)%Qc).
    change (of_int 0) with 0%Qc. ring.
Qed.

Lemma sum_float_cons (x : Qc) (xs : list Qc) :
  sum_float (x :: xs) = (x + sum_float xs)%Qc.
Proof.
  unfold sum_float. cbn. rewrite fold_left_Qcplus.
  change (of_int 0) with 0%Qc. ring.
Qed.

Lemma sum_float_nil : sum_float [] = 0%Qc.
Proof. reflexivity. Qed.

Lemma fold_left_Zadd (xs : list Z) (a : Z) :
  fold_left Z.add xs a = a + fold_left Z.add xs 0.
Proof.
  revert a. induction xs as [|x xs IH]; intros a; cbn; [lia|].
  rewrite (IH (a + x)), (IH (0 + x)). lia.
Qed.

Lemma sum_int_cons (x : Z) (xs : list Z) : sum_int (x :: xs) = x + sum_int xs.
Proof. unfold sum_int. cbn. rewrite fold_left_Zadd. lia. Qed.

Arguments sum_float : simpl never.
Arguments sum_int : simpl never.







(** *** Amounts in cents are fixed by the two-decimal rounding *)

Lemma round_half_even_comp (q q' : Q) :
  (q == q')%Q -> round_half_even q = round_half_even q'.
Proof.
  intros Heq. unfold round_half_even.
  rewrite (Qfloor_comp _ _ Heq).
  assert (Hcmp : ((q - inject_Z (Qfloor q')) ?= (1 # 2))%Q
                 = ((q' - inject_Z (Qfloor q')) ?= (1 # 2))%Q).
  { apply Qcompare_comp; [by rewrite Heq | reflexivity]. }
  by rewrite Hcmp.
Qed.

Lemma round_half_even_Z (z : Z) : round_half_even (inject_Z z) = z.
Proof.
  unfold round_half_even. rewrite Qfloor_Z.
  assert (Hcmp : ((inject_Z z - inject_Z z) ?= (1 # 2))%Q = Lt).
  { apply Qlt_alt.
    assert (H0 : (inject_Z z - inject_Z z == 0)%Q) by ring.
    rewrite H0. reflexivity. }
  by rewrite Hcmp.
Qed.

Lemma py_round2_is_cents (x : Qc) : is_cents (py_round2 x).
Proof. eexists. reflexivity. Qed.

Lemma py_round2_cents (x : Qc) : is_cents x -> py_round2 x = x.
Proof.
  intros [z ->]. unfold py_round2. apply Q2Qc_eq_iff.
  rewrite (round_half_even_comp _ (inject_Z z)); [by rewrite round_half_even_Z|].
  rewrite this_Q2Qc. unfold Qeq, inject_Z. cbn. lia.
Qed.

Lemma is_cents_zero : is_cents (of_int 0).
Proof. exists 0. apply Q2Qc_eq_iff. reflexivity. Qed.

Lemma is_cents_plus (x y : Qc) : is_cents x -> is_cents y -> is_cents (x + y)%Qc.
Proof.
  intros [a ->] [b ->]. exists (a + b). unfold Qcplus. apply Q2Qc_eq_iff.
  rewrite !this_Q2Qc. unfold Qeq, Qplus. cbn. lia.
Qed.

Lemma is_cents_sum (xs : list Qc) : Forall is_cents xs -> is_cents (sum_float xs).
Proof.
  induction 1 as [|x xs Hx _ IH].
  - apply is_cents_zero.
  - rewrite sum_float_cons. by apply is_cents_plus.
Qed.

Lemma generate_row_cents (t : datetime) (date_str : Z) (drug : Drug) (e : Entropy) :
  is_cents (revenue (fst (generate_row t date_str drug e))).
Proof. apply py_round2_is_cents. Qed.

Lemma generate_cents (now : datetime) (e : Entropy) :
  Forall (fun s => is_cents (revenue s)) (fst (generate_mock_sales_data now e)).
Proof.
  unfold generate_mock_sales_data, bind, ret. cbn [fst snd].
  apply Forall_concat_all. apply for_each_Forall. intros d e'.
  apply for_each_Forall. intros drug e''. apply generate_row_cents.
Qed.

Lemma slice_to_Forall {A} (P : A -> Prop) (k : Z) (l : list A) :
  Forall P l -> Forall P (slice_to k l).
Proof. intros H. unfold slice_to. destruct (k <? 0); by apply Forall_take. Qed.




Lemma sales_metrics_categories (all_sales : list Sale) :
  categories (sales_metrics all_sales)
  = (fun kv => mkEntry (fst kv) (py_round2 (fst (snd kv))) (snd (snd kv)))
      <$> per_category (slice_to (30 * len DRUGS_DATA) all_sales).
Proof.
  unfold sales_metrics. destruct (per_drug _) as [drug_revenues drug_units].
  cbn [categories]. apply list_fmap_ext. intros _ [cat [r u]] _. reflexivity.
Qed.



(** ** [GET /api/predict]: the mock forecast *)

(** *** Sorting *)

Lemma insert_asc_perm (x : Z) (l : list Z) : insert_asc x l ≡ₚ x :: l.
Proof.
  induction l as [|y l IH]; cbn; [reflexivity|].
  destruct (x <=? y); [reflexivity|].
  rewrite IH. apply Permutation_swap.
Qed.

Lemma sorted_perm (l : list Z) : sorted l ≡ₚ l.
Proof.
  induction l as [|x l IH]; cbn; [reflexivity|].
  by rewrite insert_asc_perm, IH.
Qed.

Lemma insert_asc_sorted (x : Z) (l : list Z) :
  StronglySorted Z.le l -> StronglySorted Z.le (insert_asc x l).
Proof.
  induction 1 as [|y l Hl IH Hy]; cbn.
  - by repeat constructor.
  - destruct (Z.leb_spec x y) as [Hxy|Hxy].
    + constructor; [by constructor|].
      constructor; [exact Hxy|].
      eapply Forall_impl; [exact Hy|]. intros z Hz. cbn in Hz. lia.
    + constructor; [exact IH|].
      rewrite insert_asc_perm. constructor; [lia | exact Hy].
Qed.

Lemma sorted_sorted (l : list Z) : StronglySorted Z.le (sorted l).
Proof.
  induction l as [|x l IH]; cbn; [constructor|]. by apply insert_asc_sorted.
Qed.

Lemma StronglySorted_le_NoDup (l : list Z) :
  StronglySorted Z.le l -> NoDup l -> StronglySorted Z.lt l.
Proof.
  induction 1 as [|x l Hl IH Hx]; intros Hnd; [constructor|].
  apply NoDup_cons in Hnd as [Hnotin Hnd].
  constructor; [by apply IH|].
  apply Forall_forall. intros y Hy.
  assert (x <= y) by (by eapply Forall_forall in Hx).
  assert (x <> y) by (intros ->; contradiction). lia.
Qed.

(** [sorted] of distinct keys is strictly ascending and keeps the keys. *)
Lemma sorted_distinct (l : list Z) :
  NoDup l ->
  StronglySorted Z.lt (sorted l) /\ forall d, d ∈ sorted l <-> d ∈ l.
Proof.
  intros Hnd. split.
  - apply StronglySorted_le_NoDup; [apply sorted_sorted|].
    by rewrite sorted_perm.
  - intros d. by rewrite sorted_perm.
Qed.

(** *** Dictionaries keyed by date *)

Lemma dict_get_default_set (d : list (Z * Z)) (k k' v default : Z) :
  dict_get_default (dict_set d k v) k' default
  = if decide (k = k') then v else dict_get_default d k' default.
Proof.
  unfold dict_get_default. induction d as [|[k0 v0] d IH]; cbn.
  - destruct (decide (k = k')); reflexivity.
  - destruct (decide (k0 = k)) as [->|Hne]; cbn.
    + destruct (decide (k = k')); reflexivity.
    + destruct (decide (k0 = k')) as [->|Hne'].
      * by rewrite decide_False.
      * exact IH.
Qed.

Lemma dict_set_set (d : list (Z * Z)) (k a b : Z) :
  dict_set (dict_set d k a) k b = dict_set d k b.
Proof.
  induction d as [|[k0 v0] d IH]; cbn.
  - by rewrite decide_True.
  - destruct (decide (k0 = k)) as [->|Hne]; cbn.
    + by rewrite decide_True.
    + rewrite decide_False by done. by rewrite IH.
Qed.

Lemma dict_keys_set (d : list (Z * Z)) (k v : Z) :
  dict_keys (dict_set d k v)
  = if decide (k ∈ dict_keys d) then dict_keys d else dict_keys d ++ [k].
Proof.
  unfold dict_keys. induction d as [|[k0 v0] d IH]; cbn.
  - rewrite decide_False; [reflexivity | apply not_elem_of_nil].
  - destruct (decide (k0 = k)) as [->|Hne]; cbn.
    + rewrite decide_True; [reflexivity | by left].
    + rewrite IH. destruct (decide (k ∈ fst <$> d)) as [Hin|Hnotin].
      * rewrite decide_True; [reflexivity | by right].
      * rewrite decide_False; [reflexivity|].
        intros Hin. apply elem_of_cons in Hin as [->|Hin]; contradiction.
Qed.

Lemma dict_get_none_default (d : list (Z * Z)) (k : Z) :
  dict_get d k = None -> dict_get_default d k 0 = 0.
Proof. intros H. unfold dict_get_default. by rewrite H. Qed.

(** One turn of the grouping loop adds the row's units under its date. *)
Lemma group_step (daily_data : list (Z * Z)) (k u : Z) :
  (let daily_data' :=
     match dict_get daily_data k with
     | None => dict_set daily_data k 0
     | Some _ => daily_data
     end in
   dict_set daily_data' k (dict_get_default daily_data' k 0 + u))
  = dict_set daily_data k (dict_get_default daily_data k 0 + u).
Proof.
  cbn zeta. destruct (dict_get daily_data k) eqn:Hget; [reflexivity|].
  rewrite dict_set_set, dict_get_default_set, decide_True by done.
  by rewrite dict_get_none_default.
Qed.

(** *** Grouping by date *)

Lemma group_by_date_selected (drug : option string) (rows : list Sale) :
  group_by_date drug rows = group_by_date None (selected drug rows).
Proof.
  unfold group_by_date. generalize (@nil (Z * Z)).
  destruct drug as [[|c rest]|]; try reflexivity.
  cbn [selected]. induction rows as [|s rows IH]; intros acc; [reflexivity|].
  cbn [fold_left List.filter].
  destruct (same_drug (String c rest) s); cbn [negb fold_left]; apply IH.
Qed.

Lemma group_by_date_fold (rows : list Sale) (acc : list (Z * Z)) :
  fold_left
    (fun daily_data sale =>
       if false then daily_data
       else
         let daily_data :=
           match dict_get daily_data (date sale) with
           | None => dict_set daily_data (date sale) 0
           | Some _ => daily_data
           end in
         dict_set daily_data (date sale)
           (dict_get_default daily_data (date sale) 0 + units_sold sale))
    rows acc
  = fold_left add_units rows acc.
Proof.
  revert acc. induction rows as [|s rows IH]; intros acc; [reflexivity|].
  cbn [fold_left]. rewrite IH. f_equal. apply group_step.
Qed.

Lemma units_on_cons (s : Sale) (rows : list Sale) (d : Z) :
  units_on (s :: rows) d
  = (if date s =? d then units_sold s else 0) + units_on rows d.
Proof.
  unfold units_on. cbn [List.filter].
  destruct (date s =? d); [|lia]. cbn [fmap list_fmap]. apply sum_int_cons.
Qed.

Lemma group_fold_get (rows : list Sale) (acc : list (Z * Z)) (d : Z) :
  dict_get_default (fold_left add_units rows acc) d 0
  = dict_get_default acc d 0 + units_on rows d.
Proof.
  revert acc. induction rows as [|s rows IH]; intros acc.
  - unfold units_on, sum_int. cbn. lia.
  - cbn [fold_left]. rewrite IH, units_on_cons. unfold add_units at 1.
    rewrite dict_get_default_set.
    destruct (decide (date s = d)) as [->|Hne].
    + rewrite Z.eqb_refl. lia.
    + apply Z.eqb_neq in Hne. rewrite Hne. lia.
Qed.

Lemma group_fold_keys (rows : list Sale) (acc : list (Z * Z)) (d : Z) :
  d ∈ dict_keys (fold_left add_units rows acc)
  <-> d ∈ dict_keys acc \/ d ∈ date <$> rows.
Proof.
  revert acc. induction rows as [|s rows IH]; intros acc.
  - cbn. split; [by left | intros [H|H]; [exact H | by apply elem_of_nil in H]].
  - cbn [fold_left]. rewrite IH. unfold add_units at 1. rewrite dict_keys_set.
    rewrite fmap_cons, elem_of_cons.
    destruct (decide (date s ∈ dict_keys acc)) as [Hin|Hnotin].
    + split; [tauto|]. intros [H|[->|H]]; tauto.
    + rewrite elem_of_app, list_elem_of_singleton. tauto.
Qed.

Lemma group_fold_NoDup (rows : list Sale) (acc : list (Z * Z)) :
  NoDup (dict_keys acc) -> NoDup (dict_keys (fold_left add_units rows acc)).
Proof.
  revert acc. induction rows as [|s rows IH]; intros acc Hacc; [exact Hacc|].
  cbn [fold_left]. apply IH. unfold add_units. rewrite dict_keys_set.
  destruct (decide (date s ∈ dict_keys acc)) as [Hin|Hnotin]; [exact Hacc|].
  apply NoDup_app. split; [exact Hacc|]. split.
  - intros x Hx Hx'. apply list_elem_of_singleton in Hx' as ->. contradiction.
  - apply NoDup_singleton.
Qed.

Lemma group_by_date_unfiltered (rows : list Sale) :
  group_by_date None rows = fold_left add_units rows [].
Proof. unfold group_by_date. apply group_by_date_fold. Qed.

(** The dates the forecast works from are the dates of the selected rows of
    the last 60 days, each once and ascending, with the units sold on each. *)
Lemma actuals_grouped (drug : option string) (all_sales : list Sale) :
  let rows := selected drug (slice_to (60 * len DRUGS_DATA) all_sales) in
  let dates := fst (actuals drug all_sales) in
  let values := snd (actuals drug all_sales) in
  StronglySorted Z.lt dates /\
  (forall d, d ∈ dates <-> d ∈ date <$> rows) /\
  values = units_on rows <$> dates.
Proof.
  intros rows dates values. unfold dates, values, actuals. cbn [fst snd].
  rewrite group_by_date_selected. fold rows. rewrite group_by_date_unfiltered.
  destruct (sorted_distinct (dict_keys (fold_left add_units rows [])))
    as [Hsorted Hmem].
  { apply group_fold_NoDup. constructor. }
  split; [exact Hsorted|]. split.
  - intros d. rewrite Hmem, group_fold_keys. cbn.
    split; [intros [H|H]; [by apply elem_of_nil in H | exact H] | by right].
  - apply list_fmap_ext. intros _ d _. rewrite group_fold_get. reflexivity.
Qed.

(** *** Average, trend and predictions *)



Lemma py_floor_div (x : Qc) : py_floor x = Qnum (this x) / Z.pos (Qden (this x)).
Proof. unfold py_floor. destruct (this x) as [n d]. reflexivity. Qed.

Lemma py_int_floor (x : Qc) : (0 <= this x)%Q -> py_int x = py_floor x.
Proof.
  intros Hx. rewrite py_floor_div. unfold py_int.
  apply Z.quot_div_nonneg; [|lia]. unfold Qle in Hx. cbn in Hx. lia.
Qed.









(** ** The mock forecast: dates in and out of [datetime]'s range *)

Lemma predict_day_returns (last_date : datetime) (avg trend : Qc) (i : Z) (e : Entropy) :
  Z.abs i <= 999999999 ->
  datetime_min <= last_date + timedelta_days i <= datetime_max ->
  predict_day last_date avg trend i e
  = (returns (fst (predicted_day last_date avg trend i e)),
     snd (predicted_day last_date avg trend i e)).
Proof.
  intros Hi Hrange. unfold predict_day, timedelta_of_days, datetime_add.
  rewrite (proj2 (Z.ltb_ge _ _)) by lia. cbn [bind_raises returns].
  rewrite (proj2 (Z.ltb_ge _ _)) by lia.
  rewrite (proj2 (Z.ltb_ge _ _)) by lia. reflexivity.
Qed.

Lemma predict_day_overflows (last_date : datetime) (avg trend : Qc) (i : Z)
    (e : Entropy) :
  datetime_max < last_date + timedelta_days i ->
  predict_day last_date avg trend i e = (raise OverflowError, e).
Proof.
  intros Hover. unfold predict_day, timedelta_of_days, datetime_add.
  destruct (999999999 <? Z.abs i); [reflexivity|]. cbn [bind_raises returns].
  rewrite (proj2 (Z.ltb_lt datetime_max _)) by lia.
  rewrite orb_true_r. reflexivity.
Qed.

(** Whatever the date, a turn of the loop appends a day or raises
    [OverflowError] with nothing drawn. *)
Lemma predict_day_outcome (last_date : datetime) (avg trend : Qc) (i : Z)
    (e : Entropy) :
  predict_day last_date avg trend i e
  = (returns (fst (predicted_day last_date avg trend i e)),
     snd (predicted_day last_date avg trend i e))
  \/ predict_day last_date avg trend i e = (raise OverflowError, e).
Proof.
  unfold predict_day, timedelta_of_days, datetime_add.
  destruct (999999999 <? Z.abs i); [by right|]. cbn [bind_raises returns].
  destruct (_ || _); [by right | by left].
Qed.

Lemma for_each_raising_returns {A B} (body : A -> State (raises B))
    (body' : A -> State B) (xs : list A) (e : Entropy) :
  (forall x e', x ∈ xs ->
     body x e' = (returns (fst (body' x e')), snd (body' x e'))) ->
  for_each_raising body xs e
  = (returns (fst (for_each body' xs e)), snd (for_each body' xs e)).
Proof.
  revert e. induction xs as [|x xs IH]; intros e Hbody; [reflexivity|].
  cbn [for_each_raising for_each]. unfold bind.
  rewrite (Hbody x e) by apply list_elem_of_here. cbn [fst snd returns].
  rewrite IH by (intros x' e' Hx'; apply Hbody; by apply list_elem_of_further).
  reflexivity.
Qed.

Lemma for_each_raising_raises {A B} (body : A -> State (raises B))
    (body' : A -> State B) (err : exception) (xs : list A) (x0 : A) (e : Entropy) :
  (forall x e',
     body x e' = (returns (fst (body' x e')), snd (body' x e'))
     \/ body x e' = (raise err, e')) ->
  x0 ∈ xs ->
  (forall e', body x0 e' = (raise err, e')) ->
  fst (for_each_raising body xs e) = raise err.
Proof.
  intros Hbody Hin Hx0. revert e.
  induction xs as [|x xs IH]; intros e; [by apply elem_of_nil in Hin|].
  cbn [for_each_raising]. unfold bind.
  destruct (Hbody x e) as [Hret|Hraise].
  - rewrite Hret. cbn [fst snd returns].
    apply elem_of_cons in Hin as [->|Hin].
    { rewrite Hx0 in Hret. discriminate. }
    rewrite (IH Hin). reflexivity.
  - rewrite Hraise. reflexivity.
Qed.

(** What a loop that returns has appended came from turns that returned. *)
Lemma for_each_raising_Forall {A B} (body : A -> State (raises B)) (P : B -> Prop)
    (xs : list A) (e : Entropy) (ys : list B) :
  (forall x e' y, fst (body x e') = returns y -> P y) ->
  fst (for_each_raising body xs e) = returns ys ->
  Forall P ys.
Proof.
  intros Hbody. revert e ys.
  induction xs as [|x xs IH]; intros e ys.
  - cbn. intros [= <-]. constructor.
  - cbn [for_each_raising]. unfold bind.
    destruct (body x e) as [[err|y] e'] eqn:Hx; cbn [fst snd]; [discriminate|].
    destruct (for_each_raising body xs e') as [[err|rest] e''] eqn:Hrest;
      cbn [fst snd bind_raises ret]; [discriminate|].
    intros [= <-]. constructor.
    + apply (Hbody x e). by rewrite Hx.
    + apply (IH e'). by rewrite Hrest.
Qed.

Lemma range_from_elem (a b i : Z) : i ∈ range_from a b <-> a <= i < b.
Proof.
  unfold range_from. rewrite list_elem_of_fmap. split.
  - intros (n & -> & Hn). apply list_elem_of_In, in_seq in Hn. lia.
  - intros Hi. exists (Z.to_nat (i - a)). split; [lia|].
    apply list_elem_of_In, in_seq. lia.
Qed.

(** While the last forecast date is in range the mock branch returns what
    [forecast_in_range] describes. *)
Lemma forecast_from_sales_returns (all_sales : list Sale) (drug : option string)
    (days : Z) (now : datetime) (e : Entropy) :
  let last_date := last_date_of (fst (actuals drug all_sales)) now in
  datetime_min <= last_date ->
  last_date + timedelta_days days <= datetime_max ->
  forecast_from_sales all_sales drug days now e
  = (returns (fst (forecast_in_range all_sales drug days now e)),
     snd (forecast_in_range all_sales drug days now e)).
Proof.
  intros last_date.
  unfold last_date, forecast_from_sales, forecast_in_range, actuals, last_date_of.
  cbn [fst snd].
  generalize (group_by_date drug (slice_to (60 * len DRUGS_DATA) all_sales)).
  intros daily_data.
  generalize ((fun d => dict_get_default daily_data d 0) <$> sorted (dict_keys daily_data)).
  generalize (sorted (dict_keys daily_data)). intros dates values.
  generalize (match last dates with Some d => strptime_Ymd d | None => now end).
  intros ld Hmin Hmax.
  destruct (moving_average values) as [a t]. unfold bind, ret.
  rewrite (for_each_raising_returns _ (predicted_day ld a t)); [reflexivity|].
  intros i e' Hi. apply range_from_elem in Hi.
  unfold timedelta_days, datetime_min, datetime_max in *.
  apply predict_day_returns; unfold timedelta_days, datetime_min, datetime_max; lia.
Qed.

(** Once the last forecast date is past [datetime.max] the mock branch
    raises [OverflowError]. *)
Lemma forecast_from_sales_overflows (all_sales : list Sale) (drug : option string)
    (days : Z) (now : datetime) (e : Entropy) :
  let last_date := last_date_of (fst (actuals drug all_sales)) now in
  1 <= days ->
  datetime_max < last_date + timedelta_days days ->
  fst (forecast_from_sales all_sales drug days now e) = raise OverflowError.
Proof.
  intros last_date.
  unfold last_date, forecast_from_sales, actuals, last_date_of. cbn [fst snd].
  generalize (group_by_date drug (slice_to (60 * len DRUGS_DATA) all_sales)).
  intros daily_data.
  generalize ((fun d => dict_get_default daily_data d 0) <$> sorted (dict_keys daily_data)).
  generalize (sorted (dict_keys daily_data)). intros dates values.
  generalize (match last dates with Some d => strptime_Ymd d | None => now end).
  intros ld Hdays Hover.
  destruct (moving_average values) as [a t]. unfold bind, ret. cbn [fst snd].
  rewrite (for_each_raising_raises _ (predicted_day ld a t) OverflowError _ days);
    [reflexivity | | |].
  - intros i e'. apply predict_day_outcome.
  - apply range_from_elem. lia.
  - intros e'. by apply predict_day_overflows.
Qed.

(** Whatever the mock branch returns is a dictionary built from days the
    loop appended. *)
Lemma forecast_from_sales_inv (all_sales : list Sale) (drug : option string)
    (days : Z) (now : datetime) (e : Entropy) (f : Forecast) :
  fst (forecast_from_sales all_sales drug days now e) = returns f ->
  exists days_out,
    f = forecast_body (fst (actuals drug all_sales)) (snd (actuals drug all_sales))
          days_out drug /\
    Forall (fun day => 0 <= snd day) days_out.
Proof.
  unfold forecast_from_sales, actuals. cbn [fst snd].
  generalize (group_by_date drug (slice_to (60 * len DRUGS_DATA) all_sales)).
  intros daily_data.
  generalize ((fun d => dict_get_default daily_data d 0) <$> sorted (dict_keys daily_data)).
  generalize (sorted (dict_keys daily_data)). intros dates values.
  generalize (match last dates with Some d => strptime_Ymd d | None => now end).
  intros ld.
  destruct (moving_average values) as [a t]. unfold bind, ret. cbn [fst snd].
  destruct (for_each_raising _ _ e) as [[err|days_out] e'] eqn:Hloop;
    cbn [fst snd bind_raises]; [discriminate|].
  intros [= <-]. exists days_out. split; [reflexivity|].
  apply (for_each_raising_Forall (predict_day ld a t) _ (range_from 1 (days + 1)) e);
    [|by rewrite Hloop].
  intros i e'' day. destruct (predict_day_outcome ld a t i e'') as [Hret|Hraise].
  - rewrite Hret. cbn [fst]. intros [= <-].
    unfold predicted_day, bind, ret. cbn [fst snd]. lia.
  - rewrite Hraise. discriminate.
Qed.

(** Without a usable [ML_API_URL] the handler is its mock branch. *)
Lemma get_forecast_mock_branch (ML_API_URL : option string)
    (requests_get : string -> option string -> Z -> raises Response)
    (drug : option string) (days : Z) (now : datetime) (entropy : Entropy) :
  truthy ML_API_URL = false ->
  fst (get_forecast ML_API_URL requests_get drug days now entropy)
  = (try! f := fst (forecast_from_sales (fst (generate_mock_sales_data now entropy))
                      drug days now (snd (generate_mock_sales_data now entropy))) in
     returns (Mock f)).
Proof.
  intros Hurl. unfold get_forecast.
  destruct ML_API_URL as [[|c rest]|]; try discriminate; reflexivity.
Qed.

(** * Further properties of the endpoints *)

(** ** Registration and login *)

Lemma find_one_some (collection : list (gmap string value)) (field : string)
    (v : value) (excluded : list string) (doc : gmap string value) :
  doc ∈ collection -> doc !! field = Some v ->
  is_Some (find_one collection field v excluded).
Proof.
  intros Hin Hdoc. unfold find_one.
  destruct (List.find _ collection) as [d|] eqn:Hfind; [by eexists|].
  exfalso. apply list_elem_of_In in Hin.
  pose proof (find_none _ _ Hfind doc Hin) as Hnone. cbn in Hnone.
  by rewrite bool_decide_eq_true_2 in Hnone.
Qed.

Section RegistrationProperties.

Variable hmac_sha256 : string -> string * claims Z -> string.
Variable bcrypt : Z -> Z -> string -> string.
Variable SECRET_KEY : string.


End RegistrationProperties.




(** X1. [register] answers 400 for an email that is already stored, and then
    neither the collection nor the random sources are touched. *)
Theorem register_rejects_stored_email
    (hmac_sha256 : string -> string * claims Z -> string)
    (bcrypt : Z -> Z -> string -> string) (SECRET_KEY : string)
    (user_data : UserCreate) (db : database) (created now : datetime)
    (entropy : Entropy) (doc : gmap string value) :
  doc ∈ users db ->
  doc !! "email" = Some (VStr (uc_email user_data)) ->
  register hmac_sha256 bcrypt SECRET_KEY user_data db created now entropy
  = ((raise (HTTPException 400 "Email already registered"), db), entropy).
Proof.
  intros Hin Hdoc. unfold register.
  destruct (find_one_some (users db) "email" (VStr (uc_email user_data)) [] doc Hin Hdoc)
    as [found ->].
  reflexivity.
Qed.

Lemma register_rejects_stored_email_witness :
  register sample_hmac sample_bcrypt "secret"
    (mkUserCreate "alice@x.com" "Alice again" "other-password")
    sample_db 5 6 sample_entropy
  = ((raise (HTTPException 400 "Email already registered"), sample_db), sample_entropy).
Proof.
  apply (register_rejects_stored_email sample_hmac sample_bcrypt "secret"
           (mkUserCreate "alice@x.com" "Alice again" "other-password")
           sample_db 5 6 sample_entropy sample_user).
  - apply list_elem_of_here.
  - reflexivity.
Defined.

Lemma register_interleaved_sequential
    (hmac_sha256 : string -> string * claims Z -> string)
    (bcrypt : Z -> Z -> string -> string) (SECRET_KEY : string)
    (user_data : UserCreate) (db : database) (created now : datetime) :
  register_interleaved hmac_sha256 bcrypt SECRET_KEY user_data db db created now
  = register hmac_sha256 bcrypt SECRET_KEY user_data db created now.
Proof. reflexivity. Qed.




Lemma login_first_match
    (hmac_sha256 : string -> string * claims Z -> string)
    (bcrypt : Z -> Z -> string -> string) (SECRET_KEY : string)
    (email password : string) (db : database) (now : datetime)
    (before after : list (gmap string value)) (doc : gmap string value)
    (rounds salt : Z) (checksum : string) (id name : value) :
  users db = before ++ doc :: after ->
  (forall d, d ∈ before -> d !! "email" <> Some (VStr email)) ->
  doc !! "email" = Some (VStr email) ->
  doc !! "password_hash" = Some (VHash (Bcrypt rounds salt checksum)) ->
  doc !! "id" = Some id ->
  doc !! "name" = Some name ->
  acceptable_secret password ->
  login hmac_sha256 bcrypt SECRET_KEY (mkUserLogin email password) db now
  = if String.eqb (bcrypt rounds salt (take_bytes 72 password)) checksum
    then returns
           (mkToken
              (create_access_token hmac_sha256 SECRET_KEY now
                 (Claims (Some email) None)
                 (Some (timedelta_minutes ACCESS_TOKEN_EXPIRE_MINUTES)))
              "bearer"
              (<["name" := name]> (<["email" := VStr email]> (<["id" := id]> ∅))))
    else raise (HTTPException 401 "Invalid email or password").
Proof.
  intros Husers Hbefore Hemail Hhash Hid Hname Hpw. unfold login. cbn [ul_email ul_password].
  rewrite Husers, find_one_first by assumption. cbn [foldr].
  unfold getitem. rewrite Hhash, Hemail, Hid, Hname.
  unfold stored_hash, subject_of, returns. cbn [bind_raises].
  rewrite verify_password_bcrypt by exact Hpw. unfold returns. cbn [bind_raises].
  destruct (String.eqb _ checksum); reflexivity.
Qed.






Lemma login_refused_password
    (hmac_sha256 : string -> string * claims Z -> string)
    (bcrypt : Z -> Z -> string -> string) (SECRET_KEY : string)
    (email password : string) (db : database) (now : datetime)
    (before after : list (gmap string value)) (doc : gmap string value)
    (rounds salt : Z) (checksum : string) :
  users db = before ++ doc :: after ->
  (forall d, d ∈ before -> d !! "email" <> Some (VStr email)) ->
  doc !! "email" = Some (VStr email) ->
  doc !! "password_hash" = Some (VHash (Bcrypt rounds salt checksum)) ->
  ~ acceptable_secret password ->
  exists kind,
    login hmac_sha256 bcrypt SECRET_KEY (mkUserLogin email password) db now
    = raise (PasslibError kind).
Proof.
  intros Husers Hbefore Hemail Hhash Hbad. unfold login. cbn [ul_email ul_password].
  rewrite Husers, find_one_first by assumption. cbn [foldr].
  unfold getitem. rewrite Hhash.
  unfold stored_hash, returns. cbn [bind_raises].
  destruct (verify_password_refuses bcrypt password rounds salt checksum Hbad)
    as [kind Hkind].
  exists kind. rewrite Hkind. reflexivity.
Qed.

(** X5. [login] answers 401 "Invalid email or password" for an email that is
    not stored, whatever the password, and the same 401 for a stored email
    with a password passlib accepts whose bcrypt checksum differs from the
    stored one. A password passlib refuses (a NUL byte, more than 4096
    characters) tells the two apart: against a stored email the passlib
    error passes through [login], so the answer is not the 401. *)
Theorem login_rejection_answers
    (hmac_sha256 : string -> string * claims Z -> string)
    (bcrypt : Z -> Z -> string -> string) (SECRET_KEY : string)
    (email password : string) (db : database) (now : datetime) :
  let answer := login hmac_sha256 bcrypt SECRET_KEY (mkUserLogin email password) db now in
  let rejected := raise (HTTPException 401 "Invalid email or password") in
  ((forall doc, doc ∈ users db -> doc !! "email" <> Some (VStr email)) ->
   answer = rejected) /\
  (forall before doc after rounds salt checksum id name,
     users db = before ++ doc :: after ->
     (forall d, d ∈ before -> d !! "email" <> Some (VStr email)) ->
     doc !! "email" = Some (VStr email) ->
     doc !! "password_hash" = Some (VHash (Bcrypt rounds salt checksum)) ->
     doc !! "id" = Some id ->
     doc !! "name" = Some name ->
     acceptable_secret password ->
     bcrypt rounds salt (take_bytes 72 password) <> checksum ->
     answer = rejected) /\
  (forall before doc after rounds salt checksum,
     users db = before ++ doc :: after ->
     (forall d, d ∈ before -> d !! "email" <> Some (VStr email)) ->
     doc !! "email" = Some (VStr email) ->
     doc !! "password_hash" = Some (VHash (Bcrypt rounds salt checksum)) ->
     ~ acceptable_secret password ->
     (exists kind, answer = raise (PasslibError kind)) /\ answer <> rejected).
Proof.
  intros answer rejected. split; [|split].
  - intros Hnone. unfold answer, login. cbn [ul_email].
    rewrite find_one_none by exact Hnone. reflexivity.
  - intros before doc after rounds salt checksum id name
      Husers Hbefore Hemail Hhash Hid Hname Hpw Hne.
    unfold answer.
    rewrite (login_first_match hmac_sha256 bcrypt SECRET_KEY email password db now
               before after doc rounds salt checksum id name) by assumption.
    apply String.eqb_neq in Hne. by rewrite Hne.
  - intros before doc after rounds salt checksum Husers Hbefore Hemail Hhash Hbad.
    destruct (login_refused_password hmac_sha256 bcrypt SECRET_KEY email password db now
                before after doc rounds salt checksum Husers Hbefore Hemail Hhash Hbad)
      as [kind Hkind].
    split; [by exists kind|]. unfold answer, rejected. rewrite Hkind. discriminate.
Qed.

Lemma login_rejection_answers_witness :
  login sample_hmac sample_bcrypt "secret" (mkUserLogin "nobody@x.com" "pw123")
    sample_db 1000
  = raise (HTTPException 401 "Invalid email or password") /\
  login sample_hmac sample_bcrypt "secret" (mkUserLogin "alice@x.com" "wrong")
    sample_db 1000
  = raise (HTTPException 401 "Invalid email or password") /\
  login sample_hmac sample_bcrypt "secret" (mkUserLogin "nobody@x.com" password_with_nul)
    sample_db 1000
  = raise (HTTPException 401 "Invalid email or password") /\
  login sample_hmac sample_bcrypt "secret" (mkUserLogin "alice@x.com" password_with_nul)
    sample_db 1000
  <> raise (HTTPException 401 "Invalid email or password").
Proof.
  split; [|split; [|split]].
  - destruct (login_rejection_answers sample_hmac sample_bcrypt "secret"
                "nobody@x.com" "pw123" sample_db 1000) as [Hunknown _].
    apply Hunknown. intros doc Hdoc.
    apply list_elem_of_singleton in Hdoc as ->. discriminate.
  - destruct (login_rejection_answers sample_hmac sample_bcrypt "secret"
                "alice@x.com" "wrong" sample_db 1000) as (_ & Hwrong & _).
    apply (Hwrong [] sample_user [] 12 5 "pw123"%string (VUuid 1) (VStr "Alice"));
      try reflexivity.
    + intros d Hd. inversion Hd.
    + split; [vm_compute; discriminate | reflexivity].
    + vm_compute. discriminate.
  - destruct (login_rejection_answers sample_hmac sample_bcrypt "secret"
                "nobody@x.com" password_with_nul sample_db 1000) as [Hunknown _].
    apply Hunknown. intros doc Hdoc.
    apply list_elem_of_singleton in Hdoc as ->. discriminate.
  - destruct (login_rejection_answers sample_hmac sample_bcrypt "secret"
                "alice@x.com" password_with_nul sample_db 1000) as (_ & _ & Hrefused).
    apply (Hrefused [] sample_user [] 12 5 "pw123"%string); try reflexivity.
    + intros d Hd. inversion Hd.
    + intros [_ Hnul]. vm_compute in Hnul. discriminate.
Defined.

(** X6. [create_access_token] gives a token the lifetime it is handed, and 15
    minutes when it is handed none or a zero [timedelta]; a negative lifetime
    gives a token that is rejected from its issue on. Whatever [exp] the
    data carried is replaced. *)
Theorem create_access_token_lifetime
    (hmac_sha256 : string -> string * claims Z -> string) (SECRET_KEY e : string)
    (carried : option datetime) (issued now : datetime) :
  let data := Claims (Some e) carried in
  let verified := fun expires_delta =>
    token_subject hmac_sha256 SECRET_KEY now
      (create_access_token hmac_sha256 SECRET_KEY issued data expires_delta) in
  let rejected := raise (HTTPException 401 "Invalid token") in
  verified (Some 0) = verified None /\
  (now <= issued + timedelta_minutes 14 -> verified None = returns e) /\
  (issued + timedelta_minutes 15 <= now -> verified None = rejected) /\
  (forall delta, delta <> 0 ->
     verified (Some delta)
     = if expiry_of issued delta <=? now then rejected else returns e) /\
  (forall delta, delta < 0 -> issued <= now -> verified (Some delta) = rejected).
Proof.
  intros data verified rejected.
  assert (Hgen : forall ttl expires_delta,
            ttl = match expires_delta with
                  | Some delta => if delta =? 0 then timedelta_minutes 15 else delta
                  | None => timedelta_minutes 15
                  end ->
            verified expires_delta
            = if expiry_of issued ttl <=? now then rejected else returns e).
  { intros ttl expires_delta ->. unfold verified, token_subject, create_access_token.
    rewrite jwt_decode_encode. cbn [exp sub data]. unfold expiry_of.
    destruct expires_delta as [delta|]; [destruct (delta =? 0)|];
      destruct (_ <=? now); reflexivity. }
  pose proof (expiry_of_bounds issued (timedelta_minutes 15)) as Hb.
  assert (H14 : timedelta_minutes 14 = 840000000) by reflexivity.
  assert (H15 : timedelta_minutes 15 = 900000000) by reflexivity.
  pose proof (Hgen (timedelta_minutes 15) None eq_refl) as Hnone.
  split; [|split; [|split; [|split]]].
  - reflexivity.
  - intros Hnow. etransitivity; [exact Hnone|].
    destruct (Z.leb_spec (expiry_of issued (timedelta_minutes 15)) now); [lia | reflexivity].
  - intros Hnow. etransitivity; [exact Hnone|].
    destruct (Z.leb_spec (expiry_of issued (timedelta_minutes 15)) now); [reflexivity | lia].
  - intros delta Hdelta. apply Hgen. cbn.
    destruct (Z.eqb_spec delta 0); [contradiction | reflexivity].
  - intros delta Hneg Hnow. etransitivity; [apply (Hgen delta (Some delta))|].
    + cbn. destruct (Z.eqb_spec delta 0); [lia | reflexivity].
    + pose proof (expiry_of_bounds issued delta).
      destruct (Z.leb_spec (expiry_of issued delta) now); [reflexivity | lia].
Qed.

Lemma create_access_token_lifetime_witness :
  let tok := create_access_token sample_hmac "secret" 0
               (Claims (Some "alice@x.com"%string) None) (Some 0) in
  token_subject sample_hmac "secret" 840000000 tok = returns "alice@x.com"%string /\
  token_subject sample_hmac "secret" 900000000 tok
  = raise (HTTPException 401 "Invalid token").
Proof.
  intros tok.
  pose proof (fun now => create_access_token_lifetime sample_hmac "secret" "alice@x.com"
                           None 0 now) as H.
  split.
  - destruct (H 840000000) as (Hzero & Hvalid & _).
    unfold tok. rewrite Hzero. apply Hvalid. vm_compute. discriminate.
  - destruct (H 900000000) as (Hzero & _ & Hexpired & _).
    unfold tok. rewrite Hzero. apply Hexpired. vm_compute. discriminate.
Defined.

(** ** Ranges of the generated numbers *)

Lemma random_random_range (e : Entropy) :
  (0 <= this (fst (random_random e)) < 1)%Q.
Proof.
  unfold random_random, bind, ret, next_mt. cbn [fst snd].
  rewrite this_Q2Qc. unfold Qle, Qlt. cbn [Qnum Qden].
  pose proof (Z.mod_pos_bound (mt_tape e (mt_pos e)) (2 ^ 53)). lia.
Qed.

Lemma this_dec (n : Z) (d : positive) : (this (dec n d) == n # d)%Q.
Proof. apply this_Q2Qc. Qed.

Lemma this_of_int (z : Z) : (this (of_int z) == inject_Z z)%Q.
Proof. apply this_Q2Qc. Qed.

Lemma this_minus (x y : Qc) : (this (x - y)%Qc == this x - this y)%Q.
Proof.
  unfold Qcminus. rewrite this_plus. unfold Qcopp. rewrite this_Q2Qc. reflexivity.
Qed.

(** [uniform(a, b)] lies between [a] and [b] when [a <= b]. *)
Lemma random_uniform_range (a b : Qc) (e : Entropy) :
  (this a <= this b)%Q ->
  (this a <= this (fst (random_uniform a b e)) <= this b)%Q.
Proof.
  intros Hab. unfold random_uniform, bind, ret. cbn [fst snd].
  rewrite this_plus, this_mult, this_minus.
  pose proof (random_random_range e) as [H0 H1].
  set (u := this (fst (random_random e))) in *. nra.
Qed.

Lemma py_int_bounds (x : Qc) (lo hi : Z) :
  0 <= lo -> (inject_Z lo <= this x <= inject_Z hi)%Q -> lo <= py_int x <= hi.
Proof.
  intros Hlo [Hl Hh].
  assert (Hx : (0 <= this x)%Q).
  { apply Qle_trans with (inject_Z lo); [|exact Hl]. unfold Qle. cbn. lia. }
  rewrite py_int_floor by exact Hx. unfold py_floor.
  rewrite <- (Qfloor_Z lo), <- (Qfloor_Z hi).
  split; by apply Qfloor_resp_le.
Qed.

Lemma inject_Z_le (a b : Z) : a <= b -> (inject_Z a <= inject_Z b)%Q.
Proof. intros H. unfold Qle. cbn. lia. Qed.

Lemma generate_row_units_range (t : datetime) (date_str : Z) (drug : Drug) (e : Entropy) :
  let units := units_sold (fst (generate_row t date_str drug e)) in
  if weekday t <? 5 then 42 <= units <= 312 else 28 <= units <= 208.
Proof.
  unfold generate_row. unfold bind at 1. unfold bind at 1. unfold bind at 1.
  unfold bind at 1. unfold ret. cbn [fst snd units_sold].
  pose proof (random_randint_bounds 50 200 e ltac:(lia)) as [Hb1 Hb2].
  set (b := fst (random_randint 50 200 e)) in *.
  assert (Hn : (7 # 10 <= this (fst (random_uniform (dec 7 10) (dec 13 10)
                                       (snd (random_randint 50 200 e)))) <= 13 # 10)%Q).
  { pose proof (random_uniform_range (dec 7 10) (dec 13 10)
                  (snd (random_randint 50 200 e))) as H.
    rewrite !this_dec in H. apply H. unfold Qle. cbn. lia. }
  set (n := fst (random_uniform _ _ _)) in *.
  apply inject_Z_le in Hb1, Hb2. rewrite <- (this_of_int b) in Hb1, Hb2.
  destruct (weekday t <? 5); apply py_int_bounds; try lia;
    rewrite !this_mult, this_dec;
    set (q := this (of_int b)) in *; set (r := this n) in *;
    change (inject_Z 50) with (50 # 1)%Q in Hb1;
    change (inject_Z 200) with (200 # 1)%Q in Hb2.
  - assert (HA : ((60 # 1) <= q * (12 # 10) <= (240 # 1))%Q) by lra.
    set (A := (q * (12 # 10))%Q) in *.
    pose proof (Qmult_le_compat_nonneg (60 # 1) A (7 # 10) r) as Hlo.
    pose proof (Qmult_le_compat_nonneg A (240 # 1) r (13 # 10)) as Hhi.
    change (inject_Z 42) with (42 # 1)%Q. change (inject_Z 312) with (312 # 1)%Q.
    assert (((60 # 1) * (7 # 10) == 42 # 1)%Q) as Hlo' by reflexivity.
    assert (((240 # 1) * (13 # 10) == 312 # 1)%Q) as Hhi' by reflexivity.
    rewrite <- Hlo', <- Hhi'. split; [apply Hlo | apply Hhi]; lra.
  - assert (HA : ((40 # 1) <= q * (8 # 10) <= (160 # 1))%Q) by lra.
    set (A := (q * (8 # 10))%Q) in *.
    pose proof (Qmult_le_compat_nonneg (40 # 1) A (7 # 10) r) as Hlo.
    pose proof (Qmult_le_compat_nonneg A (160 # 1) r (13 # 10)) as Hhi.
    change (inject_Z 28) with (28 # 1)%Q. change (inject_Z 208) with (208 # 1)%Q.
    assert (((40 # 1) * (7 # 10) == 28 # 1)%Q) as Hlo' by reflexivity.
    assert (((160 # 1) * (13 # 10) == 208 # 1)%Q) as Hhi' by reflexivity.
    rewrite <- Hlo', <- Hhi'. split; [apply Hlo | apply Hhi]; lra.
Qed.

Lemma for_each_Forall_in {A B} (body : A -> State B) (P : B -> Prop)
    (xs : list A) (e : Entropy) :
  (forall x e', x ∈ xs -> P (fst (body x e'))) ->
  Forall P (fst (for_each body xs e)).
Proof.
  revert e. induction xs as [|x xs IH]; intros e Hbody; [constructor|].
  cbn. unfold bind. cbn. constructor.
  - apply Hbody. by left.
  - apply IH. intros y e' Hy. apply Hbody. by right.
Qed.

Lemma weekday_of_date (t : datetime) :
  weekday (strptime_Ymd (strftime_Ymd t)) = weekday t.
Proof.
  unfold weekday, strptime_Ymd, strftime_Ymd.
  rewrite Z.div_mul by (unfold day_us; lia). reflexivity.
Qed.

Lemma round_half_even_nonneg (q : Q) : (0 <= q)%Q -> 0 <= round_half_even q.
Proof.
  intros Hq. unfold round_half_even.
  assert (0 <= Qfloor q).
  { rewrite <- (Qfloor_Z 0). by apply Qfloor_resp_le. }
  destruct (Qcompare _ _); [destruct (Z.even _)| |]; lia.
Qed.

Lemma py_round2_nonneg (x : Qc) : (0 <= this x)%Q -> (0 <= this (py_round2 x))%Q.
Proof.
  intros Hx. unfold py_round2. apply nonneg_Q2Qc.
  assert (0 <= round_half_even (this x * inject_Z 100)).
  { apply round_half_even_nonneg. apply Qmult_le_0_compat; [exact Hx|].
    unfold Qle. cbn. lia. }
  unfold Qle. cbn. lia.
Qed.

Lemma catalog_prices_nonneg (drug : Drug) :
  drug ∈ DRUGS_DATA -> (0 <= this (base_price drug))%Q.
Proof.
  intros Hdrug. apply list_elem_of_In in Hdrug. cbn in Hdrug.
  repeat (destruct Hdrug as [<-|Hdrug]; [vm_compute; discriminate|]). contradiction.
Qed.

Lemma generate_row_revenue_nonneg (t : datetime) (date_str : Z) (drug : Drug)
    (e : Entropy) :
  (0 <= this (base_price drug))%Q ->
  (0 <= this (revenue (fst (generate_row t date_str drug e))))%Q.
Proof.
  intros Hprice.
  pose proof (generate_row_units t date_str drug e) as Hunits. revert Hunits.
  unfold generate_row. unfold bind at 1. unfold bind at 1. unfold bind at 1.
  unfold bind at 1. unfold ret. cbn [fst snd units_sold revenue].
  unfold bind at 1. unfold bind at 1. unfold bind at 1. unfold bind at 1.
  unfold ret. cbn [fst snd units_sold]. intros Hunits.
  apply py_round2_nonneg. apply nonneg_mult; [apply nonneg_mult|].
  - by apply nonneg_of_int.
  - exact Hprice.
  - apply random_uniform_nonneg; [apply nonneg_dec; lia|]. vm_compute. discriminate.
Qed.

(** X7. Every generated row sells between 42 and 312 units on a weekday
    (Monday to Friday) and between 28 and 208 on a weekend day, and its
    revenue is a non-negative amount in whole cents. *)
Theorem generated_rows_ranges (now : datetime) (entropy : Entropy) :
  Forall
    (fun s =>
       (if weekday (strptime_Ymd (date s)) <? 5
        then 42 <= units_sold s <= 312
        else 28 <= units_sold s <= 208) /\
       is_cents (revenue s) /\
       (0 <= this (revenue s))%Q)
    (fst (generate_mock_sales_data now entropy)).
Proof.
  unfold generate_mock_sales_data, bind, ret. cbn [fst snd].
  apply Forall_concat_all. apply for_each_Forall. intros d e'.
  apply for_each_Forall_in. intros drug e'' Hdrug. split; [|split].
  - pose proof (generate_row_units_range (now - timedelta_days d)
                  (strftime_Ymd (now - timedelta_days d)) drug e'') as H.
    cbv zeta in H.
    replace (date (fst (generate_row (now - timedelta_days d)
                          (strftime_Ymd (now - timedelta_days d)) drug e'')))
      with (strftime_Ymd (now - timedelta_days d)) by reflexivity.
    rewrite weekday_of_date. exact H.
  - apply generate_row_cents.
  - apply generate_row_revenue_nonneg. by apply catalog_prices_nonneg.
Qed.

(** ** [GET /api/sales] with a drug filter *)

Lemma filter_same_drug_keys (q : string) (rows : list Sale) :
  row_key <$> List.filter (same_drug q) rows
  = List.filter (fun k => String.eqb (lower (fst (fst k))) (lower q)) (row_key <$> rows).
Proof.
  induction rows as [|s rows IH]; [reflexivity|].
  cbn. unfold same_drug at 1. cbn.
  destruct (String.eqb (lower (drug_name s)) (lower q)); cbn; by rewrite IH.
Qed.

Lemma expected_keys_matching (today days : Z) (q : string) (drug : Drug) :
  In drug DRUGS_DATA -> lower q = lower (name drug) ->
  List.filter (fun k => String.eqb (lower (fst (fst k))) (lower q))
    (expected_keys today days)
  = (fun d => (name drug, category drug, today - d)) <$> range days.
Proof.
  intros Hdrug ->. unfold expected_keys.
  induction (range days) as [|d ds IH]; [reflexivity|].
  cbn [mbind list_bind]. rewrite List.filter_app, IH.
  assert (Hhead :
    List.filter (fun k : string * string * Z =>
                   String.eqb (lower (fst (fst k))) (lower (name drug)))
      ((fun drug' => (name drug', category drug', today - d)) <$> DRUGS_DATA)
    = [(name drug, category drug, today - d)]).
  { cbn in Hdrug.
    repeat (destruct Hdrug as [<-|Hdrug]; [reflexivity|]). contradiction. }
  rewrite Hhead. reflexivity.
Qed.

Lemma expected_keys_unmatched (today days : Z) (q : string) :
  (forall drug, In drug DRUGS_DATA -> lower (name drug) <> lower q) ->
  List.filter (fun k => String.eqb (lower (fst (fst k))) (lower q))
    (expected_keys today days) = [].
Proof.
  intros Hnone. unfold expected_keys.
  induction (range days) as [|d ds IH]; [reflexivity|].
  cbn [mbind list_bind]. rewrite List.filter_app, IH, app_nil_r.
  revert Hnone. generalize DRUGS_DATA. intros drugs Hnone.
  induction drugs as [|drug drugs IHd]; [reflexivity|].
  cbn. destruct (String.eqb_spec (lower (name drug)) (lower q)) as [Heq|_].
  - exfalso. apply (Hnone drug); [by left | exact Heq].
  - apply IHd. intros drug' Hin. apply Hnone. by right.
Qed.

(** X8. With a drug filter that names a catalog drug, in any letter case,
    and [0 <= days <= 180], [GET /sales] returns exactly one row per day for
    the [days] most recent days, all of that drug, today first; [total] is
    [days]. *)
Theorem get_sales_drug_filter (days : Z) (q : string) (drug : Drug)
    (now : datetime) (entropy : Entropy) :
  In drug DRUGS_DATA ->
  lower q = lower (name drug) ->
  0 <= days <= 180 ->
  let response := fst (get_sales days (Some q) now entropy) in
  row_key <$> sales response
  = (fun d => (name drug, category drug, strftime_Ymd now - d)) <$> range days /\
  total response = days.
Proof.
  intros Hdrug Hq Hdays response.
  assert (Hne : exists c rest, q = String c rest).
  { destruct q as [|c rest]; [|eauto]. exfalso. cbn in Hdrug, Hq.
    repeat (destruct Hdrug as [<-|Hdrug]; [discriminate|]). contradiction. }
  destruct Hne as (c & rest & Hcr).
  assert (Hkeys : row_key <$> sales response
                  = (fun d => (name drug, category drug, strftime_Ymd now - d))
                      <$> range days).
  { unfold response, get_sales, bind, ret. rewrite Hcr. cbn [fst snd sales].
    rewrite <- Hcr. rewrite filter_same_drug_keys.
    unfold slice_to. destruct (Z.ltb_spec (days * len DRUGS_DATA) 0) as [Hneg|_];
      [unfold len in Hneg; cbn in Hneg; lia|].
    rewrite fmap_take, generate_keys.
    change (days * len DRUGS_DATA) with (days * 10).
    rewrite expected_keys_take by lia. by apply expected_keys_matching. }
  split; [exact Hkeys|].
  unfold response. rewrite get_sales_total. fold response. unfold len.
  rewrite <- (length_fmap row_key), Hkeys, length_fmap, range_length. lia.
Qed.

Lemma get_sales_drug_filter_witness :
  let response := fst (get_sales 3 (Some "IBUPROFEN"%string) 1700000000000000
                         sample_entropy) in
  row_key <$> sales response
  = [("Ibuprofen", "Pain Relief", 19675); ("Ibuprofen", "Pain Relief", 19674);
     ("Ibuprofen", "Pain Relief", 19673)]%string /\
  total response = 3.
Proof.
  apply (get_sales_drug_filter 3 "IBUPROFEN"
           (mkDrug "Ibuprofen" "Pain Relief" (dec 699 100))
           1700000000000000 sample_entropy).
  - cbn. tauto.
  - reflexivity.
  - lia.
Defined.

(** X9. A drug filter that names no catalog drug gives an empty result with
    [total] 0, whatever [days] is; an empty filter string filters nothing. *)
Theorem get_sales_filter_edges (days : Z) (now : datetime) (entropy : Entropy) :
  (forall q, q <> ""%string ->
     (forall drug, In drug DRUGS_DATA -> lower (name drug) <> lower q) ->
     sales (fst (get_sales days (Some q) now entropy)) = [] /\
     total (fst (get_sales days (Some q) now entropy)) = 0) /\
  fst (get_sales days (Some ""%string) now entropy)
  = fst (get_sales days None now entropy).
Proof.
  split; [|reflexivity].
  intros q Hq Hnone. destruct q as [|c rest]; [contradiction|].
  assert (Hempty : sales (fst (get_sales days (Some (String c rest)) now entropy)) = []).
  { apply (fmap_nil_inv row_key).
    unfold get_sales, bind, ret. cbn [fst snd sales].
    rewrite filter_same_drug_keys.
    assert (Hall : forall keys : list (string * string * Z),
              (exists suffix, expected_keys (strftime_Ymd now) 180 = keys ++ suffix) ->
              List.filter (fun k => String.eqb (lower (fst (fst k)))
                                      (lower (String c rest))) keys = []).
    { intros keys [suffix Hsplit].
      pose proof (expected_keys_unmatched (strftime_Ymd now) 180 (String c rest) Hnone)
        as Hfull.
      rewrite Hsplit, List.filter_app in Hfull. by apply app_eq_nil in Hfull as [? _]. }
    apply Hall. unfold slice_to.
    destruct (_ <? 0); rewrite fmap_take, generate_keys;
      eexists; symmetry; apply take_drop. }
  split; [exact Hempty|]. rewrite get_sales_total, Hempty. reflexivity.
Qed.

Lemma get_sales_filter_edges_witness :
  sales (fst (get_sales 30 (Some "Aspirin"%string) 1700000000000000 sample_entropy)) = [] /\
  total (fst (get_sales 30 (Some "Aspirin"%string) 1700000000000000 sample_entropy)) = 0.
Proof.
  destruct (get_sales_filter_edges 30 1700000000000000 sample_entropy) as [Hunknown _].
  apply Hunknown; [discriminate|].
  intros drug Hdrug. cbn in Hdrug.
  repeat (destruct Hdrug as [<-|Hdrug]; [discriminate|]). contradiction.
Defined.

(** ** Dictionaries, for any keys and values *)

Section DictProperties.

Context {K V : Type} `{EqDecision K}.

Lemma dict_get_set_eq (d : list (K * V)) (k : K) (v : V) :
  dict_get (dict_set d k v) k = Some v.
Proof.
  induction d as [|[k0 v0] d IH]; cbn.
  - by rewrite decide_True.
  - destruct (decide (k0 = k)) as [->|Hne]; cbn.
    + by rewrite decide_True.
    + by rewrite decide_False.
Qed.

Lemma dict_get_set_ne (d : list (K * V)) (k k' : K) (v : V) :
  k <> k' -> dict_get (dict_set d k v) k' = dict_get d k'.
Proof.
  intros Hne. induction d as [|[k0 v0] d IH]; cbn.
  - by rewrite decide_False.
  - destruct (decide (k0 = k)) as [->|Hne0]; cbn.
    + by rewrite !decide_False.
    + destruct (decide (k0 = k')); [reflexivity | exact IH].
Qed.

Lemma dict_set_twice (d : list (K * V)) (k : K) (a b : V) :
  dict_set (dict_set d k a) k b = dict_set d k b.
Proof.
  induction d as [|[k0 v0] d IH]; cbn.
  - by rewrite decide_True.
  - destruct (decide (k0 = k)) as [->|Hne]; cbn.
    + by rewrite decide_True.
    + rewrite decide_False by done. by rewrite IH.
Qed.

Lemma dict_keys_after_set (d : list (K * V)) (k : K) (v : V) :
  dict_keys (dict_set d k v)
  = if decide (k ∈ dict_keys d) then dict_keys d else dict_keys d ++ [k].
Proof.
  unfold dict_keys. induction d as [|[k0 v0] d IH]; cbn.
  - rewrite decide_False; [reflexivity | apply not_elem_of_nil].
  - destruct (decide (k0 = k)) as [->|Hne]; cbn.
    + rewrite decide_True; [reflexivity | by left].
    + rewrite IH. destruct (decide (k ∈ fst <$> d)) as [Hin|Hnotin].
      * rewrite decide_True; [reflexivity | by right].
      * rewrite decide_False; [reflexivity|].
        intros Hin. apply elem_of_cons in Hin as [->|Hin]; contradiction.
Qed.

Lemma dict_get_default_after_set (d : list (K * V)) (k k' : K) (v default : V) :
  dict_get_default (dict_set d k v) k' default
  = if decide (k = k') then v else dict_get_default d k' default.
Proof.
  unfold dict_get_default. destruct (decide (k = k')) as [->|Hne].
  - by rewrite dict_get_set_eq.
  - by rewrite dict_get_set_ne.
Qed.

End DictProperties.

(** ** Trends *)

Lemma add_to_day_selected (drug : option string) (rows : list Sale)
    (acc : list (Z * (Z * Qc))) :
  fold_left (add_to_day drug) rows acc
  = fold_left (add_to_day None) (selected drug rows) acc.
Proof.
  destruct drug as [[|c rest]|]; try reflexivity.
  cbn [selected]. revert acc. induction rows as [|s rows IH]; intros acc; [reflexivity|].
  cbn [fold_left List.filter]. unfold add_to_day at 2.
  destruct (same_drug (String c rest) s); cbn [negb fold_left]; apply IH.
Qed.

Lemma add_to_day_unfiltered (acc : list (Z * (Z * Qc))) (sale : Sale) :
  add_to_day None acc sale
  = dict_set acc (date sale)
      (fst (dict_get_default acc (date sale) (0, of_int 0)) + units_sold sale,
       (snd (dict_get_default acc (date sale) (0%Z, of_int 0)) + revenue sale)%Qc).
Proof.
  unfold add_to_day, dict_get_default.
  destruct (dict_get acc (date sale)) as [[u r]|] eqn:Hget.
  - rewrite Hget. reflexivity.
  - rewrite dict_get_set_eq, dict_set_twice. reflexivity.
Qed.

(** Both grouping loops meet the dates in the same order. *)
Lemma trend_keys (rows : list Sale) (acc : list (Z * (Z * Qc))) (acc' : list (Z * Z)) :
  dict_keys acc = dict_keys acc' ->
  dict_keys (fold_left (add_to_day None) rows acc)
  = dict_keys (fold_left add_units rows acc').
Proof.
  revert acc acc'. induction rows as [|s rows IH]; intros acc acc' Hkeys; [exact Hkeys|].
  cbn [fold_left]. apply IH. rewrite add_to_day_unfiltered. unfold add_units.
  by rewrite !dict_keys_after_set, Hkeys.
Qed.

Lemma revenue_on_cons (s : Sale) (rows : list Sale) (d : Z) :
  revenue_on (s :: rows) d
  = ((if date s =? d then revenue s else of_int 0) + revenue_on rows d)%Qc.
Proof.
  unfold revenue_on. cbn [List.filter].
  destruct (date s =? d).
  - cbn [fmap list_fmap]. apply sum_float_cons.
  - change (of_int 0) with 0%Qc. ring.
Qed.

Lemma trend_values (rows : list Sale) (acc : list (Z * (Z * Qc))) (d : Z) :
  fst (dict_get_default (fold_left (add_to_day None) rows acc) d (0, of_int 0))
    = fst (dict_get_default acc d (0, of_int 0)) + units_on rows d /\
  snd (dict_get_default (fold_left (add_to_day None) rows acc) d (0, of_int 0))
    = (snd (dict_get_default acc d (0%Z, of_int 0)) + revenue_on rows d)%Qc.
Proof.
  revert acc. induction rows as [|s rows IH]; intros acc.
  - cbn [fold_left]. unfold units_on, revenue_on. cbn.
    rewrite sum_float_nil. split; [unfold sum_int; cbn; lia | ring].
  - cbn [fold_left]. destruct (IH (add_to_day None acc s)) as [-> ->].
    rewrite units_on_cons, revenue_on_cons, add_to_day_unfiltered.
    rewrite dict_get_default_after_set.
    destruct (decide (date s = d)) as [->|Hne].
    + rewrite Z.eqb_refl. cbn [fst snd]. split; [lia | ring].
    + apply Z.eqb_neq in Hne. rewrite Hne.
      split; [lia | change (of_int 0) with 0%Qc; ring].
Qed.

(** *** Windows of consecutive days *)

Lemma strictly_sorted_unique (l1 l2 : list Z) :
  StronglySorted Z.lt l1 -> StronglySorted Z.lt l2 ->
  (forall d, d ∈ l1 <-> d ∈ l2) -> l1 = l2.
Proof.
  intros H1. revert l2. induction H1 as [|x l1 Hl1 IH Hx]; intros l2 H2 Hmem.
  - destruct l2 as [|y l2]; [reflexivity|].
    exfalso. apply (not_elem_of_nil y). apply Hmem. by left.
  - destruct H2 as [|y l2 Hl2 Hy].
    { exfalso. apply (not_elem_of_nil x). apply Hmem. by left. }
    rewrite Forall_forall in Hx, Hy.
    assert (x = y) as <-.
    { assert (Hxin : x ∈ y :: l2) by (apply Hmem; by left).
      assert (Hyin : y ∈ x :: l1) by (apply Hmem; by left).
      apply elem_of_cons in Hxin as [->|Hxin]; [reflexivity|].
      apply elem_of_cons in Hyin as [->|Hyin]; [reflexivity|].
      apply Hy in Hxin. apply Hx in Hyin. lia. }
    f_equal. apply IH; [exact Hl2|]. intros d. split; intros Hd.
    + assert (Hd' : d ∈ x :: l2) by (apply Hmem; by right).
      apply elem_of_cons in Hd' as [->|Hd']; [|exact Hd'].
      apply Hx in Hd. lia.
    + assert (Hd' : d ∈ x :: l1) by (apply Hmem; by right).
      apply elem_of_cons in Hd' as [->|Hd']; [|exact Hd'].
      apply Hy in Hd. lia.
Qed.

Lemma range_elem (n d : Z) : d ∈ range n <-> 0 <= d < n.
Proof.
  unfold range. rewrite list_elem_of_fmap. split.
  - intros (i & -> & Hi). apply elem_of_seq in Hi. lia.
  - intros Hd. exists (Z.to_nat d). split; [lia|]. apply elem_of_seq. lia.
Qed.

Lemma ascending_sorted (a : Z) (k n : nat) :
  StronglySorted Z.lt ((fun i => a + Z.of_nat i) <$> seq k n).
Proof.
  revert k. induction n as [|n IH]; intros k; cbn; [constructor|].
  constructor; [apply IH|].
  apply Forall_forall. intros d Hd.
  apply list_elem_of_fmap in Hd as (i & -> & Hi). apply elem_of_seq in Hi. lia.
Qed.

Lemma date_window_sorted (today n : Z) : StronglySorted Z.lt (date_window today n).
Proof.
  unfold date_window, range. rewrite <- list_fmap_compose.
  apply (ascending_sorted (today - (n - 1)) 0 (Z.to_nat n)).
Qed.

Lemma date_window_elem (today n d : Z) :
  d ∈ date_window today n <-> today - n < d <= today.
Proof.
  unfold date_window. rewrite list_elem_of_fmap. split.
  - intros (i & -> & Hi). apply range_elem in Hi. lia.
  - intros Hd. exists (d - (today - (n - 1))). split; [lia|]. apply range_elem. lia.
Qed.


Lemma catalog_dichotomy (q : string) :
  names_catalog_drug q \/
  (forall drug, In drug DRUGS_DATA -> lower (name drug) <> lower q).
Proof.
  unfold names_catalog_drug. induction DRUGS_DATA as [|drug drugs IH].
  - right. intros drug [].
  - destruct (String.eqb_spec (lower (name drug)) (lower q)) as [Heq|Hne].
    + left. exists drug. split; [by left | by symmetry].
    + destruct IH as [(drug' & Hin & Heq)|Hnone].
      * left. exists drug'. split; [by right | exact Heq].
      * right. intros drug' [<-|Hin]; [exact Hne | by apply Hnone].
Qed.

Lemma expected_keys_dates (today days d : Z) :
  d ∈ snd <$> expected_keys today days <-> today - days < d <= today.
Proof.
  unfold expected_keys. rewrite list_elem_of_fmap. split.
  - intros ([[n cat] d'] & -> & Hk).
    apply list_elem_of_bind in Hk as (i & Hk & Hi).
    apply list_elem_of_fmap in Hk as (drug & [= _ _ ->] & _).
    apply range_elem in Hi. cbn. lia.
  - intros Hd. exists ("Paracetamol"%string, "Pain Relief"%string, d).
    split; [reflexivity|].
    apply list_elem_of_bind. exists (today - d). split; [|apply range_elem; lia].
    replace d with (today - (today - d)) at 1 by lia. apply list_elem_of_here.
Qed.

(** The dates of the rows a filter keeps among those of the [days] most
    recent days. *)
Lemma selected_dates (drug : option string) (days : Z) (now : datetime)
    (entropy : Entropy) :
  0 <= days <= 180 ->
  let rows := selected drug (slice_to (days * len DRUGS_DATA)
                               (fst (generate_mock_sales_data now entropy))) in
  (keeps_rows drug ->
   forall d, d ∈ date <$> rows <-> strftime_Ymd now - days < d <= strftime_Ymd now) /\
  (~ keeps_rows drug -> rows = []).
Proof.
  intros Hdays rows.
  assert (Hslice : row_key <$> slice_to (days * len DRUGS_DATA)
                                 (fst (generate_mock_sales_data now entropy))
                   = expected_keys (strftime_Ymd now) days).
  { unfold slice_to. destruct (Z.ltb_spec (days * len DRUGS_DATA) 0) as [Hneg|_];
      [unfold len in Hneg; cbn in Hneg; lia|].
    rewrite fmap_take, generate_keys. change (days * len DRUGS_DATA) with (days * 10).
    by apply expected_keys_take. }
  assert (Hdates : forall l : list Sale, date <$> l = snd <$> (row_key <$> l)).
  { intros l. by rewrite <- list_fmap_compose. }
  assert (Hall : forall d,
            d ∈ date <$> slice_to (days * len DRUGS_DATA)
                           (fst (generate_mock_sales_data now entropy))
            <-> strftime_Ymd now - days < d <= strftime_Ymd now).
  { intros d. rewrite Hdates, Hslice. apply expected_keys_dates. }
  split.
  - intros Hkeeps d. unfold rows.
    destruct drug as [[|c rest]|]; cbn [selected keeps_rows] in *; try apply Hall.
    destruct Hkeeps as (drug & Hin & Hq).
    rewrite Hdates, filter_same_drug_keys, Hslice.
    rewrite (expected_keys_matching _ _ _ drug Hin Hq).
    rewrite <- list_fmap_compose. rewrite list_elem_of_fmap. split.
    + intros (i & -> & Hi). apply range_elem in Hi. cbn. lia.
    + intros Hd. exists (strftime_Ymd now - d). split; [cbn; lia|].
      apply range_elem. lia.
  - intros Hnot. unfold rows. destruct drug as [[|c rest]|]; cbn [keeps_rows] in Hnot;
      try (exfalso; by apply Hnot).
    cbn [selected]. apply (fmap_nil_inv row_key).
    rewrite filter_same_drug_keys, Hslice.
    apply expected_keys_unmatched.
    destruct (catalog_dichotomy (String c rest)) as [Hyes|Hno]; [contradiction | exact Hno].
Qed.

Lemma selected_Forall (P : Sale -> Prop) (drug : option string) (rows : list Sale) :
  Forall P rows -> Forall P (selected drug rows).
Proof.
  intros H. destruct drug as [[|c rest]|]; cbn [selected]; try exact H.
  induction H as [|s rows Hs _ IH]; cbn; [constructor|].
  destruct (same_drug _ s); [by constructor | exact IH].
Qed.

Lemma filter_Forall (P : Sale -> Prop) (f : Sale -> bool) (rows : list Sale) :
  Forall P rows -> Forall P (List.filter f rows).
Proof.
  induction 1 as [|s rows Hs _ IH]; cbn; [constructor|].
  destruct (f s); [by constructor | exact IH].
Qed.

Lemma sales_trends_grouped (drug : option string) (all_sales : list Sale) :
  Forall (fun s => is_cents (revenue s)) all_sales ->
  let rows := selected drug (slice_to (60 * len DRUGS_DATA) all_sales) in
  let trends := sales_trends drug all_sales in
  trend_dates trends = fst (actuals drug all_sales) /\
  trend_units trends = units_on rows <$> trend_dates trends /\
  trend_revenue trends = revenue_on rows <$> trend_dates trends.
Proof.
  intros Hcents rows trends. unfold trends, sales_trends. cbn [trend_dates trend_units trend_revenue].
  rewrite add_to_day_selected. fold rows.
  assert (Hkeys : dict_keys (fold_left (add_to_day None) rows [])
                  = dict_keys (fold_left add_units rows [])).
  { by apply trend_keys. }
  split; [|split].
  - unfold actuals. cbn [fst]. rewrite group_by_date_selected. fold rows.
    rewrite group_by_date_unfiltered, Hkeys. reflexivity.
  - apply list_fmap_ext. intros _ d _.
    destruct (trend_values rows [] d) as [-> _]. reflexivity.
  - apply list_fmap_ext. intros _ d _.
    destruct (trend_values rows [] d) as [_ ->]. cbn [dict_get_default dict_get snd].
    rewrite py_round2_cents.
    + change (of_int 0) with 0%Qc. ring.
    + apply is_cents_plus; [apply is_cents_zero|].
      unfold revenue_on. apply is_cents_sum. apply Forall_fmap.
      apply filter_Forall. unfold rows. by apply selected_Forall, slice_to_Forall.
Qed.

(** X10. [get_sales_trends] returns three arrays of one length: the dates,
    strictly ascending; for each date the units sold on it by the rows the
    filter keeps among the last 60 days; and the revenue taken on it. With no
    filter, or a filter that names a catalog drug in any letter case, the
    dates are the 60 days that end today; with a filter that names no
    catalog drug all three arrays are empty. *)
Theorem sales_trends_by_date (drug : option string) (now : datetime)
    (entropy : Entropy) :
  let trends := fst (get_sales_trends drug now entropy) in
  let rows := selected drug (slice_to (60 * 10)
                               (fst (generate_mock_sales_data now entropy))) in
  StronglySorted Z.lt (trend_dates trends) /\
  length (trend_units trends) = length (trend_dates trends) /\
  length (trend_revenue trends) = length (trend_dates trends) /\
  trend_units trends = units_on rows <$> trend_dates trends /\
  trend_revenue trends = revenue_on rows <$> trend_dates trends /\
  (keeps_rows drug -> trend_dates trends = date_window (strftime_Ymd now) 60) /\
  (~ keeps_rows drug ->
   trend_dates trends = [] /\ trend_units trends = [] /\ trend_revenue trends = []).
Proof.
  intros trends rows.
  destruct (selected_dates drug 60 now entropy ltac:(lia)) as [Hkeeps Hnone].
  change (60 * len DRUGS_DATA) with (60 * 10) in Hkeeps, Hnone. fold rows in Hkeeps, Hnone.
  pose proof (generate_cents now entropy) as Hcents.
  unfold trends, get_sales_trends, bind, ret. cbn [fst snd].
  revert Hcents Hkeeps Hnone. unfold rows.
  generalize (fst (generate_mock_sales_data now entropy)). intros all_sales Hcents Hkeeps Hnone.
  destruct (sales_trends_grouped drug all_sales Hcents) as (Hdates & Hunits & Hrev).
  destruct (actuals_grouped drug all_sales) as (Hsorted & Hmem & _).
  change (60 * len DRUGS_DATA) with (60 * 10) in Hunits, Hrev, Hmem.
  rewrite <- Hdates in Hsorted, Hmem.
  split; [exact Hsorted|].
  split; [by rewrite Hunits, length_fmap|].
  split; [by rewrite Hrev, length_fmap|].
  split; [exact Hunits|]. split; [exact Hrev|]. split.
  - intros Hk. apply strictly_sorted_unique;
      [exact Hsorted | apply date_window_sorted|].
    intros d. rewrite Hmem, (Hkeeps Hk), date_window_elem. reflexivity.
  - intros Hk. assert (Hempty : trend_dates (sales_trends drug all_sales) = []).
    { apply strictly_sorted_unique; [exact Hsorted | constructor|].
      intros d. rewrite Hmem, (Hnone Hk). reflexivity. }
    split; [exact Hempty|]. rewrite Hunits, Hrev, Hempty. by split.
Qed.

Lemma sales_trends_by_date_witness :
  let trends := fst (get_sales_trends (Some "metformin"%string) 1700000000000000
                       sample_entropy) in
  trend_dates trends = date_window 19675 60 /\
  length (trend_units trends) = 60%nat.
Proof.
  intros trends.
  destruct (sales_trends_by_date (Some "metformin"%string) 1700000000000000 sample_entropy)
    as (_ & Hlen & _ & _ & _ & Hkeeps & _).
  assert (Hdates : trend_dates trends = date_window 19675 60).
  { apply Hkeeps. exists (mkDrug "Metformin" "Diabetes" (dec 1599 100)).
    split; [cbn; tauto | reflexivity]. }
  split; [exact Hdates|].
  fold trends in Hlen. rewrite Hlen, Hdates. reflexivity.
Defined.

(** ** The mock forecast: dates and edge cases *)




Lemma date_window_last (today n : Z) : 0 < n -> last (date_window today n) = Some today.
Proof.
  intros Hn. unfold date_window, range.
  replace (Z.to_nat n) with (S (Z.to_nat (n - 1))) by lia.
  rewrite seq_S, !fmap_app. cbn [fmap list_fmap]. rewrite last_snoc. f_equal. lia.
Qed.





(** The dates of the generated rows that a filter keeps: the 60 days that
    end today, or none. *)
Lemma generated_dates (drug : option string) (now : datetime) (entropy : Entropy) :
  let dates := fst (actuals drug (fst (generate_mock_sales_data now entropy))) in
  (keeps_rows drug -> dates = date_window (strftime_Ymd now) 60) /\
  (~ keeps_rows drug -> dates = []) /\
  (dates = date_window (strftime_Ymd now) 60 \/ dates = []).
Proof.
  intros dates. unfold dates.
  destruct (selected_dates drug 60 now entropy ltac:(lia)) as [Hkeeps Hnone].
  revert Hkeeps Hnone.
  generalize (fst (generate_mock_sales_data now entropy)).
  intros all_sales Hkeeps Hnone.
  destruct (actuals_grouped drug all_sales) as (Hsorted & Hmem & _).
  assert (Hwin : keeps_rows drug ->
                 fst (actuals drug all_sales) = date_window (strftime_Ymd now) 60).
  { intros Hk. apply strictly_sorted_unique;
      [exact Hsorted | apply date_window_sorted|].
    intros d. rewrite Hmem, (Hkeeps Hk), date_window_elem. reflexivity. }
  assert (Hnil : ~ keeps_rows drug -> fst (actuals drug all_sales) = []).
  { intros Hk. apply strictly_sorted_unique; [exact Hsorted | constructor|].
    intros d. rewrite Hmem, (Hnone Hk). reflexivity. }
  split; [exact Hwin|]. split; [exact Hnil|].
  destruct drug as [[|c rest]|]; try (left; by apply Hwin).
  destruct (catalog_dichotomy (String c rest)) as [Hyes|Hno].
  - left. by apply Hwin.
  - right. apply Hnil. intros (drug & Hin & Hq). by apply (Hno drug Hin).
Qed.

(** The forecast counts from today's midnight or from the clock. *)
Lemma generated_last_date (drug : option string) (now : datetime) (entropy : Entropy) :
  let dates := fst (actuals drug (fst (generate_mock_sales_data now entropy))) in
  strptime_Ymd (strftime_Ymd now) <= last_date_of dates now <= now.
Proof.
  intros dates.
  assert (Hday : strptime_Ymd (strftime_Ymd now) <= now).
  { unfold strptime_Ymd, strftime_Ymd, day_us.
    Z.to_euclidean_division_equations. lia. }
  destruct (generated_dates drug now entropy) as (_ & _ & [Hwin|Hnil]);
    fold dates in Hwin || fold dates in Hnil; unfold last_date_of.
  - rewrite Hwin, date_window_last by lia. lia.
  - rewrite Hnil. cbn. lia.
Qed.

Lemma get_forecast_mock (ML_API_URL : option string)
    (requests_get : string -> option string -> Z -> raises Response)
    (drug : option string) (days : Z) (now : datetime) (entropy : Entropy) :
  truthy ML_API_URL = false ->
  datetime_min <= now ->
  strftime_Ymd now + days <= date_max ->
  fst (get_forecast ML_API_URL requests_get drug days now entropy)
  = returns (Mock (fst (forecast_in_range (fst (generate_mock_sales_data now entropy))
                          drug days now (snd (generate_mock_sales_data now entropy))))).
Proof.
  intros Hurl Hmin Hmax.
  rewrite (get_forecast_mock_branch ML_API_URL requests_get drug days now entropy Hurl).
  pose proof (generated_last_date drug now entropy) as Hlast. cbv zeta in Hlast.
  rewrite forecast_from_sales_returns; [reflexivity | |].
  - revert Hlast Hmin. unfold strptime_Ymd, strftime_Ymd, day_us, datetime_min.
    generalize (last_date_of
                  (fst (actuals drug (fst (generate_mock_sales_data now entropy)))) now).
    intros last_date Hlast Hmin.
    Z.to_euclidean_division_equations. lia.
  - revert Hlast Hmax.
    unfold strftime_Ymd, day_us, datetime_max, date_max, timedelta_days.
    generalize (last_date_of
                  (fst (actuals drug (fst (generate_mock_sales_data now entropy)))) now).
    intros last_date Hlast Hmax.
    Z.to_euclidean_division_equations. lia.
Qed.

Lemma get_forecast_overflow (ML_API_URL : option string)
    (requests_get : string -> option string -> Z -> raises Response)
    (drug : option string) (days : Z) (now : datetime) (entropy : Entropy) :
  truthy ML_API_URL = false ->
  1 <= days ->
  date_max < strftime_Ymd now + days ->
  fst (get_forecast ML_API_URL requests_get drug days now entropy)
  = raise OverflowError.
Proof.
  intros Hurl Hdays Hover.
  rewrite (get_forecast_mock_branch ML_API_URL requests_get drug days now entropy Hurl).
  pose proof (generated_last_date drug now entropy) as Hlast. cbv zeta in Hlast.
  rewrite forecast_from_sales_overflows; [reflexivity | exact Hdays |].
  revert Hlast Hover.
  unfold strptime_Ymd, strftime_Ymd, day_us, datetime_max, date_max, timedelta_days.
  generalize (last_date_of
                (fst (actuals drug (fst (generate_mock_sales_data now entropy)))) now).
  intros last_date Hlast Hover.
  Z.to_euclidean_division_equations. lia.
Qed.





(** C7 as stated fails. A horizon of 3 000 000 days asked on 2023-11-14
    reaches past 9999-12-31: [last_date + timedelta(days=i)] raises
    [OverflowError] and no forecast is returned. *)
Lemma forecast_raises_past_year_9999 :
  1 <= 3000000 /\
  fst (get_forecast None upstream_down None 3000000 1700000000000000 sample_entropy)
  = raise OverflowError /\
  response_status
    (fst (get_forecast None upstream_down None 3000000 1700000000000000 sample_entropy))
  = 500.
Proof.
  assert (Hraise : fst (get_forecast None upstream_down None 3000000 1700000000000000
                          sample_entropy) = raise OverflowError).
  { apply get_forecast_overflow; [reflexivity | lia | vm_compute; reflexivity]. }
  split; [lia|]. split; [exact Hraise|]. rewrite Hraise. reflexivity.
Qed.




(** ** Metrics: the per-drug and per-category dictionaries *)

Lemma per_drug_fold (rows : list Sale) (revs : list (string * Qc))
    (units : list (string * Z)) :
  let result :=
    fold_left
      (fun '(drug_revenues, drug_units) sale =>
         (dict_set drug_revenues (drug_name sale)
            (dict_get_default drug_revenues (drug_name sale) (of_int 0) + revenue sale)%Qc,
          dict_set drug_units (drug_name sale)
            (dict_get_default drug_units (drug_name sale) 0 + units_sold sale)))
      rows (revs, units) in
  dict_keys (fst result) = first_seen (dict_keys revs) (drug_name <$> rows) /\
  dict_keys (snd result) = first_seen (dict_keys units) (drug_name <$> rows) /\
  (forall n, dict_get_default (fst result) n (of_int 0)
             = (dict_get_default revs n (of_int 0) + revenue_of rows n)%Qc) /\
  (forall n, dict_get_default (snd result) n 0
             = dict_get_default units n 0 + units_of rows n).
Proof.
  revert revs units. induction rows as [|s rows IH]; intros revs units.
  - cbn. unfold revenue_of, units_of. cbn. rewrite sum_float_nil.
    repeat split; intros; [ring | unfold sum_int; cbn; lia].
  - cbn [fold_left fmap list_fmap]. cbv zeta.
    specialize (IH (dict_set revs (drug_name s)
                      (dict_get_default revs (drug_name s) (of_int 0) + revenue s)%Qc)
                   (dict_set units (drug_name s)
                      (dict_get_default units (drug_name s) 0 + units_sold s))).
    cbv zeta in IH. destruct IH as (Hk1 & Hk2 & Hr & Hu).
    rewrite dict_keys_after_set in Hk1. rewrite dict_keys_after_set in Hk2.
    split; [exact Hk1|]. split; [exact Hk2|]. split.
    + intros n. rewrite Hr, dict_get_default_after_set.
      unfold revenue_of. cbn [List.filter].
      destruct (decide (drug_name s = n)) as [->|Hne].
      * rewrite String.eqb_refl. cbn [fmap list_fmap]. rewrite sum_float_cons. ring.
      * apply String.eqb_neq in Hne. rewrite Hne. reflexivity.
    + intros n. rewrite Hu, dict_get_default_after_set.
      unfold units_of. cbn [List.filter].
      destruct (decide (drug_name s = n)) as [->|Hne].
      * rewrite String.eqb_refl. cbn [fmap list_fmap]. rewrite sum_int_cons. lia.
      * apply String.eqb_neq in Hne. rewrite Hne. reflexivity.
Qed.

Lemma per_category_keys (rows : list Sale) (acc : list (string * (Qc * Z))) :
  dict_keys (fold_left add_to_category rows acc)
  = first_seen (dict_keys acc) (sale_category <$> rows).
Proof.
  revert acc. induction rows as [|s rows IH]; intros acc; [reflexivity|].
  cbn [fold_left fmap list_fmap]. rewrite IH. unfold first_seen at 2. cbn [fold_left].
  fold (first_seen (if decide (sale_category s ∈ dict_keys acc) then dict_keys acc
                    else dict_keys acc ++ [sale_category s]) (sale_category <$> rows)).
  f_equal. unfold add_to_category.
  destruct (dict_get acc (sale_category s)) as [[r u]|] eqn:Hget.
  - unfold dict_get_default. rewrite Hget. apply dict_keys_after_set.
  - unfold dict_get_default. rewrite dict_get_set_eq, dict_set_twice.
    apply dict_keys_after_set.
Qed.

(** The drugs and the categories of the rows of the most recent days come in
    the catalog's order. *)
Lemma recent_names (today : Z) :
  first_seen [] ((fun k : string * string * Z => fst (fst k)) <$> expected_keys today 30)
  = name <$> DRUGS_DATA.
Proof. vm_compute. reflexivity. Qed.

Lemma recent_categories (today : Z) :
  first_seen [] ((fun k : string * string * Z => snd (fst k)) <$> expected_keys today 30)
  = ["Pain Relief"; "Antibiotics"; "Digestive"; "Diabetes"; "Cardiovascular";
     "Neurological"]%string.
Proof. vm_compute. reflexivity. Qed.

(** *** Sorting by value, descending *)

Lemma elem_of_dropped {A} (n : nat) (l : list A) (y : A) : y ∈ drop n l -> y ∈ l.
Proof.
  revert n. induction l as [|x l IH]; intros n Hy.
  - by rewrite drop_nil in Hy.
  - destruct n as [|n]; [exact Hy|]. right. by apply (IH n).
Qed.

Lemma elem_of_taken {A} (n : nat) (l : list A) (y : A) : y ∈ take n l -> y ∈ l.
Proof.
  revert n. induction l as [|x l IH]; intros n Hy.
  - by rewrite take_nil in Hy.
  - destruct n as [|n]; [by apply elem_of_nil in Hy|]. cbn in Hy.
    apply elem_of_cons in Hy as [->|Hy]; [by left | right; by apply (IH n)].
Qed.

Section SortedByValue.

Context {A : Type}.

Lemma insert_desc_perm (x : A * Qc) (l : list (A * Qc)) : insert_desc x l ≡ₚ x :: l.
Proof.
  induction l as [|y l IH]; cbn; [reflexivity|].
  destruct (Qc_ltb (snd x) (snd y)); [|reflexivity].
  rewrite IH. apply Permutation_swap.
Qed.

Lemma sorted_by_value_desc_perm (l : list (A * Qc)) : sorted_by_value_desc l ≡ₚ l.
Proof.
  induction l as [|x l IH]; cbn; [reflexivity|].
  by rewrite insert_desc_perm, IH.
Qed.

Lemma insert_desc_sorted (x : A * Qc) (l : list (A * Qc)) :
  StronglySorted at_least l -> StronglySorted at_least (insert_desc x l).
Proof.
  induction 1 as [|y l Hl IH Hy]; cbn.
  - by repeat constructor.
  - unfold Qc_ltb. destruct (Qclt_le_dec (snd x) (snd y)) as [Hlt|Hle].
    + constructor; [exact IH|].
      rewrite insert_desc_perm. constructor; [|exact Hy].
      unfold at_least. by apply Qclt_le_weak.
    + constructor; [by constructor|].
      constructor; [exact Hle|].
      eapply Forall_impl; [exact Hy|]. intros z Hz. unfold at_least in *.
      by apply Qcle_trans with (snd y).
Qed.

Lemma sorted_by_value_desc_sorted (l : list (A * Qc)) :
  StronglySorted at_least (sorted_by_value_desc l).
Proof.
  induction l as [|x l IH]; cbn; [constructor|]. by apply insert_desc_sorted.
Qed.

Lemma sorted_take_drop (l : list (A * Qc)) (n : nat) (x y : A * Qc) :
  StronglySorted at_least l -> x ∈ take n l -> y ∈ drop n l -> at_least x y.
Proof.
  intros Hl. revert n. induction Hl as [|z l Hl IH Hz]; intros n Hx Hy.
  - rewrite take_nil in Hx. by apply elem_of_nil in Hx.
  - destruct n as [|n]; cbn in Hx, Hy; [by apply elem_of_nil in Hx|].
    apply elem_of_cons in Hx as [->|Hx]; [|by apply (IH n)].
    rewrite Forall_forall in Hz. apply Hz. by eapply elem_of_dropped.
Qed.

Lemma sorted_take (l : list (A * Qc)) (n : nat) :
  StronglySorted at_least l -> StronglySorted at_least (take n l).
Proof.
  intros Hl. revert n. induction Hl as [|z l Hl IH Hz]; intros n.
  - rewrite take_nil. constructor.
  - destruct n as [|n]; cbn; [constructor|].
    constructor; [apply IH|]. apply Forall_take. exact Hz.
Qed.

End SortedByValue.

Lemma dict_member_value {V} (d : list (string * V)) (k : string) (v default : V) :
  NoDup (dict_keys d) -> (k, v) ∈ d -> dict_get_default d k default = v.
Proof.
  unfold dict_keys, dict_get_default. induction d as [|[k0 v0] d IH]; intros Hnd Hin.
  - by apply elem_of_nil in Hin.
  - cbn in Hnd. apply NoDup_cons in Hnd as [Hnotin Hnd]. cbn.
    apply elem_of_cons in Hin as [[= -> ->]|Hin].
    + by rewrite decide_True.
    + rewrite decide_False; [by apply IH|].
      intros ->. apply Hnotin. apply list_elem_of_fmap. by exists (k, v).
Qed.

Lemma revenue_of_cents (rows : list Sale) (n : string) :
  Forall (fun s => is_cents (revenue s)) rows -> is_cents (revenue_of rows n).
Proof.
  intros H. unfold revenue_of. apply is_cents_sum, Forall_fmap. by apply filter_Forall.
Qed.

Lemma StronglySorted_fmap_in {A B} (R : A -> A -> Prop) (R' : B -> B -> Prop)
    (f : A -> B) (l : list A) :
  (forall x y, x ∈ l -> y ∈ l -> R x y -> R' (f x) (f y)) ->
  StronglySorted R l -> StronglySorted R' (f <$> l).
Proof.
  intros Hf Hl. induction Hl as [|x l Hl IH Hx]; cbn; [constructor|].
  constructor.
  - apply IH. intros a b Ha Hb. apply Hf; by right.
  - apply Forall_fmap. rewrite Forall_forall in Hx. apply Forall_forall.
    intros y Hy. cbn. apply Hf; [by left | by right | by apply Hx].
Qed.

Lemma sales_metrics_top (all_sales : list Sale) :
  let recent := slice_to (30 * len DRUGS_DATA) all_sales in
  let top := top_drugs (sales_metrics all_sales) in
  Forall (fun s => is_cents (revenue s)) all_sales ->
  first_seen [] (drug_name <$> recent) = name <$> DRUGS_DATA ->
  length top = 5%nat /\
  NoDup (entry_name <$> top) /\
  (forall e, e ∈ top ->
     entry_name e ∈ name <$> DRUGS_DATA /\
     entry_revenue e = revenue_of recent (entry_name e) /\
     entry_units e = units_of recent (entry_name e)) /\
  StronglySorted (fun a b => (entry_revenue b <= entry_revenue a)%Qc) top /\
  (forall e n, e ∈ top -> n ∈ name <$> DRUGS_DATA -> n ∉ entry_name <$> top ->
     (revenue_of recent n <= entry_revenue e)%Qc).
Proof.
  intros recent top Hcents Hnames.
  assert (Hrc : Forall (fun s => is_cents (revenue s)) recent)
    by (by apply slice_to_Forall).
  pose proof (per_drug_fold recent [] []) as Hfold. cbv zeta in Hfold.
  fold (per_drug recent) in Hfold. destruct Hfold as (Hk1 & Hk2 & Hrev & Hunits).
  cbn [dict_keys fmap list_fmap] in Hk1, Hk2. rewrite Hnames in Hk1, Hk2.
  assert (Htop : top = (fun kv => mkEntry (fst kv) (py_round2 (snd kv))
                                    (dict_get_default (snd (per_drug recent)) (fst kv) 0))
                         <$> take 5 (sorted_by_value_desc (fst (per_drug recent)))).
  { unfold top, sales_metrics. fold recent.
    destruct (per_drug recent) as [drug_revenues drug_units]. cbn [top_drugs fst snd].
    apply list_fmap_ext. intros _ [n rev] _. reflexivity. }
  set (d := fst (per_drug recent)) in *. set (u := snd (per_drug recent)) in *.
  set (sd := sorted_by_value_desc d) in *.
  assert (Hperm : sd ≡ₚ d) by apply sorted_by_value_desc_perm.
  assert (Hnd : NoDup (dict_keys d)) by (rewrite Hk1; apply drug_names_NoDup).
  assert (Hval : forall n rev, (n, rev) ∈ d -> rev = revenue_of recent n).
  { intros n rev Hin. rewrite <- (dict_member_value d n rev (of_int 0) Hnd Hin), Hrev.
    cbn. change (of_int 0) with 0%Qc. ring. }
  assert (Hin_sd : forall kv, kv ∈ take 5 sd -> kv ∈ d).
  { intros kv Hkv. rewrite <- Hperm. by eapply elem_of_taken. }
  assert (Hround : forall kv, kv ∈ d -> py_round2 (snd kv) = revenue_of recent (fst kv)).
  { intros [n rev] Hkv. cbn. rewrite (Hval n rev Hkv).
    apply py_round2_cents. by apply revenue_of_cents. }
  assert (Hnames_top : entry_name <$> top = fst <$> take 5 sd).
  { rewrite Htop, <- list_fmap_compose. reflexivity. }
  assert (Hlen : length sd = 10%nat).
  { rewrite Hperm. rewrite <- (length_fmap fst). fold (dict_keys d). by rewrite Hk1. }
  split. { rewrite Htop, length_fmap, length_take, Hlen. reflexivity. }
  split.
  { rewrite Hnames_top. assert (Hsdnd : NoDup (fst <$> sd)).
    { unfold dict_keys in Hnd. by rewrite Hperm. }
    rewrite <- (take_drop 5 sd), fmap_app in Hsdnd.
    by apply NoDup_app in Hsdnd as [? _]. }
  split.
  { intros e He. rewrite Htop in He. apply list_elem_of_fmap in He as (kv & -> & Hkv).
    cbn [entry_name entry_revenue entry_units]. apply Hin_sd in Hkv.
    split; [|split].
    - rewrite <- Hk1. apply list_elem_of_fmap. by exists kv.
    - by apply Hround.
    - unfold u. rewrite Hunits. reflexivity. }
  split.
  { rewrite Htop. apply (StronglySorted_fmap_in at_least).
    - intros x y Hx Hy Hxy. cbn [entry_revenue].
      rewrite (Hround x (Hin_sd x Hx)), (Hround y (Hin_sd y Hy)).
      destruct x as [nx rx], y as [ny ry]. cbn [fst].
      rewrite <- (Hval nx rx (Hin_sd _ Hx)), <- (Hval ny ry (Hin_sd _ Hy)). exact Hxy.
    - apply sorted_take, sorted_by_value_desc_sorted. }
  intros e n He Hn Hnot. rewrite Htop in He.
  apply list_elem_of_fmap in He as (kv & -> & Hkv). cbn [entry_revenue].
  rewrite (Hround kv (Hin_sd kv Hkv)).
  rewrite <- Hk1 in Hn. apply list_elem_of_fmap in Hn as ([n' rev] & -> & Hnrev).
  cbn [fst] in *.
  assert (Hsplit : (n', rev) ∈ take 5 sd ++ drop 5 sd)
    by (rewrite take_drop; by rewrite Hperm).
  apply elem_of_app in Hsplit as [Htake|Hdrop].
  - exfalso. apply Hnot. rewrite Hnames_top. apply list_elem_of_fmap. by exists (n', rev).
  - pose proof (sorted_take_drop sd 5 kv (n', rev)
                  (sorted_by_value_desc_sorted d) Hkv Hdrop) as Hle.
    unfold at_least in Hle. cbn [snd] in Hle.
    rewrite <- (Hval n' rev Hnrev).
    destruct kv as [nk rk]. cbn [fst snd] in *.
    by rewrite <- (Hval nk rk (Hin_sd _ Hkv)).
Qed.

Lemma recent_keys (days : Z) (now : datetime) (entropy : Entropy) :
  0 <= days <= 180 ->
  row_key <$> slice_to (days * len DRUGS_DATA) (fst (generate_mock_sales_data now entropy))
  = expected_keys (strftime_Ymd now) days.
Proof.
  intros Hdays. unfold slice_to.
  destruct (Z.ltb_spec (days * len DRUGS_DATA) 0) as [Hneg|_];
    [unfold len in Hneg; cbn in Hneg; lia|].
  rewrite fmap_take, generate_keys. change (days * len DRUGS_DATA) with (days * 10).
  by apply expected_keys_take.
Qed.

(** X12. The metrics endpoint lists exactly five top drugs, all different
    catalog drugs, each with its revenue and units over the last 30 days, in
    descending order of revenue, and no catalog drug left out of the list
    took more revenue than one in it. The categories are listed in the order
    the catalog first names them. *)
Theorem metrics_top_drugs (now : datetime) (entropy : Entropy) :
  let metrics := fst (get_sales_metrics now entropy) in
  let recent := slice_to (30 * 10) (fst (generate_mock_sales_data now entropy)) in
  let top := top_drugs metrics in
  length top = 5%nat /\
  NoDup (entry_name <$> top) /\
  (forall e, e ∈ top ->
     entry_name e ∈ name <$> DRUGS_DATA /\
     entry_revenue e = revenue_of recent (entry_name e) /\
     entry_units e = units_of recent (entry_name e)) /\
  StronglySorted (fun a b => (entry_revenue b <= entry_revenue a)%Qc) top /\
  (forall e n, e ∈ top -> n ∈ name <$> DRUGS_DATA -> n ∉ entry_name <$> top ->
     (revenue_of recent n <= entry_revenue e)%Qc) /\
  entry_name <$> categories metrics
  = ["Pain Relief"; "Antibiotics"; "Digestive"; "Diabetes"; "Cardiovascular";
     "Neurological"]%string.
Proof.
  intros metrics recent top.
  pose proof (generate_cents now entropy) as Hcents.
  pose proof (recent_keys 30 now entropy ltac:(lia)) as Hkeys.
  unfold top, metrics, recent, get_sales_metrics, bind, ret. cbn [fst snd].
  revert Hcents Hkeys.
  generalize (fst (generate_mock_sales_data now entropy)). intros all_sales Hcents Hkeys.
  assert (Hnames : first_seen [] (drug_name <$> slice_to (30 * len DRUGS_DATA) all_sales)
                   = name <$> DRUGS_DATA).
  { rewrite <- (recent_names (strftime_Ymd now)), <- Hkeys, <- list_fmap_compose.
    reflexivity. }
  destruct (sales_metrics_top all_sales Hcents Hnames) as (H1 & H2 & H3 & H4 & H5).
  change (30 * len DRUGS_DATA) with (30 * 10) in H3, H5.
  split; [exact H1|]. split; [exact H2|]. split; [exact H3|].
  split; [exact H4|]. split; [exact H5|].
  rewrite sales_metrics_categories, <- list_fmap_compose.
  change (entry_name ∘ _) with (@fst string (Qc * Z)).
  fold (dict_keys (per_category (slice_to (30 * len DRUGS_DATA) all_sales))).
  unfold per_category. rewrite per_category_keys. cbn [dict_keys fmap list_fmap].
  rewrite <- (recent_categories (strftime_Ymd now)), <- Hkeys, <- list_fmap_compose.
  reflexivity.
Qed.

(** ** The insights endpoint *)

Section SortByKey.
Context {A : Type} (key : A -> Z).







End SortByKey.









Lemma lower_cons (c : ascii) (rest : string) : lower (String c rest) <> ""%string.
Proof.
  cbn [lower].
  repeat match goal with
         | |- context [match ?x with _ => _ end] => destruct x
         end; discriminate.
Qed.

(** X14. The filters of [get_insights] do not see letter case, and an empty
    filter string is no filter: two requests whose category filters and whose
    priority filters agree after lowering get the same answer, and the empty
    string gets the answer of an absent filter. *)
Theorem get_insights_case_insensitive (c c' p p' : string) :
  lower c = lower c' ->
  lower p = lower p' ->
  get_insights (Some c) (Some p) = get_insights (Some c') (Some p') /\
  get_insights (Some c) None = get_insights (Some c') None /\
  get_insights None (Some p) = get_insights None (Some p') /\
  get_insights (Some ""%string) (Some p) = get_insights None (Some p) /\
  get_insights (Some c) (Some ""%string) = get_insights (Some c) None.
Proof.
  intros Hc Hp. unfold get_insights.
  destruct c as [|a c], c' as [|a' c'];
    try (exfalso; exact (lower_cons _ _ Hc));
    try (exfalso; exact (lower_cons _ _ (eq_sym Hc)));
    destruct p as [|b p], p' as [|b' p'];
    try (exfalso; exact (lower_cons _ _ Hp));
    try (exfalso; exact (lower_cons _ _ (eq_sym Hp)));
    rewrite ?Hc, ?Hp; repeat split; reflexivity.
Qed.

Lemma get_insights_case_insensitive_witness :
  lower "INVENTORY" = lower "inventory" /\
  lower "High" = lower "HIGH" /\
  get_insights (Some "INVENTORY"%string) (Some "High"%string)
  = get_insights (Some "inventory"%string) (Some "HIGH"%string) /\
  (insight_id <$> insights (get_insights (Some "INVENTORY"%string) None))
  = ["6"; "1"]%string.
Proof.
  split; [reflexivity|]. split; [reflexivity|]. split.
  - apply (get_insights_case_insensitive "INVENTORY" "inventory" "High" "HIGH");
      reflexivity.
  - vm_compute. reflexivity.
Defined.

(** ** Health and the forecast *)

(** X15. [health_check] reports the ML API as configured when [ML_API_URL]
    is set at all, while [get_forecast] relays only when it is a non-empty
    string: with the URL unset both agree on the mock branch; with it set
    to the empty string the health answer says configured although the
    handler runs its mock branch; with a non-empty URL the health answer
    says configured and the answer is never a mock forecast. The mock
    branch returns a forecast whenever the last forecast date is not after
    9999-12-31. *)
Theorem health_check_and_forecast (ML_API_URL : option string)
    (requests_get : string -> option string -> Z -> raises Response)
    (drug : option string) (days : Z) (now : datetime) (entropy : Entropy) :
  let body := fst (get_forecast ML_API_URL requests_get drug days now entropy) in
  let mock := try! f := fst (mock_forecast drug days now entropy) in returns (Mock f) in
  (ml_api_configured (health_check ML_API_URL) = true <-> ML_API_URL <> None) /\
  ((exists f, body = returns (Mock f)) -> truthy ML_API_URL = false) /\
  (truthy ML_API_URL = true ->
   exists answer, body = returns answer /\ forall f, answer <> Mock f) /\
  (truthy ML_API_URL = false -> body = mock) /\
  (truthy ML_API_URL = false ->
   datetime_min <= now -> strftime_Ymd now + days <= date_max ->
   exists f, body = returns (Mock f)) /\
  (ML_API_URL = Some ""%string ->
   ml_api_configured (health_check ML_API_URL) = true /\ body = mock).
Proof.
  cbn zeta.
  assert (Hrelay : truthy ML_API_URL = true ->
            exists answer,
              fst (get_forecast ML_API_URL requests_get drug days now entropy)
              = returns answer /\ forall f, answer <> Mock f).
  { destruct ML_API_URL as [[|c rest]|]; cbn [truthy]; try discriminate.
    intros _. unfold get_forecast.
    destruct (try! response := requests_get _ drug days in response_json response);
      cbn; eexists; (split; [reflexivity | discriminate]). }
  split; [|split; [|split; [|split; [|split]]]].
  - destruct ML_API_URL; cbn; split; congruence.
  - intros [f Hf]. destruct (truthy ML_API_URL) eqn:Hurl; [|reflexivity].
    destruct (Hrelay eq_refl) as (answer & Hanswer & Hnot).
    rewrite Hanswer in Hf. injection Hf as ->. by destruct (Hnot f).
  - exact Hrelay.
  - destruct ML_API_URL as [[|c rest]|]; cbn [truthy]; try discriminate; reflexivity.
  - intros Hurl Hmin Hmax. eexists. by apply get_forecast_mock.
  - intros ->. split; reflexivity.
Qed.

(** ** Routes behind the authentication dependency *)

Section RouteProperties.

Variable hmac_sha256 : string -> string * claims Z -> string.
Variable SECRET_KEY : string.

Lemma current_user_of_status (db : database) (now : datetime) (request : Request)
    (e : exception) :
  current_user_of hmac_sha256 SECRET_KEY db now request = raise e ->
  exists detail, e = HTTPException 403 detail \/ e = HTTPException 401 detail.
Proof.
  unfold current_user_of, HTTPBearer, bind_raises, raise, returns.
  destruct (authorization request) as [[sch cred]|].
  2: { intros [= <-]. eauto. }
  destruct (negb (truthy (Some sch)) || token_empty cred).
  { intros [= <-]. eauto. }
  destruct (negb (String.eqb (lower sch) "bearer")).
  { intros [= <-]. eauto. }
  unfold get_current_user, bind_raises. cbn [credentials].
  destruct (token_subject hmac_sha256 SECRET_KEY now cred) as [err|email] eqn:Hsub.
  - intros [= <-]. unfold token_subject in Hsub.
    destruct (jwt_decode hmac_sha256 now cred SECRET_KEY [ALGORITHM])
      as [err'|payload] eqn:Hdec.
    + destruct (jwt_decode_raises_PyJWTError _ _ _ _ _ _ Hdec) as [kind ->].
      injection Hsub as <-. eauto.
    + destruct (sub payload); [discriminate|]. injection Hsub as <-. eauto.
  - destruct (find_one _ _ _ _); [discriminate|]. intros [= <-]. eauto.
Qed.

(** X16. A request that the authentication dependency rejects is answered
    with that rejection, a 401 or a 403, by every data route; the route then
    reads nothing from the random sources and does not call the external ML
    API, whatever [ML_API_URL] is. *)
Theorem data_routes_reject_unauthenticated (db : database) (auth_time now : datetime)
    (request : Request) (e : exception) (ML_API_URL : option string)
    (requests_get : string -> option string -> Z -> raises Response)
    (days horizon : Z) (drug category priority : option string) (entropy : Entropy) :
  current_user_of hmac_sha256 SECRET_KEY db auth_time request = raise e ->
  (exists detail, e = HTTPException 403 detail \/ e = HTTPException 401 detail) /\
  get_sales_route hmac_sha256 SECRET_KEY db auth_time request days drug now entropy
  = (raise e, entropy) /\
  get_sales_metrics_route hmac_sha256 SECRET_KEY db auth_time request now entropy
  = (raise e, entropy) /\
  get_sales_trends_route hmac_sha256 SECRET_KEY db auth_time request drug now entropy
  = (raise e, entropy) /\
  get_forecast_route hmac_sha256 SECRET_KEY ML_API_URL requests_get db auth_time
    request drug horizon now entropy
  = (raise e, entropy) /\
  get_insights_route hmac_sha256 SECRET_KEY db auth_time request category priority
  = raise e /\
  get_drugs_route hmac_sha256 SECRET_KEY db auth_time request = raise e.
Proof.
  intros Hrej. split; [exact (current_user_of_status _ _ _ _ Hrej)|].
  unfold get_sales_route, get_sales_metrics_route, get_sales_trends_route,
    get_forecast_route, get_insights_route, get_drugs_route,
    protected_state, protected_raising, protected.
  rewrite Hrej. repeat split.
Qed.

End RouteProperties.

Lemma data_routes_reject_unauthenticated_witness :
  current_user_of sample_hmac "k" sample_db 0 (mkRequest None)
  = raise (HTTPException 403 "Not authenticated") /\
  get_forecast_route sample_hmac "k" (Some "http://ml"%string) upstream_ok sample_db 0
    (mkRequest None) None 7 0 sample_entropy
  = (raise (HTTPException 403 "Not authenticated"), sample_entropy).
Proof.
  split; [reflexivity|].
  apply (data_routes_reject_unauthenticated sample_hmac "k" sample_db 0 0
           (mkRequest None) (HTTPException 403 "Not authenticated")
           (Some "http://ml"%string) upstream_ok 30 7 None None None sample_entropy).
  reflexivity.
Defined.

(** ** The band around the mock forecast *)

Lemma py_int_monotone_of_int (v : Z) (x : Qc) :
  (0 <= this x)%Q ->
  ((this x <= inject_Z v)%Q -> py_int x <= v) /\
  ((inject_Z v <= this x)%Q -> v <= py_int x).
Proof.
  intros Hx. rewrite (py_int_floor x Hx). unfold py_floor. split; intros H.
  - rewrite <- (Qfloor_Z v). by apply Qfloor_resp_le.
  - rewrite <- (Qfloor_Z v). by apply Qfloor_resp_le.
Qed.

(** [max(0, int(v * 0.85)) <= v <= int(v * 1.15)] for a count [v]. *)
Lemma band_brackets (v : Z) :
  0 <= v ->
  0 <= Z.max 0 (py_int (of_int v * dec 85 100)%Qc) <= v /\
  v <= py_int (of_int v * dec 115 100)%Qc.
Proof.
  intros Hv.
  assert (Hq : (0 <= inject_Z v)%Q) by (unfold Qle, inject_Z; cbn; lia).
  split.
  - split; [lia|]. apply Z.max_lub; [exact Hv|].
    apply py_int_monotone_of_int.
    + rewrite this_mult, this_of_int, this_dec.
      apply Qmult_le_0_compat; [exact Hq | discriminate].
    + rewrite this_mult, this_of_int, this_dec.
      assert (Heq : (85 # 100 == 1 - (15 # 100))%Q) by reflexivity.
      rewrite Heq. nra.
  - apply py_int_monotone_of_int.
    + rewrite this_mult, this_of_int, this_dec.
      apply Qmult_le_0_compat; [exact Hq | discriminate].
    + rewrite this_mult, this_of_int, this_dec.
      assert (Heq : (115 # 100 == 1 + (15 # 100))%Q) by reflexivity.
      rewrite Heq. nra.
Qed.

(** X17. In every mock forecast the band brackets the prediction: each
    predicted value is a non-negative count, its lower bound lies between 0
    and the prediction, and its upper bound is at least the prediction. A
    forecast is returned whenever the last forecast date is not after
    9999-12-31. *)
Theorem mock_forecast_band (ML_API_URL : option string)
    (requests_get : string -> option string -> Z -> raises Response)
    (drug : option string) (days : Z) (now : datetime) (entropy : Entropy) :
  truthy ML_API_URL = false ->
  (forall f,
     fst (get_forecast ML_API_URL requests_get drug days now entropy)
     = returns (Mock f) ->
     Forall (fun p => 0 <= p) (predicted f) /\
     Forall2 (fun lo p => 0 <= lo <= p) (lower_bound f) (predicted f) /\
     Forall2 (fun p up => p <= up) (predicted f) (upper_bound f)) /\
  (datetime_min <= now -> strftime_Ymd now + days <= date_max ->
   exists f,
     fst (get_forecast ML_API_URL requests_get drug days now entropy)
     = returns (Mock f)).
Proof.
  intros Hurl. split; [|intros Hmin Hmax; eexists; by apply get_forecast_mock].
  intros f.
  rewrite (get_forecast_mock_branch ML_API_URL requests_get drug days now entropy Hurl).
  generalize (snd (generate_mock_sales_data now entropy)).
  generalize (fst (generate_mock_sales_data now entropy)).
  intros all_sales e Hf.
  destruct (fst (forecast_from_sales all_sales drug days now e)) as [err|f'] eqn:Hf';
    [discriminate|].
  injection Hf as <-.
  destruct (forecast_from_sales_inv all_sales drug days now e f' Hf')
    as (days_out & -> & Hdays).
  cbn [forecast_body predicted lower_bound upper_bound].
  assert (Hnonneg : Forall (fun p => 0 <= p) (snd <$> days_out)).
  { by apply Forall_fmap. }
  split; [exact Hnonneg|].
  split.
  - apply Forall2_fmap_l, Forall_Forall2_diag.
    eapply Forall_impl; [exact Hnonneg|]. cbn. intros p Hp. apply band_brackets, Hp.
  - apply Forall2_fmap_r, Forall_Forall2_diag.
    eapply Forall_impl; [exact Hnonneg|]. cbn. intros p Hp. apply band_brackets, Hp.
Qed.

Lemma mock_forecast_band_witness :
  truthy (Some ""%string) = false /\
  exists f,
    fst (get_forecast (Some ""%string) upstream_ok (Some "Metformin"%string) 7
           1700000000000000 sample_entropy) = returns (Mock f) /\
    Forall2 (fun lo p => 0 <= lo <= p) (lower_bound f) (predicted f).
Proof.
  split; [reflexivity|].
  destruct (mock_forecast_band (Some ""%string) upstream_ok (Some "Metformin"%string) 7
              1700000000000000 sample_entropy eq_refl) as [Hband Hreturns].
  destruct Hreturns as [f Hf]; [vm_compute; discriminate | vm_compute; discriminate |].
  exists f. split; [exact Hf|]. by destruct (Hband f Hf) as (_ & Hlow & _).
Defined.
